(** * CSV to Excel converter: a shallow embedding of [csv_to_excel_converter.py]

    The development follows the script top-down:

    - [PyStr]   Python text operations the script calls ([str.replace],
                [str.strip], slicing, decimal printing);
    - [F64]     binary64 arithmetic (on the Standard Library's [SpecFloat])
                and the [".2f"] format;
    - the pandas table, the openpyxl worksheet and workbook;
    - the methods of [CSVToExcelConverter], stage by stage, in a state and
      exception monad;
    - the properties of the specification, one section per component.

    Text is modelled by [string]; a character of the model stands for one
    code point of a Python [str] (the model's alphabet is the 8-bit one).
    Calls into pandas and openpyxl whose result the script only passes on (the
    CSV parser, [mean], [describe], the shortest [repr] of a float, the
    renaming of a duplicated sheet title, the serializer) are fields of the
    class [Library]; everything the script itself computes is defined here. *)

From Stdlib Require Import ZArith Ascii String DecimalString SpecFloat List Lia.
From stdpp Require Import gmap strings list fin_maps.

Local Open Scope Z_scope.

(* ===================================================================== *)
(** * Python text operations *)
(* ===================================================================== *)

Module PyStr.

(** [str(n)] for a Python [int]. *)
Definition of_Z (z : Z) : string := NilZero.string_of_int (Z.to_int z).

Definition of_nat (n : nat) : string := of_Z (Z.of_nat n).


(** [sep.join(pieces)] *)
Fixpoint join (sep : string) (pieces : list string) : string :=
  match pieces with
  | [] => ""
  | [p] => p
  | p :: rest => p +:+ sep +:+ join sep rest
  end.

(** [s[:n]] *)
Definition take (n : nat) (s : string) : string := String.substring 0 n s.

(** [c * n] for a one-character string. *)
Fixpoint repeat (c : ascii) (n : nat) : string :=
  match n with
  | O => ""
  | S k => String c (repeat c k)
  end.

(** [old in s]: some suffix of [s] starts with [old]. *)
Fixpoint contains (old s : string) : bool :=
  String.prefix old s ||
  match s with
  | EmptyString => false
  | String _ t => contains old t
  end.

(** [s.replace(old, new)] for a non-empty [old]: the text is scanned from
    the left; an occurrence of [old] is replaced and the scan resumes
    behind it.  [skip] counts the characters of a matched occurrence that
    are still to be passed over. *)
Fixpoint replace_from (skip : nat) (old new s : string) : string :=
  match s with
  | EmptyString => EmptyString
  | String c t =>
      match skip with
      | S k => replace_from k old new t
      | O =>
          if String.prefix old s
          then new +:+ replace_from (Nat.pred (String.length old)) old new t
          else String c (replace_from 0 old new t)
      end
  end.

Definition replace (old new s : string) : string := replace_from 0 old new s.

(** [str.isspace] on the code points below 256. *)
Definition isspace (c : ascii) : bool :=
  let n := nat_of_ascii c in
  ((9 <=? n) && (n <=? 13) || (28 <=? n) && (n <=? 32)
   || (n =? 133) || (n =? 160))%nat.

Fixpoint lstrip (s : string) : string :=
  match s with
  | EmptyString => EmptyString
  | String c t => if isspace c then lstrip t else s
  end.

Fixpoint rstrip (s : string) : string :=
  match s with
  | EmptyString => EmptyString
  | String c t =>
      match rstrip t with
      | EmptyString => if isspace c then EmptyString else String c EmptyString
      | t' => String c t'
      end
  end.

(** [s.strip()] *)
Definition strip (s : string) : string := lstrip (rstrip s).

(** [f"{n:02d}"] and [f"{n:04d}"] *)
Definition pad (width : nat) (n : nat) : string :=
  let d := of_nat n in
  repeat "0" (width - String.length d) +:+ d.

(** Groups of three digits from the right, as [f"{n:,}"] prints them. *)
Fixpoint group3 (digits : list ascii) (k : nat) : list ascii :=
  match digits with
  | [] => []
  | d :: rest =>
      match k, rest with
      | O, _ :: _ => d :: ","%char :: group3 rest 2
      | O, [] => [d]
      | S k', _ => d :: group3 rest k'
      end
  end.

Definition thousands (n : nat) : string :=
  let ds := list_ascii_of_string (of_nat n) in
  string_of_list_ascii
    (group3 ds ((length ds + 2) mod 3)%nat).

End PyStr.

(* ===================================================================== *)
(** * binary64 and the two-decimal format *)
(* ===================================================================== *)

Module F64.

Definition prec : Z := 53.
Definition emax : Z := 1024.

Definition nan : spec_float := S754_nan.

(** Conversion of an integer, rounding to nearest even. *)
Definition of_Z (z : Z) : spec_float := binary_normalize prec emax z 0 false.

Definition div : spec_float -> spec_float -> spec_float := SFdiv prec emax.
Definition mul : spec_float -> spec_float -> spec_float := SFmul prec emax.

(** [math.isnan] *)
Definition is_nan (x : spec_float) : bool :=
  match x with S754_nan => true | _ => false end.

(** [a / b] rounded to the nearest integer, ties to even ([0 <= a], [0 < b]). *)
Definition div_half_even (a b : Z) : Z :=
  let q := a / b in
  let r := a mod b in
  match (2 * r ?= b) with
  | Lt => q
  | Gt => q + 1
  | Eq => if Z.even q then q else q + 1
  end.

(** The magnitude [m * 2^e] in hundredths, correctly rounded. *)
Definition hundredths (m : positive) (e : Z) : Z :=
  match e with
  | Z0 => 100 * Zpos m
  | Zpos _ => 100 * Zpos m * 2 ^ e
  | Zneg p => div_half_even (100 * Zpos m) (2 ^ Zpos p)
  end.

Definition fixed2 (h : Z) : string :=
  PyStr.of_Z (h / 100) +:+ "." +:+ PyStr.pad 2 (Z.to_nat (h mod 100)).

Definition sign_str (s : bool) : string := if s then "-" else "".

(** [f"{x:.2f}"]: the exact binary value printed with two decimals,
    correctly rounded (ties to even). *)
Definition format_2f (x : spec_float) : string :=
  match x with
  | S754_nan => "nan"
  | S754_infinity s => sign_str s +:+ "inf"
  | S754_zero s => sign_str s +:+ "0.00"
  | S754_finite s m e => sign_str s +:+ fixed2 (hundredths m e)
  end.

(** [f"{(k / n) * 100:.2f}%"], with [k / n] a true division in binary64. *)
Definition percent (k n : Z) : string :=
  format_2f (mul (div (of_Z k) (of_Z n)) (of_Z 100)) +:+ "%".

End F64.

(* ===================================================================== *)
(** * Exceptions *)
(* ===================================================================== *)

Inductive ExnClass :=
  | UnicodeDecodeError
  | AttributeError
  | ValueError
  | OSError
  | OtherError.

Record Exn := { exn_class : ExnClass; exn_msg : string }.

Inductive result (A : Type) :=
  | Ok (a : A)
  | Raise (e : Exn).
Arguments Ok {A} a.
Arguments Raise {A} e.

Definition is_Ok {A} (r : result A) : bool :=
  match r with Ok _ => true | Raise _ => false end.

#[global] Instance ExnClass_eq_dec : EqDecision ExnClass.
Proof. solve_decision. Defined.

(* ===================================================================== *)
(** * Cell values and the pandas table *)
(* ===================================================================== *)

(** What a table cell or a worksheet cell holds.  A missing table entry is
    the float NaN ([VFloat S754_nan]); an empty worksheet cell is [VNone]. *)
Inductive Value :=
  | VNone
  | VBool (b : bool)
  | VInt (z : Z)
  | VFloat (x : spec_float)
  | VStr (s : string).

#[global] Instance spec_float_eq_dec : EqDecision spec_float.
Proof. solve_decision. Defined.
#[global] Instance Value_eq_dec : EqDecision Value.
Proof. solve_decision. Defined.

Inductive Dtype := int64 | float64 | bool_ | object_.

#[global] Instance Dtype_eq_dec : EqDecision Dtype.
Proof. solve_decision. Defined.

(** [str(dtype)] *)
Definition dtype_str (d : Dtype) : string :=
  match d with
  | int64 => "int64"
  | float64 => "float64"
  | bool_ => "bool"
  | object_ => "object"
  end.

(** One labelled column. *)
Record Series := {
  name : string;
  dtype : Dtype;
  values : list Value
}.

(** [df_len] is [len(df)], the length of the index. *)
Record DataFrame := {
  df_columns : list Series;
  df_len : nat
}.

(** Every column spans the index. *)
Definition wf_df (df : DataFrame) : Prop :=
  Forall (fun c => length (values c) = df_len df) (df_columns df).

Module Pd.

(** [pd.isnull] on a scalar. *)
Definition isnull (v : Value) : bool :=
  match v with
  | VNone => true
  | VFloat S754_nan => true
  | _ => false
  end.

Definition notnull (v : Value) : bool := negb (isnull v).

(** [series.count()] and [series.isnull().sum()] *)
Definition count (s : Series) : nat := length (filter (fun v => notnull v = true) (values s)).
Definition isnull_sum (s : Series) : nat := length (filter (fun v => isnull v = true) (values s)).

(** The exact value [m * 2^e] of a number. *)
Definition num_of (v : Value) : option (Z * Z) :=
  match v with
  | VBool b => Some (if b then 1 else 0, 0)
  | VInt z => Some (z, 0)
  | VFloat (S754_zero _) => Some (0, 0)
  | VFloat (S754_finite s m e) => Some (if s then Zneg m else Zpos m, e)
  | _ => None
  end.

Definition same_number (x y : Z * Z) : bool :=
  let e := Z.min (snd x) (snd y) in
  fst x * 2 ^ (snd x - e) =? fst y * 2 ^ (snd y - e).

(** Equality of keys in pandas' object hash table: Python's [==], and
    NaN is one key. *)
Definition key_eqb (a b : Value) : bool :=
  match a, b with
  | VNone, VNone => true
  | VStr s, VStr t => String.eqb s t
  | VFloat S754_nan, VFloat S754_nan => true
  | VFloat (S754_infinity s), VFloat (S754_infinity t) => Bool.eqb s t
  | _, _ =>
      match num_of a, num_of b with
      | Some x, Some y => same_number x y
      | _, _ => false
      end
  end.

Definition seen (v : Value) (keys : list Value) : bool := existsb (key_eqb v) keys.

(** [series.unique()]: the distinct values in order of first appearance;
    a missing value is a value like any other. *)
Definition unique (l : list Value) : list Value :=
  foldl (fun keys v => if seen v keys then keys else keys ++ [v]) [] l.

Definition occurrences (v : Value) (l : list Value) : nat :=
  length (filter (fun w => key_eqb v w = true) l).

(** Insertion by decreasing count; among equal counts the value seen
    first stays first. *)
Fixpoint insert_desc (x : Value * nat) (l : list (Value * nat)) : list (Value * nat) :=
  match l with
  | [] => [x]
  | y :: t => if (snd y <=? snd x)%nat then x :: l else y :: insert_desc x t
  end.

Definition sort_desc (l : list (Value * nat)) : list (Value * nat) :=
  foldr insert_desc [] l.

(** [series.value_counts()]: missing values are dropped, the distinct
    remaining values are counted and listed by decreasing count. *)
Definition value_counts (l : list Value) : list (Value * nat) :=
  let present := filter (fun v => notnull v = true) l in
  sort_desc (map (fun v => (v, occurrences v present)) (unique present)).

(** [df.select_dtypes(include=[np.number]).columns] and
    [df.select_dtypes(include=['object']).columns] *)
Definition is_number (d : Dtype) : bool :=
  match d with int64 | float64 => true | _ => false end.

Definition is_object (d : Dtype) : bool :=
  match d with object_ => true | _ => false end.

Definition select_number (df : DataFrame) : list string :=
  map name (filter (fun c => is_number (dtype c) = true) (df_columns df)).

Definition select_object (df : DataFrame) : list string :=
  map name (filter (fun c => is_object (dtype c) = true) (df_columns df)).

(** [df[col]].  With a label carried by several columns pandas returns a
    frame, on which the attribute the script asks for next ([dtype],
    [unique], a scalar [mean]) does not exist. *)
Definition getitem (df : DataFrame) (col : string) : result Series :=
  match filter (fun c => name c = col) (df_columns df) with
  | [c] => Ok c
  | [] => Raise {| exn_class := OtherError; exn_msg := col |}
  | _ => Raise {| exn_class := AttributeError;
                  exn_msg := "'DataFrame' object has no attribute" |}
  end.

(** [df.columns.str.strip()] *)
Definition strip_columns (df : DataFrame) : DataFrame :=
  {| df_columns :=
       map (fun c => {| name := PyStr.strip (name c); dtype := dtype c;
                        values := values c |}) (df_columns df);
     df_len := df_len df |}.

(** The rows [dataframe_to_rows(df, index=False, header=True)] yields. *)
Definition header_row (df : DataFrame) : list Value :=
  map (fun c => VStr (name c)) (df_columns df).

Definition data_row (df : DataFrame) (i : nat) : list Value :=
  map (fun c => nth i (values c) (VFloat S754_nan)) (df_columns df).

Definition dataframe_to_rows (df : DataFrame) : list (list Value) :=
  header_row df :: map (data_row df) (seq 0 (df_len df)).

End Pd.

(* ===================================================================== *)
(** * The openpyxl workbook *)
(* ===================================================================== *)

Record Font := { bold : bool; color : option string; size : nat }.
Record PatternFill := { fill_type : option string; start_color : string; end_color : string }.
Record Alignment := { horizontal : option string; vertical : option string }.
Record Border := { left : option string; right : option string;
                   top : option string; bottom : option string }.

Record Cell := {
  value : Value;
  font : Font;
  fill : PatternFill;
  alignment : Alignment;
  border : Border
}.

(** A cell openpyxl has just created. *)
Definition default_font : Font := {| bold := false; color := None; size := 11 |}.
Definition no_fill : PatternFill := {| fill_type := None; start_color := "00000000"; end_color := "00000000" |}.
Definition no_alignment : Alignment := {| horizontal := None; vertical := None |}.
Definition no_border : Border := {| left := None; right := None; top := None; bottom := None |}.

Definition new_cell (v : Value) : Cell :=
  {| value := v; font := default_font; fill := no_fill;
     alignment := no_alignment; border := no_border |}.

Definition with_value (v : Value) (c : Cell) : Cell :=
  {| value := v; font := font c; fill := fill c; alignment := alignment c; border := border c |}.
Definition with_font (f : Font) (c : Cell) : Cell :=
  {| value := value c; font := f; fill := fill c; alignment := alignment c; border := border c |}.
Definition with_fill (f : PatternFill) (c : Cell) : Cell :=
  {| value := value c; font := font c; fill := f; alignment := alignment c; border := border c |}.
Definition with_alignment (a : Alignment) (c : Cell) : Cell :=
  {| value := value c; font := font c; fill := fill c; alignment := a; border := border c |}.
Definition with_border (b : Border) (c : Cell) : Cell :=
  {| value := value c; font := font c; fill := fill c; alignment := alignment c; border := b |}.

(** A cell address is [(row, column)], both counted from 1: ['B5'] is
    [(5, 2)].  Column dimensions are keyed by the column index, which
    stands for its letter. *)
Abbreviation Addr := (nat * nat)%type (only parsing).

Record Reference := { min_col : nat; min_row : nat; max_col : nat; max_row : nat }.

Inductive ChartKind := BarChart | PieChart.

Record Chart := {
  kind : ChartKind;
  chart_title : string;
  x_axis_title : option string;
  y_axis_title : option string;
  chart_data : option Reference;
  titles_from_data : bool;
  categories : option Reference;
  anchor : Addr
}.

Record TableStyleInfo := {
  style_name : string;
  showFirstColumn : bool;
  showLastColumn : bool;
  showRowStripes : bool;
  showColumnStripes : bool
}.

Record Table := {
  displayName : string;
  ref : Addr * Addr;
  tableStyleInfo : TableStyleInfo
}.

Record Worksheet := {
  title : string;
  _cells : gmap (nat * nat) Cell;
  _current_row : nat;
  column_dimensions : gmap nat nat;
  tables : list Table;
  charts : list Chart
}.

Record Properties := {
  prop_title : string;
  prop_subject : string;
  prop_creator : string;
  prop_description : string
}.

Record Workbook := {
  worksheets : list Worksheet;
  active : nat;
  properties : Properties
}.

Definition new_worksheet (t : string) : Worksheet :=
  {| title := t; _cells := ∅; _current_row := 0%nat; column_dimensions := ∅;
     tables := []; charts := [] |}.

Definition with_cells (m : gmap (nat * nat) Cell) (cur : nat) (ws : Worksheet) : Worksheet :=
  {| title := title ws; _cells := m; _current_row := cur;
     column_dimensions := column_dimensions ws; tables := tables ws; charts := charts ws |}.

(* ===================================================================== *)
(** * The libraries behind the script *)
(* ===================================================================== *)

Inductive Encoding := utf_8 | utf_8_sig | latin_1.

Class Library := {
  (** [pd.read_csv(path, encoding=...)] on the bytes of the file *)
  read_csv : list Byte.byte -> Encoding -> result DataFrame;
  (** [str(x)] for a float: its shortest representation *)
  float_str : spec_float -> string;
  (** [series.mean()] *)
  mean : Series -> spec_float;
  (** [df.describe().loc[stat, col]] *)
  describe : string -> Series -> spec_float;
  (** openpyxl's renaming of a sheet title that is already in use *)
  avoid_duplicate_name : list string -> string -> string;
  (** the bytes [workbook.save] writes *)
  xlsx_bytes : Workbook -> list Byte.byte
}.

(** [str(v)] *)
Definition py_str `{Library} (v : Value) : string :=
  match v with
  | VNone => "None"
  | VBool true => "True"
  | VBool false => "False"
  | VInt z => PyStr.of_Z z
  | VFloat x => float_str x
  | VStr t => t
  end.

(* ===================================================================== *)
(** * State and exceptions *)
(* ===================================================================== *)

(** A computation on a mutable [S] that returns or raises; the state it
    leaves behind is kept in both cases. *)
Definition M (S A : Type) : Type := S -> result A * S.

#[global] Instance M_ret {S} : MRet (M S) := fun A a st => (Ok a, st).

#[global] Instance M_bind {S} : MBind (M S) := fun A B f m st =>
  match m st with
  | (Ok a, st') => f a st'
  | (Raise e, st') => (Raise e, st')
  end.

Definition raise {S A} (e : Exn) : M S A := fun st => (Raise e, st).

Definition get {S} : M S S := fun st => (Ok st, st).

Definition gets {S A} (f : S -> A) : M S A := fun st => (Ok (f st), st).

Definition modify {S} (f : S -> S) : M S unit := fun st => (Ok tt, f st).

(** A pandas call that may raise. *)
Definition lift {S A} (r : result A) : M S A := fun st => (r, st).

(** [for x in l: body] *)
Fixpoint for_each {S A} (l : list A) (body : A -> M S unit) : M S unit :=
  match l with
  | [] => mret tt
  | x :: rest => body x ;; for_each rest body
  end.

(** [enumerate(l, start)] *)
Fixpoint enumerate {A} (start : nat) (l : list A) : list (nat * A) :=
  match l with
  | [] => []
  | x :: rest => (start, x) :: enumerate (S start) rest
  end.

(* ===================================================================== *)
(** * Worksheet operations *)
(* ===================================================================== *)

Module Ws.

(** [ws.max_row] and [ws.max_column]: 1 on an empty sheet. *)
Definition max_key (f : nat * nat -> nat) (m : gmap (nat * nat) Cell) : nat :=
  map_fold (fun k _ acc => Nat.max (f k) acc) 0%nat m.

Definition max_row (ws : Worksheet) : nat := Nat.max 1 (max_key fst (_cells ws)).
Definition max_column (ws : Worksheet) : nat := Nat.max 1 (max_key snd (_cells ws)).

(** The content of a cell; a cell that was never created reads as a
    new one. *)
Definition cell_at (ws : Worksheet) (a : Addr) : Cell :=
  default (new_cell VNone) (_cells ws !! a).

(** [ws.cell(row, column)] followed by an update of the cell object: the
    cell is created first when the sheet does not have it. *)
Definition update (f : Cell -> Cell) (a : Addr) (ws : Worksheet) : Worksheet :=
  match _cells ws !! a with
  | Some c => with_cells (<[a := f c]> (_cells ws)) (_current_row ws) ws
  | None => with_cells (<[a := f (new_cell VNone)]> (_cells ws))
              (Nat.max (fst a) (_current_row ws)) ws
  end.

(** [ws[addr] = v] *)
Definition set_value (a : Addr) (v : Value) : Worksheet -> Worksheet := update (with_value v) a.
(** [ws[addr].font = f] and the like *)
Definition set_font (a : Addr) (f : Font) : Worksheet -> Worksheet := update (with_font f) a.
Definition set_fill (a : Addr) (f : PatternFill) : Worksheet -> Worksheet := update (with_fill f) a.
Definition set_alignment (a : Addr) (x : Alignment) : Worksheet -> Worksheet := update (with_alignment x) a.
Definition set_border (a : Addr) (b : Border) : Worksheet -> Worksheet := update (with_border b) a.

(** Reading a cell through [ws.cell] creates it. *)
Definition touch : Addr -> Worksheet -> Worksheet := update (fun c => c).

(** [ws.append(row)]: fresh cells in the row below the current one. *)
Definition append (row : list Value) (ws : Worksheet) : Worksheet :=
  let r := S (_current_row ws) in
  with_cells
    (foldl (fun m '(c, v) => <[(r, c) := new_cell v]> m) (_cells ws) (enumerate 1 row))
    r ws.

(** The addresses [ws[r]] and [ws.iter_rows(min_row, max_row)] walk. *)
Definition row_addrs (ws : Worksheet) (r : nat) : list Addr :=
  map (fun c => (r, c)) (seq 1 (max_column ws)).

Definition iter_rows (ws : Worksheet) (lo hi : nat) : list (list Addr) :=
  map (row_addrs ws) (seq lo (S hi - lo)).

(** The addresses of [ws.columns]: nothing on a sheet that never had a
    row, else columns 1 to [max_column], each from row 1 to [max_row]. *)
Definition column_addrs (ws : Worksheet) (c : nat) : list Addr :=
  map (fun r => (r, c)) (seq 1 (max_row ws)).

Definition columns (ws : Worksheet) : list (list Addr) :=
  match _current_row ws with
  | O => []
  | _ => map (column_addrs ws) (seq 1 (max_column ws))
  end.

Definition set_width (c w : nat) (ws : Worksheet) : Worksheet :=
  {| title := title ws; _cells := _cells ws; _current_row := _current_row ws;
     column_dimensions := <[c := w]> (column_dimensions ws);
     tables := tables ws; charts := charts ws |}.

Definition add_table (t : Table) (ws : Worksheet) : Worksheet :=
  {| title := title ws; _cells := _cells ws; _current_row := _current_row ws;
     column_dimensions := column_dimensions ws;
     tables := tables ws ++ [t]; charts := charts ws |}.

Definition add_chart (ch : Chart) (ws : Worksheet) : Worksheet :=
  {| title := title ws; _cells := _cells ws; _current_row := _current_row ws;
     column_dimensions := column_dimensions ws;
     tables := tables ws; charts := charts ws ++ [ch] |}.

End Ws.

(* ===================================================================== *)
(** * The converter object and its environment *)
(* ===================================================================== *)

Record DateTime := {
  year : nat; month : nat; day : nat;
  hour : nat; minute : nat; second : nat
}.

(** [t.strftime("%Y-%m-%d")] and [t.strftime("%Y-%m-%d %H:%M:%S")] *)
Definition strftime_date (t : DateTime) : string :=
  PyStr.pad 4 (year t) +:+ "-" +:+ PyStr.pad 2 (month t) +:+ "-" +:+ PyStr.pad 2 (day t).

Definition strftime_datetime (t : DateTime) : string :=
  strftime_date t +:+ " " +:+ PyStr.pad 2 (hour t) +:+ ":" +:+ PyStr.pad 2 (minute t)
  +:+ ":" +:+ PyStr.pad 2 (second t).

(** The file system, the terminal and the clock.  [denied] holds the paths
    that cannot be opened for writing; [clock] gives the successive
    readings of [datetime.now()], [ticks] counts the readings taken. *)
Record World := {
  files : gmap string (list Byte.byte);
  denied : gset string;
  stdout : list string;
  clock : nat -> DateTime;
  ticks : nat
}.

Record Converter := {
  csv_file_path : string;
  output_file_path : string;
  data : option DataFrame;
  workbook : option Workbook
}.

Record State := { self : Converter; world : World }.

(** The styling attributes [__init__] sets; no method assigns them again. *)
Definition header_font : Font := {| bold := true; color := Some "FFFFFF"; size := 12 |}.
Definition header_fill : PatternFill :=
  {| fill_type := Some "solid"; start_color := "366092"; end_color := "366092" |}.
Definition header_alignment : Alignment :=
  {| horizontal := Some "center"; vertical := Some "center" |}.
Definition data_font : Font := {| bold := false; color := None; size := 10 |}.
Definition data_alignment : Alignment :=
  {| horizontal := Some "left"; vertical := Some "center" |}.
Definition thin_border : Border :=
  {| left := Some "thin"; right := Some "thin"; top := Some "thin"; bottom := Some "thin" |}.

(** Python truth of [output_file_path]: [None] and the empty text are false. *)
Definition truthy (o : option string) : bool :=
  match o with
  | Some EmptyString => false
  | Some _ => true
  | None => false
  end.

(** [CSVToExcelConverter.__init__] *)
Definition init (csv_file_path : string) (output_file_path : option string) : Converter :=
  {| csv_file_path := csv_file_path;
     output_file_path :=
       if truthy output_file_path then default EmptyString output_file_path
       else PyStr.replace ".csv" "_comprehensive.xlsx" csv_file_path;
     data := None;
     workbook := None |}.

Section Methods.
Context `{Library}.

(** ** Access to the object and the environment *)

Definition with_world (f : World -> World) (st : State) : State :=
  {| self := self st; world := f (world st) |}.

Definition with_self (f : Converter -> Converter) (st : State) : State :=
  {| self := f (self st); world := world st |}.

Definition log (line : string) (w : World) : World :=
  {| files := files w; denied := denied w; stdout := stdout w ++ [line];
     clock := clock w; ticks := ticks w |}.

(** [print(line)] *)
Definition print (line : string) : M State unit := modify (with_world (log line)).

(** [datetime.now()] *)
Definition tick (w : World) : World :=
  {| files := files w; denied := denied w; stdout := stdout w;
     clock := clock w; ticks := S (ticks w) |}.

Definition now : M State DateTime := fun st =>
  (Ok (clock (world st) (ticks (world st))), with_world tick st).

Definition no_attribute {A} : M State A :=
  raise {| exn_class := AttributeError;
           exn_msg := "'NoneType' object has no attribute" |}.

(** [self.data] and [self.workbook], where the method goes on to use them. *)
Definition the_data : M State DataFrame := fun st =>
  match data (self st) with
  | Some df => (Ok df, st)
  | None => no_attribute st
  end.

Definition the_workbook : M State Workbook := fun st =>
  match workbook (self st) with
  | Some wb => (Ok wb, st)
  | None => no_attribute st
  end.

Definition put_data (df : DataFrame) (c : Converter) : Converter :=
  {| csv_file_path := csv_file_path c; output_file_path := output_file_path c;
     data := Some df; workbook := workbook c |}.

Definition put_workbook (wb : Workbook) (c : Converter) : Converter :=
  {| csv_file_path := csv_file_path c; output_file_path := output_file_path c;
     data := data c; workbook := Some wb |}.

(** [self.data = df] and [self.workbook = wb] *)
Definition set_data (df : DataFrame) : M State unit := modify (with_self (put_data df)).

Definition set_workbook (wb : Workbook) : M State unit := modify (with_self (put_workbook wb)).

(** A workbook with other sheets. *)
Definition with_sheets (l : list Worksheet) (wb : Workbook) : Workbook :=
  {| worksheets := l; active := active wb; properties := properties wb |}.

(** [self.workbook.create_sheet(title)]: the sheet is appended; the
    result is its position. *)
Definition create_sheet (t : string) : M State nat :=
  wb ← the_workbook;
  let t' := avoid_duplicate_name (map title (worksheets wb)) t in
  set_workbook (with_sheets (worksheets wb ++ [new_worksheet t']) wb) ;;
  mret (length (worksheets wb)).

(** Statements on the worksheet object [ws] held at position [i]. *)
Definition on_sheet {A} (i : nat) (m : M Worksheet A) : M State A :=
  wb ← the_workbook;
  match worksheets wb !! i with
  | None => no_attribute
  | Some ws =>
      let '(r, ws') := m ws in
      set_workbook (with_sheets (<[i := ws']> (worksheets wb)) wb) ;;
      lift r
  end.

(** ** Statements on a worksheet *)

Definition cell_ref (letter : ascii) (row : nat) : Addr :=
  (row, (nat_of_ascii letter - 64)%nat).

Definition style_header (a : Addr) : M Worksheet unit :=
  modify (Ws.set_font a header_font) ;;
  modify (Ws.set_fill a header_fill) ;;
  modify (Ws.set_alignment a header_alignment).

(** The width loop shared by the main and the summary sheet:
    [[
      for column in ws.columns:
          max_length = 0
          column_letter = column[0].column_letter
          for cell in column:
              if len(str(cell.value)) > max_length:
                  max_length = len(str(cell.value))
          adjusted_width = min(max_length + 2, cap)
          ws.column_dimensions[column_letter].width = adjusted_width
    ]] *)
Definition longest (ws : Worksheet) (column : list Addr) : nat :=
  foldl (fun max_length a =>
           let n := String.length (py_str (value (Ws.cell_at ws a))) in
           if (max_length <? n)%nat then n else max_length)
        0%nat column.

Definition adjust_widths (cap : nat) : M Worksheet unit :=
  ws0 ← get;
  for_each (Ws.columns ws0) (fun column =>
    for_each column (fun a => modify (Ws.touch a)) ;;
    match column with
    | [] => raise {| exn_class := OtherError; exn_msg := "tuple index out of range" |}
    | first :: _ =>
        ws ← get;
        let max_length := longest ws column in
        modify (Ws.set_width (snd first) (Nat.min (max_length + 2) cap))
    end).

(** ** [load_data] *)

Definition file_not_found {A} (path : string) : M State A :=
  raise {| exn_class := OSError; exn_msg := "No such file or directory: " +:+ path |}.

(** One call of [pd.read_csv(self.csv_file_path, encoding=enc)] *)
Definition pd_read_csv (enc : Encoding) : M State DataFrame := fun st =>
  match files (world st) !! csv_file_path (self st) with
  | None => file_not_found (csv_file_path (self st)) st
  | Some bytes => (read_csv bytes enc, st)
  end.

(** [try: body  except UnicodeDecodeError: handler] *)
Definition except_decode_error {A} (body handler : M State A) : M State A := fun st =>
  match body st with
  | (Raise e, st') =>
      match exn_class e with
      | UnicodeDecodeError => handler st'
      | _ => (Raise e, st')
      end
  | r => r
  end.

Definition load_data : M State DataFrame :=
  path ← gets (fun st => csv_file_path (self st));
  print ("Loading data from " +:+ path +:+ "...") ;;
  df ← except_decode_error (pd_read_csv utf_8)
         (except_decode_error (pd_read_csv utf_8_sig) (pd_read_csv latin_1));
  set_data df ;;
  print ("Data loaded successfully: " +:+ PyStr.of_nat (df_len df) +:+ " rows, "
         +:+ PyStr.of_nat (length (df_columns df)) +:+ " columns") ;;
  set_data (Pd.strip_columns df) ;;
  mret (Pd.strip_columns df).

(** ** [create_workbook] *)

Definition default_properties : Properties :=
  {| prop_title := ""; prop_subject := ""; prop_creator := "openpyxl"; prop_description := "" |}.

(** [Workbook()] comes with one sheet, which the method removes. *)
Definition create_workbook : M State Workbook :=
  print "Creating Excel workbook..." ;;
  let wb := {| worksheets := []; active := 0%nat; properties := default_properties |} in
  set_workbook wb ;;
  mret wb.

(** ** [create_main_data_sheet] *)

Definition data_table (ws : Worksheet) : Table :=
  {| displayName := "DataTable";
     ref := ((1, 1), (Ws.max_row ws, Ws.max_column ws))%nat;
     tableStyleInfo :=
       {| style_name := "TableStyleMedium9"; showFirstColumn := false;
          showLastColumn := false; showRowStripes := true; showColumnStripes := true |} |}.

Definition main_data_body (df : DataFrame) : M Worksheet unit :=
  for_each (Pd.dataframe_to_rows df) (fun r => modify (Ws.append r)) ;;
  ws ← get;
  for_each (Ws.row_addrs ws 1) (fun cell =>
    modify (Ws.set_font cell header_font) ;;
    modify (Ws.set_fill cell header_fill) ;;
    modify (Ws.set_alignment cell header_alignment) ;;
    modify (Ws.set_border cell thin_border)) ;;
  ws ← get;
  for_each (Ws.iter_rows ws 2 (Ws.max_row ws)) (fun row =>
    for_each row (fun cell =>
      modify (Ws.set_font cell data_font) ;;
      modify (Ws.set_alignment cell data_alignment) ;;
      modify (Ws.set_border cell thin_border))) ;;
  adjust_widths 50 ;;
  if (0 <? df_len df)%nat
  then ws ← get; modify (Ws.add_table (data_table ws))
  else mret tt.

Definition create_main_data_sheet : M State nat :=
  print "Creating main data sheet..." ;;
  ws ← create_sheet "Complete Data";
  df ← the_data;
  on_sheet ws (main_data_body df) ;;
  mret ws.

(** ** [create_summary_sheet] *)

Definition title_font (pt : nat) : Font := {| bold := true; color := None; size := pt |}.

Definition stat_index : list string :=
  ["count"; "mean"; "std"; "min"; "25%"; "50%"; "75%"; "max"].

(** Up to the cell that receives the time stamp. *)
Definition summary_head (df : DataFrame) : M Worksheet unit :=
  modify (Ws.set_value (cell_ref "A" 1) (VStr "Dataset Overview")) ;;
  modify (Ws.set_font (cell_ref "A" 1) (title_font 16)) ;;
  modify (Ws.set_value (cell_ref "A" 3) (VStr "Total Records:")) ;;
  modify (Ws.set_value (cell_ref "B" 3) (VInt (Z.of_nat (df_len df)))) ;;
  modify (Ws.set_value (cell_ref "A" 4) (VStr "Total Columns:")) ;;
  modify (Ws.set_value (cell_ref "B" 4) (VInt (Z.of_nat (length (df_columns df))))) ;;
  modify (Ws.set_value (cell_ref "A" 5) (VStr "File Generated:")).

(** One line of the column table:
    [[
      ws[f'A{i}'] = col
      ws[f'B{i}'] = str(self.data[col].dtype)
      ws[f'C{i}'] = self.data[col].count()
      ws[f'D{i}'] = self.data[col].isnull().sum()
      ws[f'E{i}'] = f"{(self.data[col].isnull().sum() / len(self.data)) * 100:.2f}%"
    ]] *)
Definition column_info (df : DataFrame) (i : nat) (col : string) : M Worksheet unit :=
  modify (Ws.set_value (cell_ref "A" i) (VStr col)) ;;
  c ← lift (Pd.getitem df col);
  modify (Ws.set_value (cell_ref "B" i) (VStr (dtype_str (dtype c)))) ;;
  modify (Ws.set_value (cell_ref "C" i) (VInt (Z.of_nat (Pd.count c)))) ;;
  modify (Ws.set_value (cell_ref "D" i) (VInt (Z.of_nat (Pd.isnull_sum c)))) ;;
  modify (Ws.set_value (cell_ref "E" i)
            (VStr (F64.percent (Z.of_nat (Pd.isnull_sum c)) (Z.of_nat (df_len df))))).

Definition stat_cell (x : spec_float) : Value :=
  VStr (if Pd.notnull (VFloat x) then F64.format_2f x else "N/A").

Definition numeric_block (df : DataFrame) (numeric_cols : list string) : M Worksheet unit :=
  let start_row := (length (df_columns df) + 11)%nat in
  modify (Ws.set_value (cell_ref "A" start_row) (VStr "Numeric Columns Statistics")) ;;
  modify (Ws.set_font (cell_ref "A" start_row) (title_font 14)) ;;
  for_each (enumerate 0 ("Statistic" :: numeric_cols)) (fun '(i, header) =>
    let cell := (start_row + 2, i + 1)%nat in
    modify (Ws.set_value cell (VStr header)) ;;
    style_header cell) ;;
  for_each (enumerate 0 stat_index) (fun '(i, stat) =>
    modify (Ws.set_value (start_row + 3 + i, 1)%nat (VStr stat)) ;;
    for_each (enumerate 0 numeric_cols) (fun '(j, col) =>
      c ← lift (Pd.getitem df col);
      modify (Ws.set_value (start_row + 3 + i, j + 2)%nat (stat_cell (describe stat c))))).

Definition summary_body (df : DataFrame) (stamp : string) : M Worksheet unit :=
  modify (Ws.set_value (cell_ref "B" 5) (VStr stamp)) ;;
  modify (Ws.set_value (cell_ref "A" 7) (VStr "Column Information")) ;;
  modify (Ws.set_font (cell_ref "A" 7) (title_font 14)) ;;
  modify (Ws.set_value (cell_ref "A" 8) (VStr "Column Name")) ;;
  modify (Ws.set_value (cell_ref "B" 8) (VStr "Data Type")) ;;
  modify (Ws.set_value (cell_ref "C" 8) (VStr "Non-Null Count")) ;;
  modify (Ws.set_value (cell_ref "D" 8) (VStr "Null Count")) ;;
  modify (Ws.set_value (cell_ref "E" 8) (VStr "Null Percentage")) ;;
  for_each [cell_ref "A" 8; cell_ref "B" 8; cell_ref "C" 8; cell_ref "D" 8; cell_ref "E" 8]
    style_header ;;
  for_each (enumerate 9 (map name (df_columns df))) (fun '(i, col) => column_info df i col) ;;
  let numeric_cols := Pd.select_number df in
  (if (0 <? length numeric_cols)%nat then numeric_block df numeric_cols else mret tt) ;;
  adjust_widths 30.

Definition create_summary_sheet : M State nat :=
  print "Creating summary sheet..." ;;
  ws ← create_sheet "Data Summary";
  df ← the_data;
  on_sheet ws (summary_head df) ;;
  t ← now;
  on_sheet ws (summary_body df (strftime_datetime t)) ;;
  mret ws.

(** ** [create_charts_sheet] *)

(** [[
      for col in numeric_cols[:10]:
          mean_val = self.data[col].mean()
          if pd.notnull(mean_val):
              chart_data.append([col, mean_val])
    ]] *)
Fixpoint collect_means (df : DataFrame) (cols : list string)
  : M Worksheet (list (string * spec_float)) :=
  match cols with
  | [] => mret []
  | col :: rest =>
      c ← lift (Pd.getitem df col);
      let mean_val := mean c in
      tl ← collect_means df rest;
      mret (if Pd.notnull (VFloat mean_val) then (col, mean_val) :: tl else tl)
  end.

Definition bar_chart (n : nat) : Chart :=
  {| kind := BarChart;
     chart_title := "Average Values by Numeric Columns";
     x_axis_title := Some "Columns";
     y_axis_title := Some "Average Value";
     chart_data := Some {| min_col := 2; min_row := 3; max_col := 2; max_row := 3 + n |};
     titles_from_data := true;
     categories := Some {| min_col := 1; min_row := 4; max_col := 1; max_row := 3 + n |};
     anchor := cell_ref "D" 3 |}.

Definition charts_body (df : DataFrame) : M Worksheet unit :=
  modify (Ws.set_value (cell_ref "A" 1) (VStr "Data Visualizations")) ;;
  modify (Ws.set_font (cell_ref "A" 1) (title_font 16)) ;;
  let numeric_cols := Pd.select_number df in
  if (0 <? length numeric_cols)%nat then
    rows ← collect_means df (take 10 numeric_cols);
    match rows with
    | [] => mret tt
    | _ =>
        modify (Ws.set_value (cell_ref "A" 3) (VStr "Column")) ;;
        modify (Ws.set_value (cell_ref "B" 3) (VStr "Average Value")) ;;
        for_each (enumerate 4 rows) (fun '(i, (col, val)) =>
          modify (Ws.set_value (cell_ref "A" i) (VStr col)) ;;
          modify (Ws.set_value (cell_ref "B" i) (VFloat val))) ;;
        modify (Ws.add_chart (bar_chart (length rows)))
    end
  else mret tt.

Definition create_charts_sheet : M State nat :=
  print "Creating charts sheet..." ;;
  ws ← create_sheet "Data Visualizations";
  df ← the_data;
  on_sheet ws (charts_body df) ;;
  mret ws.

(** ** [create_filtered_sheets] *)

Definition pie_chart (col : string) (n : nat) : Chart :=
  {| kind := PieChart;
     chart_title := "Distribution of " +:+ col;
     x_axis_title := None;
     y_axis_title := None;
     chart_data := Some {| min_col := 2; min_row := 3; max_col := 2; max_row := 3 + n |};
     titles_from_data := true;
     categories := Some {| min_col := 1; min_row := 4; max_col := 1; max_row := 3 + n |};
     anchor := cell_ref "E" 3 |}.

Definition analysis_body (df : DataFrame) (col : string)
    (value_counts : list (Value * nat)) : M Worksheet unit :=
  modify (Ws.set_value (cell_ref "A" 1) (VStr ("Analysis: " +:+ col))) ;;
  modify (Ws.set_font (cell_ref "A" 1) (title_font 14)) ;;
  modify (Ws.set_value (cell_ref "A" 3) (VStr "Value")) ;;
  modify (Ws.set_value (cell_ref "B" 3) (VStr "Count")) ;;
  modify (Ws.set_value (cell_ref "C" 3) (VStr "Percentage")) ;;
  for_each [cell_ref "A" 3; cell_ref "B" 3; cell_ref "C" 3] style_header ;;
  let total := df_len df in
  for_each (enumerate 4 value_counts) (fun '(i, (v, count)) =>
    modify (Ws.set_value (cell_ref "A" i) (VStr (py_str v))) ;;
    modify (Ws.set_value (cell_ref "B" i) (VInt (Z.of_nat count))) ;;
    modify (Ws.set_value (cell_ref "C" i)
              (VStr (F64.percent (Z.of_nat count) (Z.of_nat total))))) ;;
  if (length value_counts <=? 10)%nat
  then modify (Ws.add_chart (pie_chart col (length value_counts)))
  else mret tt.

(** The two tests a text column passes to get its sheet. *)
Definition few_categories (c : Series) : bool :=
  (length (Pd.unique (values c)) <=? 20)%nat.

Definition several_counts (c : Series) : bool :=
  (1 <? length (Pd.value_counts (values c)))%nat.

Definition analyse_column (df : DataFrame) (col : string) : M State unit :=
  c ← lift (Pd.getitem df col);
  if few_categories c then
    let value_counts := Pd.value_counts (values c) in
    if several_counts c then
      let sheet_name := PyStr.take 25 col +:+ "_Analysis" in
      ws ← create_sheet sheet_name;
      on_sheet ws (analysis_body df col value_counts)
    else mret tt
  else mret tt.

Definition create_filtered_sheets : M State unit :=
  print "Creating filtered data sheets..." ;;
  df ← the_data;
  let categorical_cols := Pd.select_object df in
  for_each (take 5 categorical_cols) (analyse_column df).

(** ** [finalize_workbook] *)

(** [os.path.basename] *)
Fixpoint basename_from (acc : string) (path : string) : string :=
  match path with
  | EmptyString => acc
  | String c rest =>
      if Ascii.eqb c "/" then basename_from EmptyString rest
      else basename_from (acc +:+ String c EmptyString) rest
  end.

Definition basename (path : string) : string := basename_from EmptyString path.

Definition finalize_workbook : M State unit :=
  print "Finalizing workbook..." ;;
  wb ← the_workbook;
  let first := if (0 <? length (worksheets wb))%nat then 0%nat else active wb in
  path ← gets (fun st => csv_file_path (self st));
  t ← now;
  set_workbook
    {| worksheets := worksheets wb;
       active := first;
       properties :=
         {| prop_title := "Data Analysis Report";
            prop_subject := "Comprehensive data analysis from CSV";
            prop_creator := "CSV to Excel Converter";
            prop_description :=
              "Generated from " +:+ basename path +:+ " on " +:+ strftime_date t |} |}.

(** ** Saving, and [convert] *)

(** [open(path, 'wb')] and the writing of the bytes. *)
Definition store (path : string) (bytes : list Byte.byte) (w : World) : World :=
  {| files := <[path := bytes]> (files w); denied := denied w;
     stdout := stdout w; clock := clock w; ticks := ticks w |}.

Definition write_file (path : string) (bytes : list Byte.byte) : M State unit := fun st =>
  if decide (path ∈ denied (world st))
  then (Raise {| exn_class := OSError; exn_msg := "Permission denied: " +:+ path |}, st)
  else (Ok tt, with_world (store path bytes) st).

(** [self.workbook.save(path)] *)
Definition save (path : string) : M State unit :=
  wb ← the_workbook;
  write_file path (xlsx_bytes wb).

(** [try: body  except Exception as e: handler] *)
Definition try_except {A} (body : M State A) (handler : Exn -> M State A) : M State A :=
  fun st =>
    match body st with
    | (Raise e, st') => handler e st'
    | r => r
    end.

Definition banner : string := PyStr.repeat "=" 60.

Definition report_success : M State unit :=
  c ← gets self;
  print banner ;;
  print "CONVERSION COMPLETED SUCCESSFULLY!" ;;
  print ("Input file: " +:+ csv_file_path c) ;;
  print ("Output file: " +:+ output_file_path c) ;;
  wb ← the_workbook;
  print ("Number of sheets created: " +:+ PyStr.of_nat (length (worksheets wb))) ;;
  df ← the_data;
  print ("Total records processed: " +:+ PyStr.thousands (df_len df)) ;;
  print banner.

Definition save_output : M State unit :=
  out ← gets (fun st => output_file_path (self st));
  print ("Saving workbook to " +:+ out +:+ "...") ;;
  save out.

Definition convert : M State bool :=
  print banner ;;
  print "CSV TO EXCEL COMPREHENSIVE CONVERTER" ;;
  print banner ;;
  try_except
    (load_data ;;
     create_workbook ;;
     create_main_data_sheet ;;
     create_summary_sheet ;;
     create_charts_sheet ;;
     create_filtered_sheets ;;
     finalize_workbook ;;
     save_output ;;
     report_success ;;
     mret true)
    (fun e =>
       print ("Error during conversion: " +:+ exn_msg e) ;;
       mret false).

End Methods.

(* ===================================================================== *)
(** * Notions the properties are stated with *)
(* ===================================================================== *)

(** [old] occurs somewhere in [s]. *)
Definition has_substring (old s : string) : Prop :=
  exists a b, s = a +:+ old +:+ b.

(** ** Specifications of computations *)

(** [m] returns from every state that satisfies [P], with [Q] of the result
    and the state it leaves. *)
Definition ensures {S A} (P : S -> Prop) (m : M S A) (Q : A -> S -> Prop) : Prop :=
  forall st, P st -> exists a st', m st = (Ok a, st') /\ Q a st'.

(** Whether [m] returns or raises, the state it leaves is [R]-related to
    the one it found. *)
Definition keeps {S A} (R : S -> S -> Prop) (m : M S A) : Prop :=
  forall st, R st (snd (m st)).

(** ** Column widths *)

(** The length of the text [str] gives for the content of a cell. *)
Definition text_length `{Library} (ws : Worksheet) (a : Addr) : nat :=
  String.length (py_str (value (Ws.cell_at ws a))).

(** [n] is the length of the longest text in column [c], over the rows 1 to
    [max_row] of the sheet. *)
Definition longest_text `{Library} (ws : Worksheet) (c n : nat) : Prop :=
  (forall r, (1 <= r <= Ws.max_row ws)%nat -> (text_length ws (r, c) <= n)%nat) /\
  (exists r, (1 <= r <= Ws.max_row ws)%nat /\ text_length ws (r, c) = n).

(** Column [c] has the width the specification states, under the cap. *)
Definition width_fits `{Library} (cap : nat) (ws : Worksheet) (c : nat) : Prop :=
  exists n, longest_text ws c n /\
            column_dimensions ws !! c = Some (Nat.min (n + 2) cap).

(** ** Extent of a sheet *)


(** ** The loops of the sheet generators, as functions on the sheet *)

(** Walking a column creates the cells it lacks. *)
Definition touch_all (col : list Addr) (ws : Worksheet) : Worksheet :=
  foldl (fun s a => Ws.touch a s) ws col.

(** One comparison of the width loop, and one round of it. *)
Definition longer `{Library} (ws : Worksheet) (max_length : nat) (a : Addr) : nat :=
  if (max_length <? text_length ws a)%nat then text_length ws a else max_length.

Definition width_step `{Library} (cap : nat) (ws0 : Worksheet) (d : gmap nat nat)
    (col : list Addr) : gmap nat nat :=
  match col with
  | [] => d
  | first :: _ => <[snd first := Nat.min (longest ws0 col + 2) cap]> d
  end.


(** One function applied to the cells of a list of addresses. *)
Definition restyle_all (g : Cell -> Cell) (l : list Addr) (ws : Worksheet) : Worksheet :=
  foldl (fun s a => Ws.update g a s) ws l.



(** ** What a stage leaves in the workbook *)

(** Between [st] and [st'] the sheet [ws] was added behind the sheets of
    the workbook. *)
Definition new_sheet_of (st st' : State) (ws : Worksheet) : Prop :=
  exists wb, workbook (self st) = Some wb /\
             workbook (self st') = Some (with_sheets (worksheets wb ++ [ws]) wb).

(** ** The charts sheet *)

(** Nothing was written to the sheet and nothing was drawn on it. *)
Definition sheet_is_empty (ws : Worksheet) : Prop :=
  _cells ws = ∅ /\ charts ws = [].

(** The sheet holds its title cell and nothing else. *)
Definition title_only (ws : Worksheet) : Prop :=
  _cells ws = {[ (1, 1)%nat := with_font {| bold := true; color := None; size := 16 |}
                                 (new_cell (VStr "Data Visualizations")) ]} /\
  charts ws = [] /\ tables ws = [] /\ column_dimensions ws = ∅.

(** ** The analysis sheets *)








(** ** The loader *)

(** The encodings in the order of the specification; an attempt is left
    for the next encoding when it raised a decode error, and only then. *)
Fixpoint try_encodings `{Library} (bytes : list Byte.byte) (enc : Encoding)
    (rest : list Encoding) : result DataFrame :=
  match rest with
  | [] => read_csv bytes enc
  | next :: rest' =>
      match read_csv bytes enc with
      | Raise e =>
          match exn_class e with
          | UnicodeDecodeError => try_encodings bytes next rest'
          | _ => Raise e
          end
      | parsed => parsed
      end
  end.

(** The first encoding of the list with which the file parses. *)
Definition first_parse `{Library} (bytes : list Byte.byte) : option DataFrame :=
  match read_csv bytes utf_8, read_csv bytes utf_8_sig, read_csv bytes latin_1 with
  | Ok df, _, _ => Some df
  | _, Ok df, _ => Some df
  | _, _, Ok df => Some df
  | _, _, _ => None
  end.

(** The loader uses the first attempt that parses, and fails only when no
    encoding of the list parses. *)
Definition loads_first_parse `{Library} (st : State) (bytes : list Byte.byte) : Prop :=
  match first_parse bytes with
  | Some df => fst (load_data st) = Ok (Pd.strip_columns df)
  | None => exists e, fst (load_data st) = Raise e
  end.

(** ** The pipeline *)

(** The eight stages [convert] runs inside its [try], in their order. *)
Definition stages `{Library} : list (M State unit) :=
  [ load_data ;; mret tt;
    create_workbook ;; mret tt;
    create_main_data_sheet ;; mret tt;
    create_summary_sheet ;; mret tt;
    create_charts_sheet ;; mret tt;
    create_filtered_sheets;
    finalize_workbook;
    save_output ].

Definition run_stages (l : list (M State unit)) : M State unit :=
  for_each l (fun stage => stage).

(** The three lines printed before the [try], and the handler. *)
Definition opening : M State unit :=
  print banner ;; print "CSV TO EXCEL COMPREHENSIVE CONVERTER" ;; print banner.

Definition report_failure (e : Exn) : M State bool :=
  print ("Error during conversion: " +:+ exn_msg e) ;; mret false.

(** The files on disk are the same. *)
Definition same_files (st st' : State) : Prop :=
  files (world st) = files (world st').

(** The two paths of the converter are the same. *)
Definition same_paths (st st' : State) : Prop :=
  csv_file_path (self st) = csv_file_path (self st') /\
  output_file_path (self st) = output_file_path (self st').

(** The object is the same, and so are the files. *)
Definition same_self_and_files (st st' : State) : Prop :=
  self st = self st' /\ files (world st) = files (world st').

(* ===================================================================== *)
(** * Sample data *)
(* ===================================================================== *)

(** A stand-in for the libraries: the parser returns one table whatever
    the bytes, the mean is the rounded quotient of the sum of the integers
    of the column by their number. *)
Definition sample_mean (c : Series) : spec_float :=
  let present := filter (fun v => Pd.notnull v = true) (values c) in
  let total := foldr (fun v acc => match v with VInt z => z + acc | _ => acc end) 0 present in
  F64.div (F64.of_Z total) (F64.of_Z (Z.of_nat (length present))).

Definition sample_library (parsed : Encoding -> result DataFrame) : Library :=
  {| read_csv := fun _ enc => parsed enc;
     float_str := F64.format_2f;
     mean := sample_mean;
     describe := fun _ c => sample_mean c;
     avoid_duplicate_name := fun names t => if decide (t ∈ names) then t +:+ "1" else t;
     xlsx_bytes := fun _ => [] |}.

(** The table of the header [A,B] with the rows [(1,"x")] and [(2,"y")]. *)
Definition table_AB : DataFrame :=
  {| df_columns := [ {| name := "A"; dtype := int64; values := [VInt 1; VInt 2] |};
                     {| name := "B"; dtype := object_; values := [VStr "x"; VStr "y"] |} ];
     df_len := 2 |}.

Definition sample_time : DateTime :=
  {| year := 2025; month := 8; day := 3; hour := 9; minute := 5; second := 0 |}.

Definition later_time : DateTime :=
  {| year := 2025; month := 8; day := 4; hour := 17; minute := 30; second := 59 |}.

Definition sample_world (t : DateTime) : World :=
  {| files := {[ "in.csv" := [] ]}; denied := ∅; stdout := []; clock := fun _ => t;
     ticks := 0 |}.

Definition empty_workbook : Workbook :=
  {| worksheets := []; active := 0%nat; properties := default_properties |}.

(** A converter that has loaded [df] and created its workbook. *)
Definition loaded (df : DataFrame) : State :=
  {| self := {| csv_file_path := "in.csv"; output_file_path := "in_comprehensive.xlsx";
                data := Some df; workbook := Some empty_workbook |};
     world := sample_world sample_time |}.

(** ** Frames on a worksheet *)

(** [m] returns from every state. *)
Definition total {S A} (m : M S A) : Prop :=
  forall st, exists a st', m st = (Ok a, st').

(** From [ws] to [ws'] only cells at the addresses in [D] changed, a sheet
    that had a row still has one, and the title is the same. *)
Definition ws_frame (D : nat * nat -> Prop) (ws ws' : Worksheet) : Prop :=
  (forall a, ~ D a -> Ws.cell_at ws' a = Ws.cell_at ws a) /\
  (_current_row ws <> 0%nat -> _current_row ws' <> 0%nat) /\
  title ws' = title ws.

(** ** The summary sheet *)

(** Row [i] of the summary sheet describes the column [c] of the table. *)
Definition info_row `{Library} (df : DataFrame) (ws : Worksheet) (i : nat) (c : Series) : Prop :=
  value (Ws.cell_at ws (i, 1)%nat) = VStr (name c) /\
  value (Ws.cell_at ws (i, 2)%nat) = VStr (dtype_str (dtype c)) /\
  value (Ws.cell_at ws (i, 3)%nat) = VInt (Z.of_nat (Pd.count c)) /\
  value (Ws.cell_at ws (i, 4)%nat) = VInt (Z.of_nat (Pd.isnull_sum c)) /\
  value (Ws.cell_at ws (i, 5)%nat)
  = VStr (F64.percent (Z.of_nat (Pd.isnull_sum c)) (Z.of_nat (df_len df))).

(** A table with one text column and no numeric column. *)
Definition table_text : DataFrame :=
  {| df_columns := [ {| name := "city"; dtype := object_;
                        values := [VStr "Hue"; VStr "Hanoi"; VStr "Hue"] |} ];
     df_len := 3 |}.









(** A file that does not parse as UTF-8, with or without byte-order mark,
    for a reason other than its encoding, and parses as latin-1. *)
Definition parser_error : Exn :=
  {| exn_class := OtherError; exn_msg := "Error tokenizing data. C error: EOF inside string" |}.

Definition parses_as_latin_1 (enc : Encoding) : result DataFrame :=
  match enc with
  | latin_1 => Ok table_AB
  | _ => Raise parser_error
  end.

(** A file that is not valid UTF-8 and parses as latin-1. *)
Definition decode_error : Exn :=
  {| exn_class := UnicodeDecodeError; exn_msg := "'utf-8' codec can't decode byte 0xe9" |}.

Definition decodes_as_latin_1 (enc : Encoding) : result DataFrame :=
  match enc with
  | latin_1 => Ok table_AB
  | _ => Raise decode_error
  end.

(** A converter constructed for a file whose name has no [.csv] in it. *)
Definition fresh_txt : State :=
  {| self := init "table.txt" None;
     world := {| files := {[ "table.txt" := [Byte.x41; Byte.x2c; Byte.x42] ]};
                 denied := ∅; stdout := [];
                 clock := fun _ => sample_time; ticks := 0 |} |}.

(** A converter that has just been constructed. *)
Definition fresh : State :=
  {| self := init "in.csv" None; world := sample_world sample_time |}.

(* ===================================================================== *)
(** * Notions for the percentages *)
(* ===================================================================== *)

(** The record [mrs] of a right shift holds the quotient of [num] by [den],
    rounded down, and no round or sticky bit when the quotient is exact. *)
Definition approximates (mrs : shr_record) (num den : Z) : Prop :=
  shr_m mrs = num / den /\
  (num mod den = 0 -> shr_r mrs = false /\ shr_s mrs = false).

Definition is_digit (c : ascii) : bool :=
  ((48 <=? nat_of_ascii c) && (nat_of_ascii c <=? 57))%nat.

(** Digits, a point, two digits and the percent sign; [seen] tells that a
    digit was read before the point. *)
Fixpoint two_decimal_from (seen : bool) (s : string) : bool :=
  match s with
  | String "." (String a (String b (String "%" EmptyString))) =>
      seen && is_digit a && is_digit b
  | String c t => is_digit c && two_decimal_from true t
  | EmptyString => false
  end.

Definition two_decimal_percent (s : string) : bool := two_decimal_from false s.

(** Five rows: a column without missing values and a column of missing
    values only. *)
Definition table_nulls : DataFrame :=
  {| df_columns :=
       [ {| name := "full"; dtype := int64;
            values := [VInt 1; VInt 2; VInt 3; VInt 4; VInt 5] |};
         {| name := "gone"; dtype := float64;
            values := [VNone; VNone; VNone; VNone; VNone] |} ];
     df_len := 5 |}.

(** A header and no row. *)
Definition table_no_rows : DataFrame :=
  {| df_columns := [ {| name := "A"; dtype := object_; values := [] |};
                     {| name := "B"; dtype := object_; values := [] |} ];
     df_len := 0 |}.

(* ===================================================================== *)
(** * Notions for the whole run *)
(* ===================================================================== *)

(** From [st] to [st'] the paths of the converter are the same, no file
    other than the output file has changed, nothing printed was taken
    back, and the clock still tells the same times. *)
Definition only_output_written (st st' : State) : Prop :=
  same_paths st st' /\
  (forall q, q <> output_file_path (self st) ->
     files (world st') !! q = files (world st) !! q) /\
  stdout (world st) `prefix_of` stdout (world st') /\
  denied (world st') = denied (world st) /\
  clock (world st') = clock (world st).

(* ===================================================================== *)
(** * [main] *)
(* ===================================================================== *)

Section MainFunction.
Context `{Library}.

Definition input_file : string := "done enriched.csv".
Definition output_file : string := "done_enriched_comprehensive.xlsx".

(** The line feed a message starts with. *)
Definition nl : string := String (ascii_of_nat 10) EmptyString.

(** [print(line)] outside the converter. *)
Definition say (line : string) : M World unit := modify (log line).

(** [os.path.exists(path)]; the environment holds files only. *)
Definition os_path_exists (path : string) : M World bool :=
  gets (fun w => bool_decide (is_Some (files w !! path))).

(** A method call on a converter [c] that [main] holds. *)
Definition on_converter {A} (c : Converter) (m : M State A) : M World (A * Converter) :=
  fun w =>
    match m {| self := c; world := w |} with
    | (Ok a, st) => (Ok (a, self st), world st)
    | (Raise e, st) => (Raise e, world st)
    end.

Definition main : M World unit :=
  found ← os_path_exists input_file;
  if negb found then
    say ("Error: Input file '" +:+ input_file +:+ "' not found!") ;;
    say "Please make sure the file exists in the current directory."
  else
    '(success, converter) ← on_converter (init input_file (Some output_file)) convert;
    if (success : bool) then
      say (nl +:+ "‚úÖ Success! Your Excel file has been created: " +:+ output_file) ;;
      say (nl +:+ "The Excel file includes:") ;;
      say "  üìä Complete Data - All original data with formatting" ;;
      say "  üìà Data Summary - Statistics and column information" ;;
      say "  üìâ Data Visualizations - Charts and graphs" ;;
      say "  üîç Analysis Sheets - Filtered views for categorical data" ;;
      say (nl +:+ "You can now open the file in Excel for further analysis!")
    else
      say (nl +:+ "‚ùå Conversion failed. Please check the error messages above.").

End MainFunction.

(* ===================================================================== *)
(** * Notions for the labels *)
(* ===================================================================== *)

Definition starts_with_space (s : string) : bool :=
  match s with
  | String c _ => PyStr.isspace c
  | EmptyString => false
  end.

Fixpoint ends_with_space (s : string) : bool :=
  match s with
  | EmptyString => false
  | String c EmptyString => PyStr.isspace c
  | String _ t => ends_with_space t
  end.

Fixpoint all_space (s : string) : bool :=
  match s with
  | EmptyString => true
  | String c t => PyStr.isspace c && all_space t
  end.

(** [short] is [long] without the white space at its two ends. *)
Definition trimmed_of (long short : string) : Prop :=
  (exists a b, long = a +:+ short +:+ b /\ all_space a = true /\ all_space b = true) /\
  starts_with_space short = false /\ ends_with_space short = false.

(** A table whose labels carry white space. *)
Definition table_spaced : DataFrame :=
  {| df_columns := [ {| name := " A "; dtype := int64; values := [VInt 1; VInt 2] |};
                     {| name := "B  "; dtype := object_; values := [VStr "x"; VStr "y"] |} ];
     df_len := 2 |}.


(** The table the converter holds is the same. *)
Definition same_data (st st' : State) : Prop := data (self st) = data (self st').


(* ===================================================================== *)
(** * Notions for the tables of a sheet *)
(* ===================================================================== *)

(** The rows of a list written one below the other from row [k] on. *)
Definition write_rows {A} (g : nat -> A -> Worksheet -> Worksheet) (k : nat) (l : list A)
    (ws : Worksheet) : Worksheet :=
  foldl (fun s '(i, x) => g i x s) ws (enumerate k l).





(** The lines of the table of means: the columns with a mean, in their
    order. *)
Definition mean_rows `{Library} (cs : list Series) : list (string * spec_float) :=
  foldr (fun c tl => if Pd.notnull (VFloat (mean c)) then (name c, mean c) :: tl else tl)
        [] cs.

(** The numeric columns the charts sheet looks at: the first ten. *)
Definition charted_columns (df : DataFrame) : list Series :=
  take 10 (filter (fun c => Pd.is_number (dtype c) = true) (df_columns df)).

Definition mean_row (i : nat) (row : string * spec_float) (ws : Worksheet) : Worksheet :=
  Ws.set_value (i, 2)%nat (VFloat (snd row)) (Ws.set_value (i, 1)%nat (VStr (fst row)) ws).

(** The sheet [ws] is the charts sheet of the table [df]: its title, and,
    when a column has a mean, the table of the means from row 3 on and one
    bar chart over it. *)
Definition charts_sheet_of `{Library} (df : DataFrame) (ws : Worksheet) : Prop :=
  let rows := mean_rows (charted_columns df) in
  value (Ws.cell_at ws (1, 1)%nat) = VStr "Data Visualizations" /\
  (length rows <= 10)%nat /\
  (rows = [] -> charts ws = []) /\
  (rows <> [] ->
   value (Ws.cell_at ws (3, 1)%nat) = VStr "Column" /\
   value (Ws.cell_at ws (3, 2)%nat) = VStr "Average Value" /\
   (forall (k : nat) col val, rows !! k = Some (col, val) ->
      value (Ws.cell_at ws (4 + k, 1)%nat) = VStr col /\
      value (Ws.cell_at ws (4 + k, 2)%nat) = VFloat val) /\
   charts ws = [bar_chart (length rows)]) /\
  tables ws = [].

(** Three numeric columns, one of them without a value. *)
Definition table_numbers : DataFrame :=
  {| df_columns :=
       [ {| name := "a"; dtype := int64; values := [VInt 1; VInt 2; VInt 3] |};
         {| name := "b"; dtype := float64; values := [VNone; VNone; VNone] |};
         {| name := "c"; dtype := int64; values := [VInt 4; VInt 4; VInt 4] |} ];
     df_len := 3 |}.

(* ===================================================================== *)
(** * Notions for two runs *)
(* ===================================================================== *)

(** From [R]-related states [m] gives the same result and leaves
    [R]-related states. *)
Definition agrees {S A} (R : S -> S -> Prop) (m : M S A) : Prop :=
  forall s1 s2, R s1 s2 -> fst (m s1) = fst (m s2) /\ R (snd (m s1)) (snd (m s2)).

(** The cell that receives the time stamp: B5. *)
Definition stamp_cell : Addr := (5, 2)%nat.

(** Two sheets with the same title, tables and charts, and the same value
    in every cell outside [D]. *)
Definition same_values_but (D : Addr -> Prop) (ws1 ws2 : Worksheet) : Prop :=
  title ws1 = title ws2 /\ tables ws1 = tables ws2 /\ charts ws1 = charts ws2 /\
  forall b, ~ D b -> value (Ws.cell_at ws1 b) = value (Ws.cell_at ws2 b).

(** A change of a cell that looks at nothing but its value to set the new
    value. *)
Definition value_respecting (g : Cell -> Cell) : Prop :=
  forall c1 c2, value c1 = value c2 -> value (g c1) = value (g c2).

(** Two states with the same converter object and the same input file. *)
Definition same_input (st1 st2 : State) : Prop :=
  self st1 = self st2 /\
  files (world st1) !! csv_file_path (self st1)
  = files (world st2) !! csv_file_path (self st2).

(** Two workbooks with the same sheets in the same order, but for the value
    of the stamp cell of sheet [k], and the same active sheet and
    properties, but for the description. *)
Definition workbooks_alike (k : nat) (w1 w2 : Workbook) : Prop :=
  active w1 = active w2 /\
  prop_title (properties w1) = prop_title (properties w2) /\
  prop_subject (properties w1) = prop_subject (properties w2) /\
  prop_creator (properties w1) = prop_creator (properties w2) /\
  length (worksheets w1) = length (worksheets w2) /\
  forall (i : nat) ws1 ws2,
    worksheets w1 !! i = Some ws1 -> worksheets w2 !! i = Some ws2 ->
    same_values_but (fun b => i = k /\ b = stamp_cell) ws1 ws2.

(** Two converters that hold the same table and like workbooks. *)
Definition alike (k : nat) (st1 st2 : State) : Prop :=
  csv_file_path (self st1) = csv_file_path (self st2) /\
  output_file_path (self st1) = output_file_path (self st2) /\
  exists df w1 w2,
    data (self st1) = Some df /\ data (self st2) = Some df /\
    workbook (self st1) = Some w1 /\ workbook (self st2) = Some w2 /\
    workbooks_alike k w1 w2.

(** What two runs on the same input leave in the two converters. *)
Definition rerun_alike (c1 c2 : Converter) : Prop :=
  csv_file_path c1 = csv_file_path c2 /\
  output_file_path c1 = output_file_path c2 /\
  data c1 = data c2 /\
  match workbook c1, workbook c2 with
  | Some w1, Some w2 => workbooks_alike 1 w1 w2
  | None, None => True
  | _, _ => False
  end.

(** The converter of [fresh] in a world with another clock. *)
Definition fresh_later : State :=
  {| self := init "in.csv" None; world := sample_world later_time |}.

(** The converter object is the same. *)
Definition same_self (st st' : State) : Prop := self st = self st'.

(** The value of the stamp cell of the second sheet of the workbook. *)
Definition stamp_of (c : Converter) : option Value :=
  match workbook c with
  | Some w =>
      match worksheets w !! 1%nat with
      | Some s => Some (value (Ws.cell_at s stamp_cell))
      | None => None
      end
  | None => None
  end.

(* ===================================================================== *)
(** * Properties *)
(* ===================================================================== *)

(** ** Text *)

Section ReplaceFacts.

#[local] Arguments String.append !_ _ : simpl nomatch.

Lemma append_nil_r (a : string) : a +:+ "" = a.
Proof. induction a as [|x a IH]; simpl; congruence. Qed.

Lemma append_assoc (a b c : string) : (a +:+ b) +:+ c = a +:+ b +:+ c.
Proof. induction a as [|x a IH]; simpl; congruence. Qed.

Lemma prefix_split (old t : string) :
  String.prefix old t = true -> exists b, t = old +:+ b.
Proof.
  revert t; induction old as [|c old IH]; intros t Hp.
  - by exists t.
  - destruct t as [|d t]; simpl in Hp; [done|].
    destruct (ascii_dec c d) as [->|]; [|done].
    destruct (IH _ Hp) as [b ->]. by exists b.
Qed.

Lemma prefix_append (old b : string) : String.prefix old (old +:+ b) = true.
Proof.
  induction old as [|c old IH]; simpl; [by destruct b|].
  by destruct (ascii_dec c c).
Qed.

Lemma prefix_weaken (old t u : string) :
  String.prefix old t = true -> String.prefix old (t +:+ u) = true.
Proof.
  intros [b ->]%prefix_split. rewrite append_assoc. apply prefix_append.
Qed.

Lemma prefix_has_substring (old t : string) :
  String.prefix old t = true -> has_substring old t.
Proof. intros [b ->]%prefix_split. by exists "", b. Qed.

Lemma has_substring_tail (old : string) (c : ascii) (t : string) :
  has_substring old t -> has_substring old (String c t).
Proof. intros (a & b & ->). by exists (String c a), b. Qed.

Lemma has_substring_cons (old : string) (c : ascii) (t : string) :
  has_substring old (String c t) ->
  String.prefix old (String c t) = true \/ has_substring old t.
Proof.
  intros (a & b & E). destruct a as [|x a]; simpl in E.
  - left. rewrite E. apply prefix_append.
  - right. injection E as _ ->. by exists a, b.
Qed.

(** The scan passes over the rest of a matched occurrence. *)
Lemma replace_from_skip (a old new b : string) :
  PyStr.replace_from (String.length a) old new (a +:+ b)
  = PyStr.replace_from 0 old new b.
Proof. induction a as [|c a IH]; simpl; [by destruct b | done]. Qed.

Lemma replace_at_occurrence (c : ascii) (old new rest : string) :
  PyStr.replace (String c old) new (String c old +:+ rest)
  = new +:+ PyStr.replace (String c old) new rest.
Proof.
  unfold PyStr.replace.
  change (String c old +:+ rest) with (String c (old +:+ rest)).
  cbn [PyStr.replace_from].
  change (String c (old +:+ rest)) with (String c old +:+ rest).
  rewrite prefix_append.
  cbn [String.length Nat.pred]. by rewrite replace_from_skip.
Qed.

Lemma replace_no_occurrence (old new t : string) :
  ~ has_substring old t -> PyStr.replace old new t = t.
Proof.
  unfold PyStr.replace. induction t as [|c t IH]; intros Hno; [done|].
  cbn [PyStr.replace_from].
  destruct (String.prefix old (String c t)) eqn:Hp.
  - destruct Hno. by apply prefix_has_substring.
  - rewrite IH; [done|]. intros Ht. apply Hno. by apply has_substring_tail.
Qed.

(** No occurrence of ['.csv'] starts inside a piece and ends in the
    separator behind it: the text has no border. *)
Lemma csv_not_straddling (c : ascii) (p rest : string) :
  String.prefix ".csv" (String c p +:+ ".csv" +:+ rest) = true ->
  String.prefix ".csv" (String c p) = true.
Proof.
  destruct p as [|c2 [|c3 [|c4 p]]]; cbn [String.prefix String.append];
    repeat (match goal with
            | |- context [ascii_dec ?x ?y] => destruct (ascii_dec x y)
            end; try done).
  intros _. by destruct p.
Qed.

Lemma replace_piece (new p rest : string) :
  ~ has_substring ".csv" p ->
  PyStr.replace ".csv" new (p +:+ ".csv" +:+ rest)
  = p +:+ new +:+ PyStr.replace ".csv" new rest.
Proof.
  induction p as [|c p IH]; intros Hno.
  - apply replace_at_occurrence.
  - assert (String.prefix ".csv" (String c p +:+ ".csv" +:+ rest) = false) as Hp.
    { destruct (String.prefix _ _) eqn:E; [|done].
      destruct Hno. apply prefix_has_substring. by eapply csv_not_straddling. }
    unfold PyStr.replace in *.
    change (String c p +:+ ".csv" +:+ rest) with (String c (p +:+ ".csv" +:+ rest)) in *.
    cbn [PyStr.replace_from]. rewrite Hp. cbn [String.append]. f_equal.
    apply IH. intros Ht. apply Hno. by apply has_substring_tail.
Qed.

Lemma replace_join (new : string) (pieces : list string) :
  (forall p, p ∈ pieces -> ~ has_substring ".csv" p) ->
  PyStr.replace ".csv" new (PyStr.join ".csv" pieces) = PyStr.join new pieces.
Proof.
  induction pieces as [|p [|q rest] IH]; intros Hno.
  - done.
  - apply replace_no_occurrence, Hno. constructor.
  - change (PyStr.join ".csv" (p :: q :: rest))
      with (p +:+ ".csv" +:+ PyStr.join ".csv" (q :: rest)).
    rewrite replace_piece by (apply Hno; constructor).
    rewrite IH by (intros; apply Hno; by constructor). done.
Qed.

(** Every text splits at its occurrences of ['.csv']. *)
Lemma split_at_csv (t : string) :
  exists pieces, pieces <> [] /\ t = PyStr.join ".csv" pieces /\
                 forall p, p ∈ pieces -> ~ has_substring ".csv" p.
Proof.
  remember (String.length t) as n eqn:Hn.
  revert t Hn. induction n as [n IH] using lt_wf_ind. intros t ->.
  destruct t as [|c t].
  - exists [""]. split; [done|]. split; [done|].
    intros p ->%list_elem_of_singleton (a & b & E).
    destruct a; simpl in E; discriminate.
  - destruct (String.prefix ".csv" (String c t)) eqn:Hp.
    + destruct (prefix_split _ _ Hp) as [b Hb].
      destruct (IH (String.length b)) with (t := b) as (ps & Hne & Eb & Hps); [|done|].
      { rewrite Hb. simpl. lia. }
      exists ("" :: ps). split; [done|]. split.
      * destruct ps as [|q ps]; [done|]. rewrite Hb, Eb. done.
      * intros p [->|Hin]%elem_of_cons; [|by apply Hps].
        intros (a & b' & E). destruct a; simpl in E; discriminate.
    + destruct (IH (String.length t)) with (t := t) as (ps & Hne & Et & Hps);
        [simpl; lia | done |].
      destruct ps as [|q ps]; [done|].
      exists (String c q :: ps). split; [done|]. split.
      * rewrite Et. by destruct ps.
      * intros p [->|Hin]%elem_of_cons; [|apply Hps; by constructor].
        intros [Hq|Hq]%has_substring_cons.
        -- assert (String.prefix ".csv" (String c t) = true) as Ht; [|congruence].
           rewrite Et. destruct ps as [|q2 ps]; [done|].
           change (PyStr.join ".csv" (q :: q2 :: ps))
             with (q +:+ ".csv" +:+ PyStr.join ".csv" (q2 :: ps)).
           change (String c (q +:+ ?x)) with (String c q +:+ x).
           by apply prefix_weaken.
        -- apply (Hps q); [constructor | done].
Qed.

End ReplaceFacts.

(** ** The monad *)

Section MonadFacts.
Context {S : Type}.

Lemma bind_Ok {A B} (m : M S A) (f : A -> M S B) st a st' :
  m st = (Ok a, st') -> (m ≫= f) st = f a st'.
Proof. intros E. unfold mbind, M_bind. by rewrite E. Qed.

Lemma bind_Raise {A B} (m : M S A) (f : A -> M S B) st e st' :
  m st = (Raise e, st') -> (m ≫= f) st = (Raise e, st').
Proof. intros E. unfold mbind, M_bind. by rewrite E. Qed.

Lemma bind_inv_Ok {A B} (m : M S A) (f : A -> M S B) st b st2 :
  (m ≫= f) st = (Ok b, st2) ->
  exists a st1, m st = (Ok a, st1) /\ f a st1 = (Ok b, st2).
Proof.
  unfold mbind, M_bind. destruct (m st) as [[a|e] st1]; [|done]. eauto.
Qed.

Lemma bind_assoc {A B C} (m : M S A) (f : A -> M S B) (g : B -> M S C) st :
  ((m ≫= f) ≫= g) st = (m ≫= (fun a => f a ≫= g)) st.
Proof. unfold mbind, M_bind. by destruct (m st) as [[a|e] st1]. Qed.

Lemma for_each_app {A} (l1 l2 : list A) (body : A -> M S unit) st :
  for_each (l1 ++ l2) body st = (for_each l1 body ;; for_each l2 body) st.
Proof.
  revert st; induction l1 as [|x l1 IH]; intros st; simpl.
  - done.
  - unfold mbind, M_bind in *. destruct (body x st) as [[[]|e] st1]; [|done].
    apply IH.
Qed.

(** Either every step returns, or the first one that raises ends the loop
    in the state it leaves. *)
Lemma for_each_outcome {A} (l : list A) (body : A -> M S unit) st :
  (exists st', for_each l body st = (Ok tt, st')) \/
  (exists pre x post e st1 st2,
      l = pre ++ x :: post /\ for_each pre body st = (Ok tt, st1) /\
      body x st1 = (Raise e, st2) /\ for_each l body st = (Raise e, st2)).
Proof.
  revert st; induction l as [|x l IH]; intros st.
  - left. by exists st.
  - destruct (body x st) as [[[]|e] st1] eqn:Ex.
    + destruct (IH st1) as [[st' E]|(pre & y & post & e & s1 & s2 & -> & E1 & E2 & E3)].
      * left. exists st'. simpl. by rewrite (bind_Ok _ _ _ _ _ Ex).
      * right. exists (x :: pre), y, post, e, s1, s2. simpl.
        rewrite !(bind_Ok _ _ _ _ _ Ex). done.
    + right. exists [], x, l, e, st, st1. simpl.
      by rewrite (bind_Raise _ _ _ _ _ Ex).
Qed.

Lemma for_each_raises {A} (pre : list A) x post (body : A -> M S unit) st e st1 st2 :
  for_each pre body st = (Ok tt, st1) ->
  body x st1 = (Raise e, st2) ->
  for_each (pre ++ x :: post) body st = (Raise e, st2).
Proof.
  intros E1 E2. rewrite for_each_app, (bind_Ok _ _ _ _ _ E1). simpl.
  by rewrite (bind_Raise _ _ _ _ _ E2).
Qed.

(** *** Rules for [ensures] *)

Lemma ensures_ret {A} (P : S -> Prop) (a : A) (Q : A -> S -> Prop) :
  (forall st, P st -> Q a st) -> ensures P (mret a) Q.
Proof. intros HQ st HP. exists a, st. split; [done | by apply HQ]. Qed.

Lemma ensures_bind {A B} (P : S -> Prop) (m : M S A) (f : A -> M S B)
    (Q : A -> S -> Prop) (R : B -> S -> Prop) :
  ensures P m Q -> (forall a, ensures (Q a) (f a) R) -> ensures P (m ≫= f) R.
Proof.
  intros Hm Hf st HP. destruct (Hm st HP) as (a & st1 & E & HQ).
  destruct (Hf a st1 HQ) as (b & st2 & E2 & HR).
  exists b, st2. split; [|done]. by rewrite (bind_Ok _ _ _ _ _ E).
Qed.

Lemma ensures_modify (P : S -> Prop) (f : S -> S) (Q : unit -> S -> Prop) :
  (forall st, P st -> Q tt (f st)) -> ensures P (modify f) Q.
Proof. intros HQ st HP. exists tt, (f st). split; [done | by apply HQ]. Qed.

Lemma ensures_get (P : S -> Prop) (Q : S -> S -> Prop) :
  (forall st, P st -> Q st st) -> ensures P get Q.
Proof. intros HQ st HP. exists st, st. split; [done | by apply HQ]. Qed.

Lemma ensures_gets {A} (P : S -> Prop) (f : S -> A) (Q : A -> S -> Prop) :
  (forall st, P st -> Q (f st) st) -> ensures P (gets f) Q.
Proof. intros HQ st HP. exists (f st), st. split; [done | by apply HQ]. Qed.

Lemma ensures_lift {A} (P : S -> Prop) (a : A) (Q : A -> S -> Prop) :
  (forall st, P st -> Q a st) -> ensures P (lift (Ok a)) Q.
Proof. intros HQ st HP. exists a, st. split; [done | by apply HQ]. Qed.

Lemma ensures_weaken {A} (P P' : S -> Prop) (m : M S A) (Q Q' : A -> S -> Prop) :
  ensures P' m Q' -> (forall st, P st -> P' st) ->
  (forall a st, Q' a st -> Q a st) -> ensures P m Q.
Proof.
  intros Hm HP HQ st Hst. destruct (Hm st (HP st Hst)) as (a & st' & E & H').
  exists a, st'. eauto.
Qed.

(** A loop keeps an invariant of the items already handled. *)
Lemma ensures_for_each {A} (I : list A -> S -> Prop) (l : list A)
    (body : A -> M S unit) :
  (forall handled x rest, l = handled ++ x :: rest ->
      ensures (I handled) (body x) (fun _ => I (handled ++ [x]))) ->
  ensures (I []) (for_each l body) (fun _ => I l).
Proof.
  intros Hbody.
  assert (forall rest handled, l = handled ++ rest ->
            ensures (I handled) (for_each rest body) (fun _ => I l)) as Hgen.
  { intros rest. induction rest as [|x rest IH]; intros handled E.
    - rewrite app_nil_r in E. rewrite E. by apply ensures_ret.
    - simpl. eapply ensures_bind; [by eapply Hbody|].
      intros ?. apply IH. by rewrite <- app_assoc. }
  by apply (Hgen l []).
Qed.

(** *** Rules for [keeps] *)

Context (R : S -> S -> Prop) `{!PreOrder R}.

Lemma keeps_ret {A} (a : A) : keeps R (mret a).
Proof. intros st. simpl. reflexivity. Qed.

Lemma keeps_bind {A B} (m : M S A) (f : A -> M S B) :
  keeps R m -> (forall a, keeps R (f a)) -> keeps R (m ≫= f).
Proof.
  intros Hm Hf st. unfold mbind, M_bind. specialize (Hm st).
  destruct (m st) as [[a|e] st1]; simpl in *; [|done].
  etrans; [exact Hm | apply Hf].
Qed.

Lemma keeps_modify (f : S -> S) : (forall st, R st (f st)) -> keeps R (modify f).
Proof. intros Hf st. apply Hf. Qed.

Lemma keeps_raise {A} (e : Exn) : keeps R (raise (A := A) e).
Proof. intros st. simpl. reflexivity. Qed.

Lemma keeps_lift {A} (r : result A) : keeps R (lift r).
Proof. intros st. simpl. reflexivity. Qed.

Lemma keeps_get : keeps R get.
Proof. intros st. simpl. reflexivity. Qed.

Lemma keeps_gets {A} (f : S -> A) : keeps R (gets f).
Proof. intros st. simpl. reflexivity. Qed.

Lemma keeps_for_each_in {A} (l : list A) (body : A -> M S unit) :
  (forall x, x ∈ l -> keeps R (body x)) -> keeps R (for_each l body).
Proof.
  induction l as [|x l IH]; intros Hb; simpl.
  - apply keeps_ret.
  - apply keeps_bind; [apply Hb; constructor |].
    intros ?. apply IH. intros y Hy. apply Hb. by constructor.
Qed.

Lemma keeps_for_each {A} (l : list A) (body : A -> M S unit) :
  (forall x, keeps R (body x)) -> keeps R (for_each l body).
Proof. intros Hb. apply keeps_for_each_in. auto. Qed.

End MonadFacts.

(** ** Worksheets *)

Section WsFacts.
Local Open Scope nat_scope.
Implicit Types (ws : Worksheet) (a b : Addr) (m : gmap (nat * nat) Cell).

(** *** The largest row and column *)

Lemma max_key_spec (f : nat * nat -> nat) m :
  (forall k, is_Some (m !! k) -> f k <= Ws.max_key f m) /\
  (Ws.max_key f m = 0 \/ exists k, is_Some (m !! k) /\ f k = Ws.max_key f m).
Proof.
  unfold Ws.max_key.
  apply (map_fold_weak_ind (fun r m =>
    (forall k, is_Some (m !! k) -> f k <= r) /\
    (r = 0 \/ exists k, is_Some (m !! k) /\ f k = r))).
  - split; [|by left]. intros k [c Hc]. by rewrite lookup_empty in Hc.
  - intros i x m' r Hi [Hub Hatt]. split.
    + intros k [c Hc]. destruct (decide (k = i)) as [->|Hne]; [lia|].
      rewrite lookup_insert_ne in Hc by done.
      specialize (Hub k (ex_intro _ c Hc)). lia.
    + right. destruct (Nat.max_spec (f i) r) as [[Hlt ->]|[Hle ->]].
      * destruct Hatt as [->|(k & Hk & <-)]; [lia|].
        exists k. split; [|done]. rewrite lookup_insert_ne; [done|].
        intros ->. destruct Hk as [c Hc]. congruence.
      * exists i. rewrite lookup_insert_eq. eauto.
Qed.

Lemma max_key_unique (f : nat * nat -> nat) m n :
  (forall k, is_Some (m !! k) -> f k <= n) ->
  (n = 0 \/ exists k, is_Some (m !! k) /\ f k = n) ->
  Ws.max_key f m = n.
Proof.
  intros Hub Hatt. destruct (max_key_spec f m) as [Hub' Hatt'].
  apply Nat.le_antisymm.
  - destruct Hatt' as [->|(k & Hk & <-)]; [lia | by apply Hub].
  - destruct Hatt as [->|(k & Hk & <-)]; [lia | by apply Hub'].
Qed.

Lemma max_key_insert (f : nat * nat -> nat) m a (c : Cell) :
  Ws.max_key f (<[a := c]> m) = Nat.max (f a) (Ws.max_key f m).
Proof.
  destruct (max_key_spec f m) as [Hub Hatt].
  apply max_key_unique.
  - intros k [x Hx]. destruct (decide (k = a)) as [->|Hne]; [lia|].
    rewrite lookup_insert_ne in Hx by done.
    specialize (Hub k (ex_intro _ x Hx)). lia.
  - right. destruct (Nat.max_spec (f a) (Ws.max_key f m)) as [[Hlt ->]|[Hle ->]].
    + destruct Hatt as [E|(k & Hk & E)]; [lia|].
      exists k. split; [|done]. rewrite lookup_insert_ne; [done|].
      intros ->. lia.
    + exists a. rewrite lookup_insert_eq. eauto.
Qed.

Lemma max_key_empty (f : nat * nat -> nat) : Ws.max_key f ∅ = 0.
Proof. unfold Ws.max_key. by rewrite map_fold_empty. Qed.

Lemma max_key_same_dom (f : nat * nat -> nat) m1 m2 :
  (forall k, is_Some (m1 !! k) <-> is_Some (m2 !! k)) ->
  Ws.max_key f m1 = Ws.max_key f m2.
Proof.
  intros Hdom. destruct (max_key_spec f m2) as [Hub Hatt].
  apply max_key_unique.
  - intros k Hk. by apply Hub, Hdom.
  - destruct Hatt as [?|(k & Hk & E)]; [by left|].
    right. exists k. split; [by apply Hdom | done].
Qed.

(** *** Updating one cell *)

Lemma cells_update (f : Cell -> Cell) a ws :
  _cells (Ws.update f a ws) = <[a := f (Ws.cell_at ws a)]> (_cells ws).
Proof. unfold Ws.update, Ws.cell_at. by destruct (_cells ws !! a). Qed.

Lemma cell_at_update (f : Cell -> Cell) a b ws :
  Ws.cell_at (Ws.update f a ws) b
  = if decide (a = b) then f (Ws.cell_at ws a) else Ws.cell_at ws b.
Proof.
  unfold Ws.cell_at at 1. rewrite cells_update. case_decide as E.
  - subst. by rewrite lookup_insert_eq.
  - by rewrite lookup_insert_ne.
Qed.

Lemma lookup_update (f : Cell -> Cell) a b ws :
  _cells (Ws.update f a ws) !! b
  = if decide (a = b) then Some (f (Ws.cell_at ws a)) else _cells ws !! b.
Proof.
  rewrite cells_update. case_decide as E.
  - subst. by rewrite lookup_insert_eq.
  - by rewrite lookup_insert_ne.
Qed.

Lemma title_update (f : Cell -> Cell) a ws : title (Ws.update f a ws) = title ws.
Proof. unfold Ws.update. by destruct (_cells ws !! a). Qed.

Lemma tables_update (f : Cell -> Cell) a ws : tables (Ws.update f a ws) = tables ws.
Proof. unfold Ws.update. by destruct (_cells ws !! a). Qed.

Lemma charts_update (f : Cell -> Cell) a ws : charts (Ws.update f a ws) = charts ws.
Proof. unfold Ws.update. by destruct (_cells ws !! a). Qed.

Lemma widths_update (f : Cell -> Cell) a ws :
  column_dimensions (Ws.update f a ws) = column_dimensions ws.
Proof. unfold Ws.update. by destruct (_cells ws !! a). Qed.

Lemma current_row_update (f : Cell -> Cell) a ws :
  _current_row (Ws.update f a ws)
  = if decide (is_Some (_cells ws !! a)) then _current_row ws
    else Nat.max (fst a) (_current_row ws).
Proof.
  unfold Ws.update. by destruct (_cells ws !! a).
Qed.

Lemma current_row_update_pos (f : Cell -> Cell) a ws :
  _current_row ws <> 0 -> _current_row (Ws.update f a ws) <> 0.
Proof. rewrite current_row_update. case_decide; lia. Qed.

Lemma max_row_update (f : Cell -> Cell) a ws :
  Ws.max_row (Ws.update f a ws) = Nat.max (fst a) (Ws.max_row ws).
Proof. unfold Ws.max_row. rewrite cells_update, max_key_insert. lia. Qed.

Lemma max_column_update (f : Cell -> Cell) a ws :
  Ws.max_column (Ws.update f a ws) = Nat.max (snd a) (Ws.max_column ws).
Proof. unfold Ws.max_column. rewrite cells_update, max_key_insert. lia. Qed.

Lemma max_row_pos ws : 1 <= Ws.max_row ws.
Proof. unfold Ws.max_row. lia. Qed.



(** The value a cell shows after any of the script's statements on a cell. *)
Lemma value_update (f : Cell -> Cell) a b ws :
  value (Ws.cell_at (Ws.update f a ws) b)
  = if decide (a = b) then value (f (Ws.cell_at ws a)) else value (Ws.cell_at ws b).
Proof. rewrite cell_at_update. by case_decide. Qed.

Lemma value_set_value a v b ws :
  value (Ws.cell_at (Ws.set_value a v ws) b)
  = if decide (a = b) then v else value (Ws.cell_at ws b).
Proof. unfold Ws.set_value. rewrite value_update. by case_decide. Qed.

Lemma value_restyle (f : Cell -> Cell) a b ws :
  (forall c, value (f c) = value c) ->
  value (Ws.cell_at (Ws.update f a ws) b) = value (Ws.cell_at ws b).
Proof. intros Hf. rewrite value_update. case_decide; [subst; apply Hf | done]. Qed.

(** *** Widths, tables and charts leave the cells alone *)

Lemma cells_set_width c w ws : _cells (Ws.set_width c w ws) = _cells ws.
Proof. done. Qed.

Lemma cell_at_set_width c w ws a : Ws.cell_at (Ws.set_width c w ws) a = Ws.cell_at ws a.
Proof. done. Qed.

Lemma cells_add_table t ws : _cells (Ws.add_table t ws) = _cells ws.
Proof. done. Qed.

Lemma cells_add_chart ch ws : _cells (Ws.add_chart ch ws) = _cells ws.
Proof. done. Qed.

End WsFacts.

(** ** The width loop *)

Section Widths.
Context `{Library}.
Local Open Scope nat_scope.
Implicit Types (ws : Worksheet) (a b : Addr) (col : list Addr).

Lemma for_each_modify {S A} (l : list A) (g : A -> S -> S) (st : S) :
  for_each l (fun x => modify (g x)) st = (Ok tt, foldl (fun s x => g x s) st l).
Proof.
  revert st; induction l as [|x l IH]; intros st; [done|].
  simpl. unfold mbind, M_bind. simpl. apply IH.
Qed.

Lemma touch_all_facts col ws :
  (forall a, Ws.cell_at (touch_all col ws) a = Ws.cell_at ws a) /\
  (forall a, is_Some (_cells (touch_all col ws) !! a)
             <-> is_Some (_cells ws !! a) \/ a ∈ col) /\
  title (touch_all col ws) = title ws /\
  tables (touch_all col ws) = tables ws /\
  charts (touch_all col ws) = charts ws /\
  column_dimensions (touch_all col ws) = column_dimensions ws.
Proof.
  revert ws; induction col as [|x col IH]; intros ws.
  - simpl. repeat split; try done; [tauto | intros [?|?%elem_of_nil]; tauto].
  - unfold touch_all. simpl. fold (touch_all col (Ws.touch x ws)).
    destruct (IH (Ws.touch x ws)) as (Hc & Hd & Ht & Htb & Hch & Hw).
    unfold Ws.touch in *.
    rewrite Ht, Htb, Hch, Hw, title_update, tables_update, charts_update, widths_update.
    repeat split; try done.
    + intros a. rewrite Hc, cell_at_update. case_decide; by subst.
    + rewrite Hd, lookup_update. case_decide as E.
      * subst. intros _. right. constructor.
      * intros [?|?]; [by left | right; by constructor].
    + rewrite Hd, lookup_update. case_decide as E.
      * subst. intros _. left. eauto.
      * intros [?|[->|?]%elem_of_cons]; [by left | done | by right].
Qed.

Lemma longest_from_ext ws ws' col (n : nat) :
  (forall a, Ws.cell_at ws a = Ws.cell_at ws' a) ->
  foldl (fun max_length a =>
           let n := String.length (py_str (value (Ws.cell_at ws a))) in
           if max_length <? n then n else max_length) n col
  = foldl (fun max_length a =>
           let n := String.length (py_str (value (Ws.cell_at ws' a))) in
           if max_length <? n then n else max_length) n col.
Proof.
  intros E. revert n; induction col as [|x col IH]; intros n; [done|].
  simpl. rewrite E. apply IH.
Qed.

Lemma longest_ext ws ws' col :
  (forall a, Ws.cell_at ws a = Ws.cell_at ws' a) -> longest ws col = longest ws' col.
Proof. apply longest_from_ext. Qed.

Lemma adjust_loop (cap : nat) ws0 (cols : list (list Addr)) :
  Forall (fun col => col <> []) cols ->
  exists ws1,
    for_each cols (fun column =>
      for_each column (fun a => modify (Ws.touch a)) ;;
      match column with
      | [] => raise {| exn_class := OtherError; exn_msg := "tuple index out of range" |}
      | first :: _ =>
          ws ← get;
          let max_length := longest ws column in
          modify (Ws.set_width (snd first) (Nat.min (max_length + 2) cap))
      end) ws0 = (Ok tt, ws1) /\
    (forall a, Ws.cell_at ws1 a = Ws.cell_at ws0 a) /\
    (forall a, is_Some (_cells ws1 !! a)
               <-> is_Some (_cells ws0 !! a) \/ exists col, col ∈ cols /\ a ∈ col) /\
    title ws1 = title ws0 /\ tables ws1 = tables ws0 /\ charts ws1 = charts ws0 /\
    column_dimensions ws1 = foldl (width_step cap ws0) (column_dimensions ws0) cols.
Proof.
  intros Hne.
  set (I := fun (handled : list (list Addr)) ws1 =>
    (forall a, Ws.cell_at ws1 a = Ws.cell_at ws0 a) /\
    (forall a, is_Some (_cells ws1 !! a)
               <-> is_Some (_cells ws0 !! a) \/ exists col, col ∈ handled /\ a ∈ col) /\
    title ws1 = title ws0 /\ tables ws1 = tables ws0 /\ charts ws1 = charts ws0 /\
    column_dimensions ws1 = foldl (width_step cap ws0) (column_dimensions ws0) handled).
  match goal with |- exists ws1, for_each cols ?body ws0 = _ /\ _ =>
    assert (ensures (I []) (for_each cols body) (fun _ => I cols)) as Hloop end.
  { apply ensures_for_each. intros handled col rest Ecols ws (Hc & Hd & Ht & Htb & Hch & Hw).
    assert (col <> []) as Hcol.
    { rewrite Forall_forall in Hne. apply Hne. rewrite Ecols.
      apply elem_of_app. right. constructor. }
    destruct col as [|first col']; [done|].
    destruct (touch_all_facts (first :: col') ws) as (Hc' & Hd' & Ht' & Htb' & Hch' & Hw').
    eexists tt, _. split.
    { unfold mbind, M_bind. rewrite for_each_modify. simpl. reflexivity. }
    unfold I. simpl.
    change (foldl (fun s x => Ws.touch x s) (Ws.touch first ws) col')
      with (touch_all (first :: col') ws).
    rewrite Ht', Htb', Hch', Hw'.
    repeat split; try done.
    - intros a. by rewrite cell_at_set_width, Hc', Hc.
    - rewrite Hd', Hd. intros [[?|(c & Hcin & Ha)]|Ha].
      + by left.
      + right. exists c. split; [|done]. apply elem_of_app. by left.
      + right. exists (first :: col'). split; [|done].
        apply elem_of_app. right. constructor.
    - rewrite Hd', Hd. intros [?|(c & [Hcin| ->%list_elem_of_singleton]%elem_of_app & Ha)].
      + left. by left.
      + left. right. eauto.
      + by right.
    - rewrite foldl_app. simpl. rewrite Hw. f_equal. f_equal. f_equal.
      apply longest_ext. intros a. by rewrite Hc', Hc. }
  destruct (Hloop ws0) as ([] & ws1 & E & HI).
  { unfold I. repeat split; try done; [by left|].
    intros [?|(c & ?%elem_of_nil & _)]; done. }
  exists ws1. split; [done|]. exact HI.
Qed.

Lemma longest_from_max ws col (n : nat) :
  n <= foldl (longer ws) n col /\
  (forall a, a ∈ col -> text_length ws a <= foldl (longer ws) n col) /\
  (foldl (longer ws) n col = n
   \/ exists a, a ∈ col /\ text_length ws a = foldl (longer ws) n col).
Proof.
  revert n; induction col as [|x col IH]; intros n; cbn [foldl].
  - split; [lia|]. split; [by intros a ?%elem_of_nil | by left].
  - destruct (IH (longer ws n x)) as (Hge & Hall & Hatt).
    assert (n <= longer ws n x /\ text_length ws x <= longer ws n x /\
            (longer ws n x = n \/ longer ws n x = text_length ws x)) as (H1 & H2 & H3).
    { unfold longer. destruct (Nat.ltb_spec n (text_length ws x)); lia. }
    split; [lia|]. split.
    + intros a [->|Ha]%elem_of_cons; [lia | by apply Hall].
    + destruct Hatt as [E|(a & Ha & E)].
      * destruct H3 as [E'|E']; [left; lia|].
        right. exists x. split; [constructor | lia].
      * right. exists a. split; [by constructor | done].
Qed.

Lemma longest_column ws c : longest_text ws c (longest ws (Ws.column_addrs ws c)).
Proof.
  destruct (longest_from_max ws (Ws.column_addrs ws c) 0) as (_ & Hall & Hatt).
  change (foldl (longer ws) 0 (Ws.column_addrs ws c))
    with (longest ws (Ws.column_addrs ws c)) in *.
  assert (forall r, 1 <= r <= Ws.max_row ws -> (r, c) ∈ Ws.column_addrs ws c) as Hin.
  { intros r Hr. unfold Ws.column_addrs. apply list_elem_of_fmap.
    exists r. split; [done|]. apply elem_of_seq. lia. }
  split.
  - intros r Hr. by apply Hall, Hin.
  - destruct Hatt as [E|(a & Ha & E)].
    + exists 1. pose proof (max_row_pos ws). split; [lia|].
      specialize (Hall (1, c) (Hin 1 ltac:(lia))). lia.
    + unfold Ws.column_addrs in Ha. apply list_elem_of_fmap in Ha as (r & -> & Hr).
      apply elem_of_seq in Hr. exists r. split; [lia | done].
Qed.

Lemma column_addrs_cons ws c :
  exists rest, Ws.column_addrs ws c = (1, c) :: rest.
Proof.
  unfold Ws.column_addrs. pose proof (max_row_pos ws).
  destruct (Ws.max_row ws) as [|n]; [lia|]. simpl. eauto.
Qed.

Lemma widths_of_columns (cap : nat) ws0 (d : gmap nat nat) (k n c : nat) :
  foldl (width_step cap ws0) d (map (Ws.column_addrs ws0) (seq k n)) !! c
  = if decide (k <= c < k + n)
    then Some (Nat.min (longest ws0 (Ws.column_addrs ws0 c) + 2) cap)
    else d !! c.
Proof.
  induction n as [|n IH].
  - simpl. case_decide; [lia | done].
  - rewrite seq_S, map_app, foldl_app. simpl.
    destruct (column_addrs_cons ws0 (k + n)) as [rest E].
    unfold width_step at 1. rewrite E. simpl. rewrite <- E.
    destruct (decide (c = k + n)) as [->|Hne].
    + rewrite lookup_insert_eq. by rewrite decide_True by lia.
    + rewrite lookup_insert_ne by done. rewrite IH.
      repeat case_decide; (done || lia).
Qed.

Lemma max_key_grow (f : nat * nat -> nat) (m0 m1 : gmap (nat * nat) Cell)
    (Q : nat * nat -> Prop) :
  (forall a, is_Some (m1 !! a) <-> is_Some (m0 !! a) \/ Q a) ->
  (forall a, Q a -> f a <= Nat.max 1 (Ws.max_key f m0)) ->
  Nat.max 1 (Ws.max_key f m1) = Nat.max 1 (Ws.max_key f m0).
Proof.
  intros Hdom HQ.
  destruct (max_key_spec f m0) as [Hub0 Hatt0].
  destruct (max_key_spec f m1) as [Hub1 Hatt1].
  assert (Ws.max_key f m0 <= Ws.max_key f m1).
  { destruct Hatt0 as [->|(k & Hk & <-)]; [lia|]. apply Hub1, Hdom. by left. }
  assert (Ws.max_key f m1 <= Nat.max 1 (Ws.max_key f m0)).
  { destruct Hatt1 as [->|(k & Hk & <-)]; [lia|].
    apply Hdom in Hk as [Hk|Hk]; [|by apply HQ].
    specialize (Hub0 k Hk). lia. }
  lia.
Qed.

(** The loop, on a sheet that has had a row: every column from 1 to
    [max_column] gets its width; neither the content nor the extent of
    the sheet changes. *)
Lemma adjust_widths_spec (cap : nat) ws0 :
  _current_row ws0 <> 0 ->
  exists ws1,
    adjust_widths cap ws0 = (Ok tt, ws1) /\
    (forall a, Ws.cell_at ws1 a = Ws.cell_at ws0 a) /\
    (forall a, is_Some (_cells ws1 !! a)
               <-> is_Some (_cells ws0 !! a)
                   \/ (1 <= fst a <= Ws.max_row ws0 /\ 1 <= snd a <= Ws.max_column ws0)) /\
    title ws1 = title ws0 /\ tables ws1 = tables ws0 /\ charts ws1 = charts ws0 /\
    Ws.max_row ws1 = Ws.max_row ws0 /\ Ws.max_column ws1 = Ws.max_column ws0 /\
    (forall c, 1 <= c <= Ws.max_column ws1 -> width_fits cap ws1 c) /\
    (forall c, ~ 1 <= c <= Ws.max_column ws1 ->
               column_dimensions ws1 !! c = column_dimensions ws0 !! c).
Proof.
  intros Hcur. unfold adjust_widths.
  destruct (adjust_loop cap ws0 (Ws.columns ws0))
    as (ws1 & E & Hc & Hd & Ht & Htb & Hch & Hw).
  { unfold Ws.columns. destruct (_current_row ws0); [done|].
    apply Forall_forall. intros col (c & -> & _)%list_elem_of_fmap.
    by destruct (column_addrs_cons ws0 c) as [rest ->]. }
  assert (forall a, (exists col, col ∈ Ws.columns ws0 /\ a ∈ col)
                    <-> (1 <= fst a <= Ws.max_row ws0 /\ 1 <= snd a <= Ws.max_column ws0))
    as Hrect.
  { intros [r c]. unfold Ws.columns. destruct (_current_row ws0); [done|]. simpl. split.
    - intros (col & (c' & -> & Hc')%list_elem_of_fmap & Ha).
      unfold Ws.column_addrs in Ha. apply list_elem_of_fmap in Ha as (r' & [= -> ->] & Hr').
      apply elem_of_seq in Hc', Hr'. lia.
    - intros [Hr Hcc]. exists (Ws.column_addrs ws0 c). split.
      + apply list_elem_of_fmap. exists c. split; [done|]. apply elem_of_seq. lia.
      + apply list_elem_of_fmap. exists r. split; [done|]. apply elem_of_seq. lia. }
  assert (Ws.max_row ws1 = Ws.max_row ws0) as Hmr.
  { apply (max_key_grow fst _ _ _ Hd). intros a Ha%Hrect. fold (Ws.max_row ws0). lia. }
  assert (Ws.max_column ws1 = Ws.max_column ws0) as Hmc.
  { apply (max_key_grow snd _ _ _ Hd). intros a Ha%Hrect. fold (Ws.max_column ws0). lia. }
  exists ws1. split.
  { unfold mbind, M_bind. simpl. exact E. }
  split; [done|]. split; [intros a; by rewrite Hd, Hrect|].
  repeat (split; [done|]).
  assert (forall c, column_dimensions ws1 !! c
            = if decide (1 <= c < 1 + Ws.max_column ws0)
              then Some (Nat.min (longest ws0 (Ws.column_addrs ws0 c) + 2) cap)
              else column_dimensions ws0 !! c) as Hlook.
  { intros c. rewrite Hw. unfold Ws.columns. destruct (_current_row ws0); [done|].
    apply widths_of_columns. }
  split.
  - intros c Hcc. exists (longest ws1 (Ws.column_addrs ws1 c)). split.
    + apply longest_column.
    + rewrite Hlook, decide_True by lia. do 3 f_equal.
      unfold Ws.column_addrs. rewrite Hmr. symmetry. by apply longest_ext.
  - intros c Hcc. rewrite Hlook, decide_False by lia. done.
Qed.

End Widths.

(** ** Appending rows and styling cells *)

Section Rows.
Local Open Scope nat_scope.
Implicit Types (ws : Worksheet) (a b : Addr) (row : list Value).





Lemma restyle_all_facts (g : Cell -> Cell) (l : list Addr) ws :
  (forall b, b ∉ l -> Ws.cell_at (restyle_all g l ws) b = Ws.cell_at ws b) /\
  (forall b, is_Some (_cells (restyle_all g l ws) !! b)
             <-> is_Some (_cells ws !! b) \/ b ∈ l) /\
  title (restyle_all g l ws) = title ws /\
  tables (restyle_all g l ws) = tables ws /\
  charts (restyle_all g l ws) = charts ws /\
  column_dimensions (restyle_all g l ws) = column_dimensions ws /\
  (_current_row ws <> 0 -> _current_row (restyle_all g l ws) <> 0).
Proof.
  revert ws; induction l as [|x l IH]; intros ws.
  - simpl. repeat split; try done; [tauto | intros [?|?%elem_of_nil]; tauto].
  - unfold restyle_all. simpl. fold (restyle_all g l (Ws.update g x ws)).
    destruct (IH (Ws.update g x ws)) as (Hc & Hd & Ht & Htb & Hch & Hw & Hcur).
    rewrite Ht, Htb, Hch, Hw, title_update, tables_update, charts_update, widths_update.
    repeat split; try done.
    + intros b Hb. rewrite Hc, cell_at_update.
      * rewrite decide_False; [done|]. intros ->. apply Hb. constructor.
      * intros Hin. apply Hb. by constructor.
    + rewrite Hd, lookup_update. case_decide as E.
      * subst. intros _. right. constructor.
      * intros [?|?]; [by left | right; by constructor].
    + rewrite Hd, lookup_update. case_decide as E.
      * subst. intros _. left. eauto.
      * intros [?|[->|?]%elem_of_cons]; [by left | done | by right].
    + intros Hpos. by apply Hcur, current_row_update_pos.
Qed.

(** What holds of [g c] for every [c], and is kept by [g], holds of the
    restyled cells. *)
Lemma restyle_all_in (P : Cell -> Prop) (g : Cell -> Cell) (l : list Addr) ws b :
  (forall c, P (g c)) -> b ∈ l -> P (Ws.cell_at (restyle_all g l ws) b).
Proof.
  intros Hg. revert ws; induction l as [|x l IH]; intros ws Hb.
  - by apply elem_of_nil in Hb.
  - unfold restyle_all. simpl. fold (restyle_all g l (Ws.update g x ws)).
    destruct (decide (b ∈ l)) as [Hin|Hnin]; [by apply IH|].
    apply elem_of_cons in Hb as [->|?]; [|done].
    destruct (restyle_all_facts g l (Ws.update g x ws)) as (Hc & _).
    rewrite Hc by done. rewrite cell_at_update, decide_True by done. apply Hg.
Qed.

Lemma restyle_all_keeps (P : Cell -> Prop) (g : Cell -> Cell) (l : list Addr) ws b :
  (forall c, P c -> P (g c)) ->
  P (Ws.cell_at ws b) -> P (Ws.cell_at (restyle_all g l ws) b).
Proof.
  intros Hg. revert ws; induction l as [|x l IH]; intros ws Hb; [done|].
  unfold restyle_all. simpl. fold (restyle_all g l (Ws.update g x ws)).
  apply IH. rewrite cell_at_update. case_decide; [subst; by apply Hg | done].
Qed.



End Rows.

(** ** The main data sheet *)

Section MainSheet.
Context `{Library}.
Local Open Scope nat_scope.
Implicit Types (ws : Worksheet) (a b : Addr) (df : DataFrame).








Lemma bind_get {S B} (f : S -> M S B) (st : S) : (get ≫= f) st = f st st.
Proof. done. Qed.

Lemma bind_gets {S A B} (g : S -> A) (f : A -> M S B) (st : S) :
  (gets g ≫= f) st = f (g st) st.
Proof. done. Qed.

Lemma bind_modify {S B} (g : S -> S) (f : unit -> M S B) (st : S) :
  (modify g ≫= f) st = f tt (g st).
Proof. done. Qed.




End MainSheet.

(** ** The converter state *)

Section StateFacts.
Context `{Library}.
Local Open Scope nat_scope.

Lemma the_data_run st df : data (self st) = Some df -> the_data st = (Ok df, st).
Proof. intros E. unfold the_data. by rewrite E. Qed.

Lemma the_workbook_run st wb :
  workbook (self st) = Some wb -> the_workbook st = (Ok wb, st).
Proof. intros E. unfold the_workbook. by rewrite E. Qed.

Lemma create_sheet_run st wb (t : string) :
  workbook (self st) = Some wb ->
  create_sheet t st
  = (Ok (length (worksheets wb)),
     with_self (put_workbook
       (with_sheets (worksheets wb ++
          [new_worksheet (avoid_duplicate_name (map title (worksheets wb)) t)]) wb)) st).
Proof.
  intros E. unfold create_sheet. by rewrite (bind_Ok _ _ _ _ _ (the_workbook_run st wb E)).
Qed.

Lemma on_sheet_run {A} st wb (i : nat) ws (m : M Worksheet A) (r : result A) ws' :
  workbook (self st) = Some wb -> worksheets wb !! i = Some ws -> m ws = (r, ws') ->
  on_sheet i m st
  = (r, with_self (put_workbook (with_sheets (<[i := ws']> (worksheets wb)) wb)) st).
Proof.
  intros E Ei Em. unfold on_sheet.
  rewrite (bind_Ok _ _ _ _ _ (the_workbook_run st wb E)), Ei, Em.
  by destruct r.
Qed.

(** A stage that creates one sheet and fills it: whether the statements on
    the sheet return or raise, the sheet stays in the workbook as they
    left it. *)
Lemma sheet_stage_run {A} st wb df (t : string) (body : DataFrame -> M Worksheet A)
    (r : result A) ws' :
  workbook (self st) = Some wb -> data (self st) = Some df ->
  body df (new_worksheet (avoid_duplicate_name (map title (worksheets wb)) t)) = (r, ws') ->
  (ws ← create_sheet t; df ← the_data; on_sheet ws (body df) ;; mret ws) st
  = (match r with Ok _ => Ok (length (worksheets wb)) | Raise e => Raise e end,
     with_self (put_workbook (with_sheets (worksheets wb ++ [ws']) wb)) st).
Proof.
  intros Ewb Edf Eb.
  rewrite (bind_Ok _ _ _ _ _ (create_sheet_run st wb t Ewb)).
  set (st1 := with_self _ st).
  rewrite (bind_Ok _ _ _ _ _ (the_data_run st1 df Edf)).
  assert (worksheets (with_sheets (worksheets wb ++
            [new_worksheet (avoid_duplicate_name (map title (worksheets wb)) t)]) wb)
          !! length (worksheets wb)
          = Some (new_worksheet (avoid_duplicate_name (map title (worksheets wb)) t))) as Ei.
  { simpl. by rewrite lookup_app_r, Nat.sub_diag. }
  pose proof (on_sheet_run st1 _ _ _ _ _ _ eq_refl Ei Eb) as Eo.
  simpl in Eo. rewrite insert_app_r_alt, Nat.sub_diag in Eo by done. simpl in Eo.
  destruct r as [a|e].
  - rewrite (bind_Ok _ _ _ _ _ Eo). done.
  - rewrite (bind_Raise _ _ _ _ _ Eo). done.
Qed.

End StateFacts.

(* ===================================================================== *)
(** * The main data sheet (specification 4.2) *)
(* ===================================================================== *)

Section MainSheetClaims.
Context `{Library}.
Local Open Scope nat_scope.



End MainSheetClaims.



(** ** Frames and totality *)

Section Frames.
Local Open Scope nat_scope.

Lemma total_ret {S A} (a : A) : total (S := S) (mret a).
Proof. intros st. by exists a, st. Qed.

Lemma total_bind {S A B} (m : M S A) (f : A -> M S B) :
  total m -> (forall a, total (f a)) -> total (m ≫= f).
Proof.
  intros Hm Hf st. destruct (Hm st) as (a & st1 & E).
  destruct (Hf a st1) as (b & st2 & E2). exists b, st2.
  by rewrite (bind_Ok _ _ _ _ _ E).
Qed.

Lemma total_modify {S} (f : S -> S) : total (modify f).
Proof. intros st. by exists tt, (f st). Qed.

Lemma total_get {S} : total (get (S := S)).
Proof. intros st. by exists st, st. Qed.

Lemma total_lift {S A} (a : A) : total (S := S) (lift (Ok a)).
Proof. intros st. by exists a, st. Qed.

Lemma total_for_each {S A} (l : list A) (body : A -> M S unit) :
  (forall x, x ∈ l -> total (body x)) -> total (for_each l body).
Proof.
  induction l as [|x l IH]; intros Hb; simpl.
  - apply total_ret.
  - apply total_bind; [apply Hb; constructor|].
    intros ?. apply IH. intros y Hy. apply Hb. by constructor.
Qed.

(** What a total computation that keeps [R] ensures. *)
Lemma ensures_of_keeps {S A} (R : S -> S -> Prop) (P : S -> Prop) (Q : S -> Prop)
    (m : M S A) :
  total m -> keeps R m -> (forall st st', P st -> R st st' -> Q st') ->
  ensures P m (fun _ => Q).
Proof.
  intros Ht Hk HQ st HP. destruct (Ht st) as (a & st' & E).
  exists a, st'. split; [done|]. apply (HQ st); [done|].
  specialize (Hk st). by rewrite E in Hk.
Qed.

#[global] Instance ws_frame_preorder (D : nat * nat -> Prop) : PreOrder (ws_frame D).
Proof.
  split.
  - intros ws. by split.
  - intros ws1 ws2 ws3 (H12 & C12 & T12) (H23 & C23 & T23). split; [|split].
    + intros a Ha. by rewrite H23, H12.
    + auto.
    + congruence.
Qed.

Lemma keeps_update (D : nat * nat -> Prop) (g : Cell -> Cell) (a : nat * nat) :
  D a -> keeps (ws_frame D) (modify (Ws.update g a)).
Proof.
  intros Ha. apply keeps_modify. intros ws. split; [|split].
  - intros b Hb. rewrite cell_at_update, decide_False; [done|]. by intros ->.
  - apply current_row_update_pos.
  - apply title_update.
Qed.

Lemma keeps_set_value (D : nat * nat -> Prop) (a : nat * nat) (v : Value) :
  D a -> keeps (ws_frame D) (modify (Ws.set_value a v)).
Proof. apply keeps_update. Qed.

Lemma keeps_set_font (D : nat * nat -> Prop) (a : nat * nat) (f : Font) :
  D a -> keeps (ws_frame D) (modify (Ws.set_font a f)).
Proof. apply keeps_update. Qed.

Lemma keeps_style_header (D : nat * nat -> Prop) (a : nat * nat) :
  D a -> keeps (ws_frame D) (style_header a).
Proof.
  intros Ha. unfold style_header.
  repeat (apply keeps_bind; [apply _ | by apply keeps_update | intros ?]).
  by apply keeps_update.
Qed.

Lemma total_style_header (a : nat * nat) : total (style_header a).
Proof.
  unfold style_header. repeat (apply total_bind; [apply total_modify | intros ?]).
  apply total_modify.
Qed.


(** *** Labels and positions *)

Lemma filter_none {A} (P : A -> Prop) `{forall x, Decision (P x)} (l : list A) :
  (forall y, y ∈ l -> ~ P y) -> filter P l = [].
Proof.
  induction l as [|x l IH]; intros Hno; [done|].
  rewrite filter_cons_False by (apply Hno; constructor).
  apply IH. intros y Hy. apply Hno. by constructor.
Qed.

Lemma getitem_unique (df : DataFrame) (c : Series) :
  NoDup (map name (df_columns df)) -> c ∈ df_columns df ->
  Pd.getitem df (name c) = Ok c.
Proof.
  unfold Pd.getitem. induction (df_columns df) as [|x l IH]; intros Hnd Hin.
  - by apply elem_of_nil in Hin.
  - simpl in Hnd. apply NoDup_cons in Hnd as [Hx Hnd].
    assert (forall y, y ∈ l -> name y = name x -> False) as Hfresh.
    { intros y Hy E. apply Hx. rewrite <- E. apply list_elem_of_fmap. eauto. }
    apply elem_of_cons in Hin as [->|Hin].
    + rewrite filter_cons_True by done.
      rewrite filter_none; [done|]. intros y Hy E. eauto.
    + rewrite filter_cons_False; [by apply IH|].
      intros E. by apply (Hfresh c).
Qed.

Lemma elem_of_enumerate {A} (l : list A) (k j : nat) (x : A) :
  l !! j = Some x -> (k + j, x) ∈ enumerate k l.
Proof.
  revert k j; induction l as [|y l IH]; intros k j E; [done|].
  destruct j as [|j]; simpl in *.
  - injection E as ->. rewrite Nat.add_0_r. constructor.
  - replace (k + S j) with (S k + j) by lia. constructor. by apply IH.
Qed.

Lemma elem_of_enumerate_inv {A} (l : list A) (k i : nat) (x : A) :
  (i, x) ∈ enumerate k l -> k <= i /\ l !! (i - k) = Some x.
Proof.
  revert k; induction l as [|y l IH]; intros k Hin.
  - by apply elem_of_nil in Hin.
  - simpl in Hin. apply elem_of_cons in Hin as [[= -> ->]|Hin].
    + by rewrite Nat.sub_diag.
    + apply IH in Hin as [Hle E]. split; [lia|].
      by replace (i - k) with (S (i - S k)) by lia.
Qed.

Lemma enumerate_split {A} (l : list A) (k i : nat) (x : A) handled rest :
  enumerate k l = handled ++ (i, x) :: rest ->
  forall p, p ∈ handled -> fst p < i.
Proof.
  revert k l; induction handled as [|h handled IH]; intros k l E p Hp.
  - by apply elem_of_nil in Hp.
  - destruct l as [|y l]; [done|]. simpl in E. injection E as <- E.
    assert (S k <= i) as Hi.
    { apply (elem_of_enumerate_inv l (S k) i x). rewrite E.
      apply elem_of_app. right. constructor. }
    apply elem_of_cons in Hp as [->|Hp]; [simpl; lia|].
    by eapply IH.
Qed.

End Frames.

(** ** The summary sheet *)

Section SummarySheet.
Context `{Library}.
Local Open Scope nat_scope.
Implicit Types (ws : Worksheet) (df : DataFrame).

Lemma bind_lift_Ok {S A B} (a : A) (f : A -> M S B) (st : S) :
  (lift (Ok a) ≫= f) st = f a st.
Proof. done. Qed.

Lemma ensures_has_row (g : Cell -> Cell) (a : nat * nat) :
  ensures (fun ws => _current_row ws <> 0) (modify (Ws.update g a))
          (fun _ ws => _current_row ws <> 0).
Proof. apply ensures_modify. intros ws. apply current_row_update_pos. Qed.

Lemma info_row_frame (D : nat * nat -> Prop) df ws ws' (i : nat) (c : Series) :
  ws_frame D ws ws' -> (forall k, ~ D (i, k)) ->
  info_row df ws i c -> info_row df ws' i c.
Proof.
  intros (Hc & _) HD (H1 & H2 & H3 & H4 & H5). unfold info_row.
  rewrite !Hc by apply HD. done.
Qed.

Lemma keeps_column_info df (i : nat) (col : string) :
  keeps (ws_frame (fun a => fst a = i)) (column_info df i col).
Proof.
  unfold column_info.
  apply keeps_bind; [apply _ | by apply keeps_set_value | intros ?].
  apply keeps_bind; [apply _ | apply keeps_lift; apply _ | intros c].
  repeat (apply keeps_bind; [apply _ | by apply keeps_set_value | intros ?]).
  by apply keeps_set_value.
Qed.

Lemma column_info_run df (i : nat) (c : Series) ws :
  Pd.getitem df (name c) = Ok c ->
  exists ws', column_info df i (name c) ws = (Ok tt, ws') /\
              ws_frame (fun a => fst a = i) ws ws' /\ info_row df ws' i c.
Proof.
  intros Eg. eexists. split; [|split].
  - unfold column_info. rewrite bind_modify, Eg, bind_lift_Ok, !bind_modify. reflexivity.
  - pose proof (keeps_column_info df i (name c) ws) as Hk.
    unfold column_info in Hk.
    rewrite bind_modify, Eg, bind_lift_Ok, !bind_modify in Hk. exact Hk.
  - unfold info_row.
    change (cell_ref "A" i) with (i, 1). change (cell_ref "B" i) with (i, 2).
    change (cell_ref "C" i) with (i, 3). change (cell_ref "D" i) with (i, 4).
    change (cell_ref "E" i) with (i, 5).
    rewrite !value_set_value.
    repeat (case_decide; [try discriminate | try done]).
    repeat split; reflexivity.
Qed.

(** The column table: one row per column of the table, from row 9 on. *)
Lemma column_table df :
  NoDup (map name (df_columns df)) ->
  ensures (fun ws => _current_row ws <> 0)
    (for_each (enumerate 9 (map name (df_columns df)))
       (fun '(i, col) => column_info df i col))
    (fun _ ws => _current_row ws <> 0 /\
       forall j c, df_columns df !! j = Some c -> info_row df ws (9 + j) c).
Proof.
  intros Hnd.
  set (I := fun (handled : list (nat * string)) ws =>
    _current_row ws <> 0 /\
    forall p, p ∈ handled ->
      exists c, c ∈ df_columns df /\ name c = snd p /\ info_row df ws (fst p) c).
  eapply ensures_weaken; [apply (ensures_for_each I) | |].
  - intros handled [i nm] rest E ws [Hcur Hrows].
    assert ((i, nm) ∈ enumerate 9 (map name (df_columns df))) as Hin.
    { rewrite E. apply elem_of_app. right. constructor. }
    apply elem_of_enumerate_inv in Hin as [_ Hnm].
    rewrite list_lookup_fmap in Hnm.
    destruct (df_columns df !! (i - 9)) as [c|] eqn:Ec; [|done].
    injection Hnm as <-.
    assert (c ∈ df_columns df) as Hc by (by eapply list_elem_of_lookup_2).
    destruct (column_info_run df i c ws (getitem_unique df c Hnd Hc))
      as (ws' & Erun & Hframe & Hrow).
    exists tt, ws'. split; [done|]. split; [by apply Hframe|].
    intros p [Hp| ->%list_elem_of_singleton]%elem_of_app.
    + destruct (Hrows p Hp) as (c' & Hc' & En & Hrow').
      exists c'. split; [done|]. split; [done|].
      apply (info_row_frame _ df ws ws' _ c' Hframe); [|done].
      intros k. simpl. pose proof (enumerate_split _ _ _ _ _ _ E p Hp). lia.
    + exists c. done.
  - intros ws Hcur. split; [done|]. by intros p ?%elem_of_nil.
  - intros _ ws [Hcur Hrows]. split; [done|].
    intros j c Ej.
    destruct (Hrows (9 + j, name c)) as (c' & Hc' & En & Hrow').
    { apply elem_of_enumerate. by rewrite list_lookup_fmap, Ej. }
    simpl in *.
    assert (c' = c) as ->; [|done].
    pose proof (getitem_unique df c' Hnd Hc') as E1.
    pose proof (getitem_unique df c Hnd ltac:(by eapply list_elem_of_lookup_2)) as E2.
    rewrite En in E1. congruence.
Qed.

Lemma getitem_number df (col : string) :
  NoDup (map name (df_columns df)) -> col ∈ Pd.select_number df ->
  exists c, c ∈ df_columns df /\ Pd.is_number (dtype c) = true /\ name c = col /\
            Pd.getitem df col = Ok c.
Proof.
  intros Hnd (c & -> & Hc)%list_elem_of_fmap.
  apply list_elem_of_filter in Hc as [Hnum Hc].
  exists c. repeat split; try done. by apply getitem_unique.
Qed.

Lemma total_numeric_block df :
  NoDup (map name (df_columns df)) -> total (numeric_block df (Pd.select_number df)).
Proof.
  intros Hnd. unfold numeric_block.
  do 2 (apply total_bind; [apply total_modify | intros ?]).
  apply total_bind; [|intros ?].
  - apply total_for_each. intros [i header] _.
    apply total_bind; [apply total_modify | intros ?]. apply total_style_header.
  - apply total_for_each. intros [i stat] _.
    apply total_bind; [apply total_modify | intros ?].
    apply total_for_each. intros [j col] Hin.
    apply elem_of_enumerate_inv in Hin as [_ Hin].
    apply list_elem_of_lookup_2 in Hin.
    destruct (getitem_number df col Hnd Hin) as (c & _ & _ & _ & ->).
    apply total_bind; [apply total_lift | intros ?]. apply total_modify.
Qed.

Lemma keeps_numeric_block df (cols : list string) :
  keeps (ws_frame (fun a => length (df_columns df) + 11 <= fst a)) (numeric_block df cols).
Proof.
  unfold numeric_block.
  apply keeps_bind; [apply _ | apply keeps_set_value; simpl; lia | intros ?].
  apply keeps_bind; [apply _ | apply keeps_set_font; simpl; lia | intros ?].
  apply keeps_bind; [apply _ | | intros ?].
  - apply keeps_for_each; [apply _|]. intros [i header].
    apply keeps_bind; [apply _ | apply keeps_set_value; simpl; lia | intros ?].
    apply keeps_style_header. simpl. lia.
  - apply keeps_for_each; [apply _|]. intros [i stat].
    apply keeps_bind; [apply _ | apply keeps_set_value; simpl; lia | intros ?].
    apply keeps_for_each; [apply _|]. intros [j col].
    apply keeps_bind; [apply _ | apply keeps_lift; apply _ | intros c].
    apply keeps_set_value. simpl. lia.
Qed.

(** The statements of [create_summary_sheet] from the time stamp on, on a
    sheet that has a row already. *)
Lemma summary_body_spec df (stamp : string) ws0 :
  NoDup (map name (df_columns df)) -> _current_row ws0 <> 0 ->
  exists ws,
    summary_body df stamp ws0 = (Ok tt, ws) /\
    title ws = title ws0 /\
    (forall j c, df_columns df !! j = Some c -> info_row df ws (9 + j) c) /\
    (forall c, 1 <= c <= Ws.max_column ws -> width_fits 30 ws c).
Proof.
  intros Hnd Hcur.
  set (Pos := fun ws => _current_row ws <> 0 /\ title ws = title ws0).
  set (Rows := fun ws => Pos ws /\
    forall j c, df_columns df !! j = Some c -> info_row df ws (9 + j) c).
  assert (forall g x, ensures Pos (modify (Ws.update g x)) (fun _ => Pos)) as Hstep.
  { intros g x. apply ensures_modify. intros ws [Hp Ht]. split.
    - by apply current_row_update_pos.
    - by rewrite title_update. }
  assert (ensures Pos (summary_body df stamp)
            (fun _ ws => title ws = title ws0 /\
               (forall j c, df_columns df !! j = Some c -> info_row df ws (9 + j) c) /\
               (forall c, 1 <= c <= Ws.max_column ws -> width_fits 30 ws c))) as Hall.
  { unfold summary_body.
    do 8 (eapply ensures_bind; [apply Hstep | intros ?]).
    eapply ensures_bind; [|intros ?].
    { apply (ensures_of_keeps (ws_frame (fun _ => True)) _ Pos).
      - apply total_for_each. intros x _. apply total_style_header.
      - apply keeps_for_each; [apply _|]. intros x. by apply keeps_style_header.
      - intros ws ws' [Hpos Ht] (_ & Hc & Ht'). split; [by apply Hc | congruence]. }
    eapply ensures_bind with (Q := fun _ => Rows); [|intros ?].
    { intros ws [Hpos Ht].
      destruct (column_table df Hnd ws Hpos) as (u & ws' & E & Hpos' & Hrows).
      exists u, ws'. split; [done|]. split; [split; [done|] | done].
      pose proof (keeps_for_each (ws_frame (fun _ => True))
                    (enumerate 9 (map name (df_columns df)))
                    (fun '(i, col) => column_info df i col)) as Hk.
      assert (keeps (ws_frame (fun _ => True))
                (for_each (enumerate 9 (map name (df_columns df)))
                   (fun '(i, col) => column_info df i col))) as Hkeep.
      { apply Hk. intros [i col]. unfold column_info.
        apply keeps_bind; [apply _ | by apply keeps_set_value | intros ?].
        apply keeps_bind; [apply _ | apply keeps_lift; apply _ | intros c].
        repeat (apply keeps_bind; [apply _ | by apply keeps_set_value | intros ?]).
        by apply keeps_set_value. }
      specialize (Hkeep ws). rewrite E in Hkeep. destruct Hkeep as (_ & _ & Ht').
      simpl in Ht'. congruence. }
    eapply ensures_bind with (Q := fun _ => Rows); [|intros ?].
    { destruct (0 <? length (Pd.select_number df)).
      - apply (ensures_of_keeps
                 (ws_frame (fun a => length (df_columns df) + 11 <= fst a)) _ Rows).
        + by apply total_numeric_block.
        + apply keeps_numeric_block.
        + intros ws ws' [[Hpos Ht] Hrows] Hframe. split; [split|].
          * by apply Hframe.
          * destruct Hframe as (_ & _ & Ht'). congruence.
          * intros j c Ej.
            apply (info_row_frame _ df ws ws' _ c Hframe); [|by apply Hrows].
            intros k. simpl. apply lookup_lt_Some in Ej. lia.
      - by apply ensures_ret. }
    intros ws [[Hpos Ht] Hrows].
    destruct (adjust_widths_spec 30 ws Hpos)
      as (ws2 & E2 & Hc2 & _ & Ht2 & _ & _ & _ & _ & Hfit & _).
    exists tt, ws2. split; [done|]. split; [congruence|]. split; [|done].
    intros j c Ej. destruct (Hrows j c Ej) as (H1 & H2 & H3 & H4 & H5).
    unfold info_row. by rewrite !Hc2. }
  destruct (Hall ws0) as ([] & ws & E & Hfacts); [by split|].
  by exists ws.
Qed.

End SummarySheet.

(* ===================================================================== *)
(** * The summary sheet (specification 4.3) *)
(* ===================================================================== *)

Section SummarySheetClaims.
Context `{Library}.
Local Open Scope nat_scope.

Lemma summary_head_run df ws0 :
  _cells ws0 = ∅ ->
  exists ws, summary_head df ws0 = (Ok tt, ws) /\
             _current_row ws <> 0 /\ title ws = title ws0.
Proof.
  intros Hcells. eexists. split; [|split].
  - unfold summary_head. rewrite !bind_modify. reflexivity.
  - unfold Ws.set_value, Ws.set_font.
    do 6 apply current_row_update_pos.
    rewrite current_row_update, Hcells, lookup_empty.
    rewrite decide_False by (by intros [? ?]). simpl. lia.
  - unfold Ws.set_value, Ws.set_font. by rewrite !title_update.
Qed.

Lemma create_summary_sheet_run st df wb :
  data (self st) = Some df -> workbook (self st) = Some wb ->
  NoDup (map name (df_columns df)) ->
  exists ws st',
    create_summary_sheet st = (Ok (length (worksheets wb)), st') /\
    workbook (self st') = Some (with_sheets (worksheets wb ++ [ws]) wb) /\
    (forall j c, df_columns df !! j = Some c -> info_row df ws (9 + j) c) /\
    (forall c, 1 <= c <= Ws.max_column ws -> width_fits 30 ws c).
Proof.
  intros Edf Ewb Hnd.
  set (t := avoid_duplicate_name (map title (worksheets wb)) "Data Summary").
  destruct (summary_head_run df (new_worksheet t) eq_refl) as (ws_h & Eh & Hcur & _).
  set (stamp := strftime_datetime (clock (world st) (ticks (world st)))).
  destruct (summary_body_spec df stamp ws_h Hnd Hcur) as (ws & Eb & _ & Hrows & Hfit).
  exists ws. eexists. split; [|split; [|split; [exact Hrows | exact Hfit]]].
  - unfold create_summary_sheet, print. rewrite bind_modify.
    set (st1 := with_world (log "Creating summary sheet...") st).
    rewrite (bind_Ok _ _ _ _ _ (create_sheet_run st1 wb "Data Summary" Ewb)).
    fold t. set (st2 := with_self _ st1).
    rewrite (bind_Ok _ _ _ _ _ (the_data_run st2 df Edf)).
    assert (worksheets (with_sheets (worksheets wb ++ [new_worksheet t]) wb)
            !! length (worksheets wb) = Some (new_worksheet t)) as Ei.
    { simpl. by rewrite lookup_app_r, Nat.sub_diag. }
    pose proof (on_sheet_run st2 _ _ _ _ _ _ eq_refl Ei Eh) as Eo.
    simpl in Eo. rewrite insert_app_r_alt, Nat.sub_diag in Eo by done. simpl in Eo.
    rewrite (bind_Ok _ _ _ _ _ Eo). clear Eo.
    set (st3 := with_self _ st2).
    assert (now st3 = (Ok (clock (world st) (ticks (world st))), with_world tick st3))
      as En by done.
    rewrite (bind_Ok _ _ _ _ _ En).
    assert (worksheets (with_sheets (worksheets wb ++ [ws_h])
                          (with_sheets (worksheets wb ++ [new_worksheet t]) wb))
            !! length (worksheets wb) = Some ws_h) as Ei2.
    { simpl. by rewrite lookup_app_r, Nat.sub_diag. }
    pose proof (on_sheet_run (with_world tick st3) _ _ _ _ _ _ eq_refl Ei2 Eb) as Eo.
    simpl in Eo. rewrite insert_app_r_alt, Nat.sub_diag in Eo by done. simpl in Eo.
    fold stamp. rewrite (bind_Ok _ _ _ _ _ Eo). reflexivity.
  - done.
Qed.


End SummarySheetClaims.



(* ===================================================================== *)
(** * The charts sheet (specification 4.4) *)
(* ===================================================================== *)

Section ChartsSheet.
Context `{Library}.
Local Open Scope nat_scope.

Lemma collect_means_undefined df (cols : list string) ws :
  (forall col, col ∈ cols ->
     exists c, Pd.getitem df col = Ok c /\ mean c = F64.nan) ->
  collect_means df cols ws = (Ok [], ws).
Proof.
  induction cols as [|col cols IH]; intros Hall; [done|].
  destruct (Hall col) as (c & Eg & Em); [constructor|].
  simpl. rewrite Eg, bind_lift_Ok.
  rewrite (bind_Ok _ _ _ _ _ (IH ltac:(intros; apply Hall; by constructor))).
  by rewrite Em.
Qed.

Lemma charts_body_undefined df ws0 :
  _cells ws0 = ∅ -> charts ws0 = [] -> tables ws0 = [] -> column_dimensions ws0 = ∅ ->
  Pd.select_number df = [] \/
  (NoDup (map name (df_columns df)) /\
   forall c, c ∈ df_columns df -> Pd.is_number (dtype c) = true -> mean c = F64.nan) ->
  exists ws, charts_body df ws0 = (Ok tt, ws) /\ title ws = title ws0 /\ title_only ws.
Proof.
  intros Hcells Hch Htb Hw Hcase.
  set (ws := Ws.set_font (cell_ref "A" 1) (title_font 16)
               (Ws.set_value (cell_ref "A" 1) (VStr "Data Visualizations") ws0)).
  exists ws. split; [|split].
  - unfold charts_body. rewrite !bind_modify. fold ws.
    destruct Hcase as [-> | [Hnd Hmeans]]; [done|].
    destruct (0 <? length (Pd.select_number df)); [|done].
    assert (forall col, col ∈ take 10 (Pd.select_number df) ->
              exists c, Pd.getitem df col = Ok c /\ mean c = F64.nan) as Hall.
    { intros col Hcol%(subseteq_take 10).
      destruct (getitem_number df col Hnd Hcol) as (c & Hc & Hnum & _ & Eg).
      exists c. split; [done|]. by apply Hmeans. }
    by rewrite (bind_Ok _ _ _ _ _ (collect_means_undefined df _ ws Hall)).
  - unfold ws, Ws.set_font, Ws.set_value. by rewrite !title_update.
  - unfold title_only, ws, Ws.set_font, Ws.set_value.
    rewrite charts_update, tables_update, widths_update,
            charts_update, tables_update, widths_update.
    split; [|done].
    rewrite cells_update, cell_at_update, decide_True by done.
    rewrite cells_update, insert_insert_eq, Hcells.
    unfold Ws.cell_at. rewrite Hcells, lookup_empty. done.
Qed.

Lemma create_charts_sheet_undefined st df :
  data (self st) = Some df -> is_Some (workbook (self st)) ->
  Pd.select_number df = [] \/
  (NoDup (map name (df_columns df)) /\
   forall c, c ∈ df_columns df -> Pd.is_number (dtype c) = true -> mean c = F64.nan) ->
  exists n ws st',
    create_charts_sheet st = (Ok n, st') /\ new_sheet_of st st' ws /\ title_only ws.
Proof.
  intros Edf [wb Ewb] Hcase.
  destruct (charts_body_undefined df
              (new_worksheet (avoid_duplicate_name (map title (worksheets wb))
                                "Data Visualizations"))
              eq_refl eq_refl eq_refl eq_refl Hcase) as (ws & E & _ & Honly).
  exists (length (worksheets wb)), ws. eexists. split; [|split; [|exact Honly]].
  - unfold create_charts_sheet, print. rewrite bind_modify.
    apply (sheet_stage_run (with_world (log "Creating charts sheet...") st)
             wb df _ charts_body _ _ Ewb Edf E).
  - by exists wb.
Qed.

(** C5, as the code has it.  For a table without numeric columns, or whose
    numeric columns all have an undefined mean, the generator creates the
    sheet and writes its title into cell A1, in bold 16 point; it writes no
    other cell and adds no chart. *)
Theorem charts_sheet_title_only st df :
  data (self st) = Some df -> is_Some (workbook (self st)) ->
  Pd.select_number df = [] \/
  (NoDup (map name (df_columns df)) /\
   forall c, c ∈ df_columns df -> Pd.is_number (dtype c) = true -> mean c = F64.nan) ->
  exists n ws st',
    create_charts_sheet st = (Ok n, st') /\ new_sheet_of st st' ws /\
    title_only ws /\
    value (Ws.cell_at ws (1, 1)) = VStr "Data Visualizations".
Proof.
  intros Edf Hwb Hcase.
  destruct (create_charts_sheet_undefined st df Edf Hwb Hcase)
    as (n & ws & st' & E & Hnew & Honly).
  exists n, ws, st'. repeat (split; [done|]).
  destruct Honly as (Hc & _). unfold Ws.cell_at. rewrite Hc, lookup_singleton_eq. done.
Qed.

End ChartsSheet.

Lemma charts_sheet_title_only_witness :
  exists ws, title_only ws.
Proof.
  destruct (@charts_sheet_title_only (sample_library (fun _ => Ok table_text))
              (loaded table_text) table_text eq_refl (ex_intro _ _ eq_refl)
              (or_introl eq_refl))
    as (n & ws & st' & _ & _ & Honly & _).
  by exists ws.
Defined.

(** C5 as stated fails: for the table [table_text], which has no numeric
    column, the sheet the generator creates is not empty. *)
Lemma charts_sheet_not_empty :
  Pd.select_number table_text = [] /\
  exists n ws st',
    create_charts_sheet (H := sample_library (fun _ => Ok table_text)) (loaded table_text)
    = (Ok n, st') /\
    new_sheet_of (loaded table_text) st' ws /\
    ~ sheet_is_empty ws.
Proof.
  split; [done|].
  destruct (@create_charts_sheet_undefined (sample_library (fun _ => Ok table_text))
              (loaded table_text) table_text eq_refl (ex_intro _ _ eq_refl)
              (or_introl eq_refl))
    as (n & ws & st' & E & Hnew & (Hc & _)).
  exists n, ws, st'. split; [done|]. split; [done|].
  intros [Hempty _]. rewrite Hc in Hempty.
  by apply map_non_empty_singleton in Hempty.
Qed.

(* ===================================================================== *)
(** * The analysis sheets (specification 4.5) *)
(* ===================================================================== *)

Section AnalysisSheets.
Context `{Library}.
Local Open Scope nat_scope.








Lemma new_sheet_run {A} st wb (t : string) (body : M Worksheet A) (r : result A) ws' :
  workbook (self st) = Some wb ->
  body (new_worksheet (avoid_duplicate_name (map title (worksheets wb)) t)) = (r, ws') ->
  (ws ← create_sheet t; on_sheet ws body) st
  = (r, with_self (put_workbook (with_sheets (worksheets wb ++ [ws']) wb)) st).
Proof.
  intros Ewb Eb.
  rewrite (bind_Ok _ _ _ _ _ (create_sheet_run st wb t Ewb)).
  set (st1 := with_self _ st).
  assert (worksheets (with_sheets (worksheets wb ++
            [new_worksheet (avoid_duplicate_name (map title (worksheets wb)) t)]) wb)
          !! length (worksheets wb)
          = Some (new_worksheet (avoid_duplicate_name (map title (worksheets wb)) t))) as Ei.
  { simpl. by rewrite lookup_app_r, Nat.sub_diag. }
  pose proof (on_sheet_run st1 _ _ _ _ _ _ eq_refl Ei Eb) as Eo.
  simpl in Eo. rewrite insert_app_r_alt, Nat.sub_diag in Eo by done. exact Eo.
Qed.








End AnalysisSheets.






(* ===================================================================== *)
(** * The loader (specification 4.1) *)
(* ===================================================================== *)

Section Loader.
Context `{Library}.

Lemma pd_read_csv_run (enc : Encoding) st (bytes : list Byte.byte) :
  files (world st) !! csv_file_path (self st) = Some bytes ->
  pd_read_csv enc st = (read_csv bytes enc, st).
Proof. intros E. unfold pd_read_csv. by rewrite E. Qed.

Lemma read_attempts_run st (bytes : list Byte.byte) :
  files (world st) !! csv_file_path (self st) = Some bytes ->
  except_decode_error (pd_read_csv utf_8)
    (except_decode_error (pd_read_csv utf_8_sig) (pd_read_csv latin_1)) st
  = (try_encodings bytes utf_8 [utf_8_sig; latin_1], st).
Proof.
  intros E. unfold except_decode_error. rewrite !(pd_read_csv_run _ st bytes E). simpl.
  destruct (read_csv bytes utf_8) as [df|e]; [done|].
  destruct (exn_class e); try done.
  destruct (read_csv bytes utf_8_sig) as [df|e2]; [done|].
  by destruct (exn_class e2).
Qed.

(** C2, as the code has it.  The loader reads the file as UTF-8, then as
    UTF-8 with byte-order mark, then as latin-1; it goes on to the next
    encoding only when the attempt raised a decode error.  The first
    attempt that parses gives the table, with the column names stripped; an
    attempt that fails with another error, or the failure of the last
    attempt, is the failure of the load, and a missing file is one. *)
Theorem loader_falls_back_on_decode_error st :
  match files (world st) !! csv_file_path (self st) with
  | Some bytes =>
      match try_encodings bytes utf_8 [utf_8_sig; latin_1] with
      | Ok df =>
          fst (load_data st) = Ok (Pd.strip_columns df) /\
          data (self (snd (load_data st))) = Some (Pd.strip_columns df)
      | Raise e =>
          fst (load_data st) = Raise e /\
          data (self (snd (load_data st))) = data (self st)
      end
  | None =>
      exists e, fst (load_data st) = Raise e /\ exn_class e = OSError /\
                data (self (snd (load_data st))) = data (self st)
  end.
Proof.
  unfold load_data. rewrite bind_gets. unfold print.
  rewrite bind_modify.
  set (st1 := with_world _ st).
  destruct (files (world st) !! csv_file_path (self st)) as [bytes|] eqn:E.
  - pose proof (read_attempts_run st1 bytes E) as Er.
    destruct (try_encodings bytes utf_8 [utf_8_sig; latin_1]) as [df|e].
    + rewrite (bind_Ok _ _ _ _ _ Er). done.
    + rewrite (bind_Raise _ _ _ _ _ Er). done.
  - eexists. unfold mbind, M_bind, except_decode_error, pd_read_csv.
    change (files (world st1)) with (files (world st)).
    change (csv_file_path (self st1)) with (csv_file_path (self st)).
    rewrite E. simpl. done.
Qed.

(** What the order of the attempts amounts to. *)
Lemma try_encodings_cases (bytes : list Byte.byte) :
  (forall df, read_csv bytes utf_8 = Ok df ->
     try_encodings bytes utf_8 [utf_8_sig; latin_1] = Ok df) /\
  (forall e df, read_csv bytes utf_8 = Raise e -> exn_class e = UnicodeDecodeError ->
     read_csv bytes utf_8_sig = Ok df ->
     try_encodings bytes utf_8 [utf_8_sig; latin_1] = Ok df) /\
  (forall e e2, read_csv bytes utf_8 = Raise e -> exn_class e = UnicodeDecodeError ->
     read_csv bytes utf_8_sig = Raise e2 -> exn_class e2 = UnicodeDecodeError ->
     try_encodings bytes utf_8 [utf_8_sig; latin_1] = read_csv bytes latin_1) /\
  (forall e, read_csv bytes utf_8 = Raise e -> exn_class e <> UnicodeDecodeError ->
     try_encodings bytes utf_8 [utf_8_sig; latin_1] = Raise e) /\
  (forall e e2, read_csv bytes utf_8 = Raise e -> exn_class e = UnicodeDecodeError ->
     read_csv bytes utf_8_sig = Raise e2 -> exn_class e2 <> UnicodeDecodeError ->
     try_encodings bytes utf_8 [utf_8_sig; latin_1] = Raise e2).
Proof.
  simpl. repeat split.
  - by intros df ->.
  - by intros e df -> -> ->.
  - by intros e e2 -> -> -> ->.
  - intros e -> Hne. by destruct (exn_class e).
  - intros e e2 -> -> -> Hne. by destruct (exn_class e2).
Qed.

End Loader.

(** A file that is not valid UTF-8 is loaded as latin-1. *)
Example load_latin_1 :
  fst (load_data (H := sample_library decodes_as_latin_1) fresh)
  = Ok (Pd.strip_columns table_AB).
Proof. reflexivity. Qed.

(** C2 as stated fails: the file parses as latin-1, and the load fails all
    the same, on the error the first attempt raised. *)
Lemma loader_stops_at_other_error :
  read_csv (Library := sample_library parses_as_latin_1) [] latin_1 = Ok table_AB /\
  fst (load_data (H := sample_library parses_as_latin_1) fresh) = Raise parser_error /\
  ~ loads_first_parse (H := sample_library parses_as_latin_1) fresh [].
Proof.
  split; [reflexivity|]. split; [reflexivity|].
  unfold loads_first_parse. simpl. discriminate.
Qed.

(* ===================================================================== *)
(** * The pipeline (specification 4.7 and 7) *)
(* ===================================================================== *)

(** *** What the stages before the save leave as it is *)

(** [R] relates a state to the one a stage leaves when it holds across a
    printed line, a reading of the clock and the assignments to
    [self.data] and [self.workbook]. *)
Section StageFrame.
Context `{Library}.
Context (R : State -> State -> Prop) `{!PreOrder R}.
Hypothesis R_log : forall line st, R st (with_world (log line) st).
Hypothesis R_tick : forall st, R st (with_world tick st).
Hypothesis R_data : forall df st, R st (with_self (put_data df) st).
Hypothesis R_workbook : forall wb st, R st (with_self (put_workbook wb) st).
Local Open Scope nat_scope.

Lemma keeps_stage_print (line : string) : keeps R (print line).
Proof. intros st. apply R_log. Qed.

Lemma keeps_stage_set_data df : keeps R (set_data df).
Proof. intros st. apply R_data. Qed.

Lemma keeps_stage_set_workbook wb : keeps R (set_workbook wb).
Proof. intros st. apply R_workbook. Qed.

Lemma keeps_stage_the_data : keeps R the_data.
Proof. intros st. unfold the_data. by destruct (data (self st)). Qed.

Lemma keeps_stage_the_workbook : keeps R the_workbook.
Proof. intros st. unfold the_workbook. by destruct (workbook (self st)). Qed.

Lemma keeps_stage_now : keeps R now.
Proof. intros st. apply R_tick. Qed.

Lemma keeps_stage_create_sheet (t : string) : keeps R (create_sheet t).
Proof.
  unfold create_sheet.
  apply keeps_bind; [apply _ | apply keeps_stage_the_workbook | intros wb].
  apply keeps_bind; [apply _ | apply keeps_stage_set_workbook | intros ?].
  apply keeps_ret, _.
Qed.

Lemma keeps_stage_on_sheet {A} (i : nat) (m : M Worksheet A) : keeps R (on_sheet i m).
Proof.
  unfold on_sheet.
  apply keeps_bind; [apply _ | apply keeps_stage_the_workbook | intros wb].
  destruct (worksheets wb !! i) as [ws|]; [|by intros st].
  destruct (m ws) as [r ws'].
  apply keeps_bind; [apply _ | apply keeps_stage_set_workbook | intros ?].
  apply keeps_lift, _.
Qed.

Lemma keeps_stage_pd_read_csv (enc : Encoding) : keeps R (pd_read_csv enc).
Proof.
  intros st. unfold pd_read_csv.
  by destruct (files (world st) !! csv_file_path (self st)).
Qed.

Lemma keeps_stage_except {A} (body handler : M State A) :
  keeps R body -> keeps R handler ->
  keeps R (except_decode_error body handler).
Proof.
  intros Hb Hh st. unfold except_decode_error. specialize (Hb st).
  destruct (body st) as [[a|e] st1]; [done|]. simpl in Hb.
  destruct (exn_class e); try done.
  etrans; [exact Hb | apply Hh].
Qed.

Lemma keeps_stage_load_data : keeps R load_data.
Proof.
  unfold load_data.
  apply keeps_bind; [apply _ | apply keeps_gets, _ | intros path].
  apply keeps_bind; [apply _ | apply keeps_stage_print | intros ?].
  apply keeps_bind; [apply _ | | intros df].
  { repeat apply keeps_stage_except; apply keeps_stage_pd_read_csv. }
  apply keeps_bind; [apply _ | apply keeps_stage_set_data | intros ?].
  apply keeps_bind; [apply _ | apply keeps_stage_print | intros ?].
  apply keeps_bind; [apply _ | apply keeps_stage_set_data | intros ?].
  apply keeps_ret, _.
Qed.

Lemma keeps_stage_create_workbook : keeps R create_workbook.
Proof.
  unfold create_workbook.
  apply keeps_bind; [apply _ | apply keeps_stage_print | intros ?].
  apply keeps_bind; [apply _ | apply keeps_stage_set_workbook | intros ?].
  apply keeps_ret, _.
Qed.

Lemma keeps_stage_sheet_stage {A} (line t : string) (body : DataFrame -> M Worksheet A) :
  keeps R
    (print line ;; ws ← create_sheet t; df ← the_data; on_sheet ws (body df) ;; mret ws).
Proof.
  apply keeps_bind; [apply _ | apply keeps_stage_print | intros ?].
  apply keeps_bind; [apply _ | apply keeps_stage_create_sheet | intros ws].
  apply keeps_bind; [apply _ | apply keeps_stage_the_data | intros df].
  apply keeps_bind; [apply _ | apply keeps_stage_on_sheet | intros ?].
  apply keeps_ret, _.
Qed.

Lemma keeps_stage_create_summary_sheet : keeps R create_summary_sheet.
Proof.
  unfold create_summary_sheet.
  apply keeps_bind; [apply _ | apply keeps_stage_print | intros ?].
  apply keeps_bind; [apply _ | apply keeps_stage_create_sheet | intros ws].
  apply keeps_bind; [apply _ | apply keeps_stage_the_data | intros df].
  apply keeps_bind; [apply _ | apply keeps_stage_on_sheet | intros ?].
  apply keeps_bind; [apply _ | apply keeps_stage_now | intros t].
  apply keeps_bind; [apply _ | apply keeps_stage_on_sheet | intros ?].
  apply keeps_ret, _.
Qed.

Lemma keeps_stage_create_filtered_sheets : keeps R create_filtered_sheets.
Proof.
  unfold create_filtered_sheets.
  apply keeps_bind; [apply _ | apply keeps_stage_print | intros ?].
  apply keeps_bind; [apply _ | apply keeps_stage_the_data | intros df].
  apply keeps_for_each; [apply _|]. intros col. unfold analyse_column.
  apply keeps_bind; [apply _ | apply keeps_lift, _ | intros c].
  destruct (few_categories c); [|apply keeps_ret, _].
  destruct (several_counts c); [|apply keeps_ret, _].
  apply keeps_bind; [apply _ | apply keeps_stage_create_sheet | intros ws].
  apply keeps_stage_on_sheet.
Qed.

Lemma keeps_stage_finalize_workbook : keeps R finalize_workbook.
Proof.
  unfold finalize_workbook.
  apply keeps_bind; [apply _ | apply keeps_stage_print | intros ?].
  apply keeps_bind; [apply _ | apply keeps_stage_the_workbook | intros wb].
  apply keeps_bind; [apply _ | apply keeps_gets, _ | intros path].
  apply keeps_bind; [apply _ | apply keeps_stage_now | intros t].
  apply keeps_stage_set_workbook.
Qed.

Lemma keeps_stage_before_save (stage : M State unit) :
  stage ∈ take 7 stages -> keeps R stage.
Proof.
  intros Hin. simpl in Hin.
  repeat (apply elem_of_cons in Hin as [->|Hin];
          [first [ apply keeps_stage_create_filtered_sheets
                 | apply keeps_stage_finalize_workbook
                 | apply keeps_bind;
                   [apply _
                   | first [ apply keeps_stage_load_data
                           | apply keeps_stage_create_workbook
                           | apply keeps_stage_create_summary_sheet
                           | apply keeps_stage_sheet_stage ]
                   | intros ?; apply keeps_ret, _ ] ] |]).
  by apply elem_of_nil in Hin.
Qed.

Lemma keeps_stage_report_success : keeps R report_success.
Proof.
  unfold report_success.
  apply keeps_bind; [apply _ | apply keeps_gets, _ | intros c].
  do 4 (apply keeps_bind; [apply _ | apply keeps_stage_print | intros ?]).
  apply keeps_bind; [apply _ | apply keeps_stage_the_workbook | intros wb].
  apply keeps_bind; [apply _ | apply keeps_stage_print | intros ?].
  apply keeps_bind; [apply _ | apply keeps_stage_the_data | intros df].
  apply keeps_bind; [apply _ | apply keeps_stage_print | intros ?].
  apply keeps_stage_print.
Qed.

End StageFrame.

Section Pipeline.
Context `{Library}.
Local Open Scope nat_scope.

#[global] Instance same_files_preorder : PreOrder same_files.
Proof. split; [by intros st | intros a b c; unfold same_files; congruence]. Qed.

Lemma keeps_files_before_save (stage : M State unit) :
  stage ∈ take 7 stages -> keeps same_files stage.
Proof.
  intros Hin.
  apply keeps_stage_before_save; try exact Hin; try apply _; by intros.
Qed.

(** *** [convert] as the run of its stages *)

Lemma opening_run (st : State) :
  opening st = (Ok tt, with_world (log banner)
                         (with_world (log "CSV TO EXCEL COMPREHENSIVE CONVERTER")
                            (with_world (log banner) st))).
Proof. reflexivity. Qed.

Lemma same_files_opening (st : State) : same_files st (snd (opening st)).
Proof. by rewrite opening_run. Qed.

Lemma convert_as_stages (st : State) :
  convert st
  = try_except (run_stages stages ;; report_success ;; mret true) report_failure
      (snd (opening st)).
Proof.
  rewrite opening_run. unfold convert, report_failure, print.
  do 3 rewrite bind_modify. cbn [snd].
  set (st0 := with_world (log banner) _).
  unfold try_except, run_stages, stages. cbn [for_each].
  unfold mbind, M_bind, mret, M_ret.
  repeat match goal with
         | |- context [match ?m st0 with _ => _ end] =>
             destruct (m st0) as [[?|?] st0']; clear st0; rename st0' into st0;
             cbv beta iota
         end; reflexivity.
Qed.

Lemma report_failure_run (e : Exn) (st : State) :
  report_failure e st = (Ok false, snd (report_failure e st)).
Proof. reflexivity. Qed.

Lemma same_files_report_failure (e : Exn) (st : State) :
  same_files st (snd (report_failure e st)).
Proof. reflexivity. Qed.

(** A stage that is not the last one is one of the seven before the save,
    and so are the stages before it. *)
Lemma before_save (pre : list (M State unit)) stage post :
  stages = pre ++ stage :: post -> post <> [] ->
  forall m, m ∈ pre ++ [stage] -> m ∈ take 7 stages.
Proof.
  intros E Hpost m Hm.
  assert (Hlen : length (pre ++ stage :: post) = 8) by (by rewrite <- E).
  rewrite length_app in Hlen. simpl in Hlen.
  assert (length post <> 0) by (by destruct post).
  rewrite E.
  replace (pre ++ stage :: post) with ((pre ++ [stage]) ++ post)
    by (by rewrite <- app_assoc).
  rewrite take_app_ge by (rewrite length_app; simpl; lia).
  apply elem_of_app. by left.
Qed.

(** The run of [convert] when a stage raises. *)
Lemma convert_stage_raises (st : State) pre stage post e st1 st2 :
  stages = pre ++ stage :: post ->
  run_stages pre (snd (opening st)) = (Ok tt, st1) ->
  stage st1 = (Raise e, st2) ->
  convert st = (Ok false, snd (report_failure e st2)) /\
  (post <> [] -> same_files st (snd (convert st))).
Proof.
  intros E E1 E2.
  assert (Ec : convert st = (Ok false, snd (report_failure e st2))).
  { rewrite convert_as_stages. unfold try_except.
    rewrite (bind_Raise _ _ _ e st2).
    - apply report_failure_run.
    - rewrite E. by apply for_each_raises with (st1 := st1). }
  split; [exact Ec|]. intros Hpost. rewrite Ec. cbn [snd].
  pose proof (before_save _ _ _ E Hpost) as Hin.
  etrans; [apply same_files_opening|].
  etrans; [|apply same_files_report_failure].
  assert (K1 : keeps same_files (run_stages pre)).
  { apply keeps_for_each_in; [apply _|]. intros m Hm.
    apply keeps_files_before_save, Hin, elem_of_app. by left. }
  assert (K2 : keeps same_files stage).
  { apply keeps_files_before_save, Hin, elem_of_app. right. constructor. }
  specialize (K1 (snd (opening st))). rewrite E1 in K1.
  specialize (K2 st1). rewrite E2 in K2.
  etrans; [exact K1 | exact K2].
Qed.

(** C3.  [convert] runs its eight stages in their order inside one [try]:
    (1) when a stage raises after the stages before it returned, [convert]
    returns [False], and the state it leaves is the one the failing stage
    left with the error line printed, so that no later stage ran; when the
    failing stage is not the save, the files are those found at the start;
    (2) [convert] returns [True] only when all eight stages returned;
    (3) [convert] always returns, with a boolean;
    (4) the files differ after the run only if the seven stages before the
    save all returned. *)
Theorem failure_aborts_pipeline (st : State) :
  (forall pre stage post e st1 st2,
      stages = pre ++ stage :: post ->
      run_stages pre (snd (opening st)) = (Ok tt, st1) ->
      stage st1 = (Raise e, st2) ->
      convert st = (Ok false, snd (report_failure e st2)) /\
      (post <> [] -> same_files st (snd (convert st)))) /\
  (forall st', convert st = (Ok true, st') ->
      exists st8, run_stages stages (snd (opening st)) = (Ok tt, st8)) /\
  (exists (b : bool) st', convert st = (Ok b, st')) /\
  (~ same_files st (snd (convert st)) ->
      exists st7, run_stages (take 7 stages) (snd (opening st)) = (Ok tt, st7)).
Proof.
  split; [intros *; apply convert_stage_raises|].
  split; [|split].
  - intros st' Ec.
    destruct (for_each_outcome stages (fun stage => stage) (snd (opening st)))
      as [[st8 E8]|(pre & x & post & e & s1 & s2 & E & E1 & E2 & _)].
    + by exists st8.
    + destruct (convert_stage_raises st _ _ _ _ _ _ E E1 E2) as [Ef _].
      rewrite Ef in Ec. discriminate Ec.
  - destruct (for_each_outcome stages (fun stage => stage) (snd (opening st)))
      as [[st8 E8]|(pre & x & post & e & s1 & s2 & E & E1 & E2 & _)].
    + rewrite convert_as_stages. unfold try_except.
      fold (run_stages stages) in E8.
      rewrite (bind_Ok _ _ _ _ _ E8).
      destruct (report_success st8) as [[[]|e] st9] eqn:E9.
      * rewrite (bind_Ok _ _ _ _ _ E9). by exists true, st9.
      * rewrite (bind_Raise _ _ _ _ _ E9). eexists _, _. apply report_failure_run.
    + destruct (convert_stage_raises st _ _ _ _ _ _ E E1 E2) as [Ef _]. eauto.
  - intros Hdiff.
    destruct (for_each_outcome (take 7 stages) (fun stage => stage) (snd (opening st)))
      as [[st7 E7]|(pre & x & post & e & s1 & s2 & E & E1 & E2 & _)].
    + by exists st7.
    + exfalso. apply Hdiff.
      assert (Es : stages = pre ++ x :: (post ++ [save_output])).
      { change stages with (take 7 stages ++ [save_output]).
        rewrite E at 1. by rewrite <- app_assoc. }
      destruct (convert_stage_raises st _ _ _ _ _ _ Es E1 E2) as [_ Hf].
      apply Hf. by destruct post.
Qed.

End Pipeline.

(** The file of [fresh] does not parse: the first stage raises, [convert]
    returns [False] and the files are those found. *)
Lemma failure_aborts_pipeline_witness :
  fst (convert (H := sample_library parses_as_latin_1) fresh) = Ok false /\
  same_files fresh (snd (convert (H := sample_library parses_as_latin_1) fresh)).
Proof.
  destruct (failure_aborts_pipeline (H := sample_library parses_as_latin_1) fresh)
    as [Hraise _].
  destruct (Hraise [] (load_data (H := sample_library parses_as_latin_1) ;; mret tt)
              (tail (stages (H := sample_library parses_as_latin_1)))
              parser_error
              (snd (opening fresh))
              (snd (load_data (H := sample_library parses_as_latin_1)
                      (snd (opening fresh)))))
    as [Hfalse Hfiles].
  - reflexivity.
  - reflexivity.
  - vm_compute. reflexivity.
  - split.
    + rewrite Hfalse. reflexivity.
    + apply Hfiles. discriminate.
Defined.

(* ===================================================================== *)
(** * The default output path *)
(* ===================================================================== *)

Section OutputPath.
Context `{Library}.

#[global] Instance same_paths_preorder : PreOrder same_paths.
Proof.
  split; [by intros st | intros a b c [? ?] [? ?]; unfold same_paths; split; congruence].
Qed.

#[global] Instance same_self_and_files_preorder : PreOrder same_self_and_files.
Proof.
  split; [by intros st|].
  intros a b c [? ?] [? ?]; unfold same_self_and_files; split; congruence.
Qed.

Lemma run_all_stages (st : State) :
  run_stages stages st = (run_stages (take 7 stages) ;; save_output) st.
Proof.
  change stages with (take 7 stages ++ [save_output]) at 1.
  unfold run_stages. rewrite for_each_app. cbn [for_each].
  unfold mbind, M_bind, mret, M_ret.
  destruct (for_each (take 7 stages) (fun stage => stage) st) as [[[]|e] st7]; [|done].
  by destruct (save_output st7) as [[[]|e] st8].
Qed.

(** A run of [convert] that returns [True]. *)
Lemma convert_returns_true (st st' : State) :
  convert st = (Ok true, st') ->
  exists st7 st8,
    run_stages (take 7 stages) (snd (opening st)) = (Ok tt, st7) /\
    save_output st7 = (Ok tt, st8) /\
    report_success st8 = (Ok tt, st').
Proof.
  intros Ec. rewrite convert_as_stages in Ec. unfold try_except in Ec.
  destruct ((run_stages stages ;; report_success ;; mret true) (snd (opening st)))
    as [[b|e] s] eqn:Eb; [|discriminate Ec].
  injection Ec as -> ->.
  apply bind_inv_Ok in Eb as ([] & st8 & E8 & Eb).
  apply bind_inv_Ok in Eb as ([] & st9 & E9 & Eb).
  injection Eb as ->.
  rewrite run_all_stages in E8.
  apply bind_inv_Ok in E8 as ([] & st7 & E7 & E8).
  by exists st7, st8.
Qed.

Lemma save_output_inv (st st' : State) :
  save_output st = (Ok tt, st') ->
  exists wb, workbook (self st) = Some wb /\ self st' = self st /\
             files (world st') = <[output_file_path (self st) := xlsx_bytes wb]> (files (world st)).
Proof.
  unfold save_output. rewrite bind_gets. unfold print. rewrite bind_modify.
  unfold save, the_workbook, write_file, mbind, M_bind. cbn [self with_world world].
  destruct (workbook (self st)) as [wb|]; [|discriminate].
  case_decide; [discriminate|].
  intros [= <-]. by exists wb.
Qed.

Lemma load_data_missing (st : State) :
  files (world st) !! csv_file_path (self st) = None ->
  exists e st', load_data st = (Raise e, st').
Proof.
  intros E. unfold load_data. rewrite bind_gets. unfold print. rewrite bind_modify.
  unfold mbind, M_bind, except_decode_error, pd_read_csv. cbn [with_world world self log files].
  rewrite E. simpl. eauto.
Qed.

(** C9.  Without an explicit output path the constructor takes
    [csv_file_path.replace('.csv', '_comprehensive.xlsx')]: the path is cut
    at every occurrence of [.csv], and the pieces are put together with
    [_comprehensive.xlsx] in its place.  A path without [.csv] in it is its
    own output path, and a run of [convert] that returns [True] on it has
    found the input file and leaves the bytes of the workbook in that very
    file. *)
Theorem default_output_path (path : string) :
  output_file_path (init path None)
  = PyStr.replace ".csv" "_comprehensive.xlsx" path /\
  (exists pieces,
      pieces <> [] /\ path = PyStr.join ".csv" pieces /\
      (forall p, p ∈ pieces -> ~ has_substring ".csv" p) /\
      output_file_path (init path None) = PyStr.join "_comprehensive.xlsx" pieces) /\
  (~ has_substring ".csv" path ->
   output_file_path (init path None) = path /\
   forall w st',
     convert {| self := init path None; world := w |} = (Ok true, st') ->
     is_Some (files w !! path) /\
     exists wb, workbook (self st') = Some wb /\
                files (world st') !! path = Some (xlsx_bytes wb)).
Proof.
  split; [reflexivity|]. split.
  - destruct (split_at_csv path) as (pieces & Hne & -> & Hno).
    exists pieces. split; [done|]. split; [done|]. split; [done|].
    by apply replace_join.
  - intros Hno.
    assert (Eout : output_file_path (init path None) = path)
      by (by apply replace_no_occurrence).
    split; [exact Eout|]. intros w st' Ec.
    set (st := {| self := init path None; world := w |}) in *.
    apply convert_returns_true in Ec as (st7 & st8 & E7 & E8 & E9).
    split.
    + destruct (files w !! path) as [bytes|] eqn:Ef; [done|]. exfalso.
      destruct (load_data_missing (snd (opening st))) as (e & s1 & El).
      { rewrite opening_run. exact Ef. }
      assert (Er : run_stages (take 7 stages) (snd (opening st)) = (Raise e, s1)).
      { unfold run_stages.
        change (take 7 stages) with ((load_data ;; mret tt) :: tail (take 7 stages)).
        cbn [for_each]. apply bind_Raise. by apply bind_Raise. }
      rewrite Er in E7. discriminate E7.
    + assert (K7 : same_paths (snd (opening st)) st7).
      { assert (K : keeps same_paths (run_stages (take 7 stages))).
        { apply keeps_for_each_in; [apply _|]. intros m Hm.
          apply keeps_stage_before_save; try exact Hm; try apply _; by intros. }
        specialize (K (snd (opening st))). by rewrite E7 in K. }
      destruct K7 as [_ Kout]. rewrite opening_run in Kout.
      change (output_file_path (self _)) with (output_file_path (init path None)) in Kout at 1.
      rewrite Eout in Kout.
      apply save_output_inv in E8 as (wb & Ewb & Eself & Efiles).
      assert (K9 : same_self_and_files st8 st').
      { assert (K : keeps same_self_and_files report_success).
        { apply keeps_stage_report_success; try apply _; by intros. }
        specialize (K st8). by rewrite E9 in K. }
      destruct K9 as [K9s K9f].
      exists wb. split.
      * by rewrite <- K9s, Eself.
      * rewrite <- K9f, Efiles, <- Kout. apply lookup_insert_eq.
Qed.

End OutputPath.

Lemma no_csv_in_table_txt : ~ has_substring ".csv" "table.txt".
Proof.
  intros Hs.
  repeat (apply has_substring_cons in Hs as [Hs|Hs]; [discriminate Hs|]).
  destruct Hs as ([|x a] & b & E); discriminate E.
Qed.

(** [in.csv] gives [in_comprehensive.xlsx]; [table.txt] gives itself, and
    the run on it leaves the workbook where the table was. *)
Lemma default_output_path_witness :
  output_file_path (init "in.csv" None) = "in_comprehensive.xlsx" /\
  output_file_path (init "table.txt" None) = "table.txt" /\
  files (world fresh_txt) !! "table.txt" = Some [Byte.x41; Byte.x2c; Byte.x42] /\
  files (world (snd (convert (H := sample_library (fun _ => Ok table_AB)) fresh_txt)))
    !! "table.txt" = Some [].
Proof.
  split.
  { destruct (default_output_path (H := sample_library (fun _ => Ok table_AB)) "in.csv")
      as [E _].
    rewrite E. reflexivity. }
  destruct (default_output_path (H := sample_library (fun _ => Ok table_AB)) "table.txt")
    as (_ & _ & Hsame).
  destruct (Hsame no_csv_in_table_txt) as [E Hrun].
  split; [exact E|]. split; [reflexivity|].
  destruct (Hrun (world fresh_txt)
              (snd (convert (H := sample_library (fun _ => Ok table_AB)) fresh_txt)))
    as (_ & wb & _ & Ef).
  - vm_compute. reflexivity.
  - exact Ef.
Defined.

(* ===================================================================== *)
(** * Percentages in binary64 *)
(* ===================================================================== *)

(** The percentage [k / n * 100] of a count [k] among [n] rows is computed
    in binary64 and printed with two decimals.  For counts below [2 ^ 53]
    the conversions are exact, the quotient is at most 1 and the product at
    most 100. *)

Section Rounding.

Lemma div_twice (num den : Z) : 0 < den -> num / (2 * den) = num / den / 2.
Proof. intros Hd. rewrite Z.mul_comm, Z.div_div by lia. reflexivity. Qed.

Lemma mod_twice (num den : Z) :
  0 < den -> num mod (2 * den) = 0 -> num mod den = 0 /\ (num / den) mod 2 = 0.
Proof.
  intros Hd Hm.
  apply Z.mod_divide in Hm; [|lia]. destruct Hm as [j ->].
  replace (j * (2 * den)) with ((j * 2) * den) by ring.
  rewrite Z.mod_mul, Z.div_mul by lia. split; [done|]. apply Z.mod_mul. lia.
Qed.

Lemma shr_1_approximates (mrs : shr_record) (num den : Z) :
  0 <= num -> 0 < den ->
  approximates mrs num den -> approximates (shr_1 mrs) num (2 * den).
Proof.
  intros Hn Hd [Hm Hx]. destruct mrs as [m r s]. simpl in Hm, Hx.
  assert (Hq : 0 <= num / den) by (apply Z.div_pos; lia).
  unfold approximates. rewrite div_twice by done. rewrite <- Hm.
  assert (Hx2 : num mod (2 * den) = 0 -> r = false /\ s = false /\ m mod 2 = 0).
  { intros H2. destruct (mod_twice num den Hd H2) as [H3 H4].
    destruct (Hx H3) as [-> ->]. rewrite Hm. done. }
  destruct m as [|[p|p|]|p]; simpl shr_1; cbn [shr_m shr_r shr_s].
  - split; [done|]. intros H2. destruct (Hx2 H2) as (-> & -> & _). done.
  - split.
    + rewrite Pos2Z.inj_xI. apply (Z.div_unique_pos _ _ _ 1); lia.
    + intros H2. destruct (Hx2 H2) as (_ & _ & H3).
      rewrite Pos2Z.inj_xI in H3. rewrite Z.add_comm, Z.mul_comm, Z.mod_add in H3 by lia.
      discriminate H3.
  - split.
    + rewrite Pos2Z.inj_xO. apply (Z.div_unique_pos _ _ _ 0); lia.
    + intros H2. destruct (Hx2 H2) as (-> & -> & _). done.
  - split; [done|]. intros H2. destruct (Hx2 H2) as (_ & _ & H3). discriminate H3.
  - lia.
Qed.

Lemma iter_shr_1_approximates (p : positive) (mrs : shr_record) (num den : Z) :
  0 <= num -> 0 < den ->
  approximates mrs num den ->
  approximates (SpecFloat.iter_pos shr_1 p mrs) num (2 ^ Zpos p * den).
Proof.
  intros Hn. revert mrs den.
  induction p as [p IH|p IH|]; intros mrs den Hd Ha; cbn [SpecFloat.iter_pos].
  - replace (2 ^ Z.pos p~1 * den) with (2 ^ Zpos p * (2 ^ Zpos p * (2 * den))).
    + assert (0 < 2 ^ Zpos p) by (apply Z.pow_pos_nonneg; lia).
      apply IH; [nia|]. apply IH; [lia|]. by apply shr_1_approximates.
    + replace (Z.pos p~1) with (Zpos p + Zpos p + 1) by lia.
      rewrite !Z.pow_add_r by lia. rewrite Z.pow_1_r. ring.
  - replace (2 ^ Z.pos p~0 * den) with (2 ^ Zpos p * (2 ^ Zpos p * den)).
    + assert (0 < 2 ^ Zpos p) by (apply Z.pow_pos_nonneg; lia).
      apply IH; [nia|]. by apply IH.
    + replace (Z.pos p~0) with (Zpos p + Zpos p) by lia.
      rewrite Z.pow_add_r by lia. ring.
  - change (2 ^ 1) with 2. by apply shr_1_approximates.
Qed.

Lemma shr_approximates (mrs : shr_record) (e n num den : Z) :
  0 <= num -> 0 < den ->
  approximates mrs num den ->
  snd (shr mrs e n) = e + Z.max 0 n /\
  approximates (fst (shr mrs e n)) num (2 ^ Z.max 0 n * den).
Proof.
  intros Hn Hd Ha. destruct n as [|p|p]; cbn [shr fst snd].
  - rewrite Z.max_l by lia. rewrite Z.add_0_r, Z.pow_0_r, Z.mul_1_l. done.
  - rewrite Z.max_r by lia. split; [done|]. by apply iter_shr_1_approximates.
  - rewrite Z.max_l by lia. rewrite Z.add_0_r, Z.pow_0_r, Z.mul_1_l. done.
Qed.


Lemma digits2_bounds (p : positive) :
  2 ^ (Zpos (digits2_pos p) - 1) <= Zpos p < 2 ^ Zpos (digits2_pos p).
Proof.
  induction p as [p IH|p IH|]; cbn [digits2_pos].
  - rewrite Pos2Z.inj_succ. unfold Z.succ.
    replace (Zpos (digits2_pos p) + 1 - 1) with (Z.succ (Zpos (digits2_pos p) - 1)) by lia.
    rewrite Z.pow_succ_r by lia. rewrite Z.pow_add_r, Z.pow_1_r by lia. lia.
  - rewrite Pos2Z.inj_succ. unfold Z.succ.
    replace (Zpos (digits2_pos p) + 1 - 1) with (Z.succ (Zpos (digits2_pos p) - 1)) by lia.
    rewrite Z.pow_succ_r by lia. rewrite Z.pow_add_r, Z.pow_1_r by lia. lia.
  - done.
Qed.

Lemma Zdigits2_le (m b : Z) : 0 <= m < 2 ^ b -> 0 <= b -> Zdigits2 m <= b.
Proof.
  intros [Hm Hb] H0. destruct m as [|p|p]; cbn [Zdigits2]; [lia| |lia].
  destruct (digits2_bounds p) as [Hl _].
  assert (2 ^ (Zpos (digits2_pos p) - 1) < 2 ^ b) as Hlt by lia.
  apply Z.pow_lt_mono_r_iff in Hlt; lia.
Qed.

Lemma shr_m_of_loc (m : Z) (l : location) : shr_m (shr_record_of_loc m l) = m.
Proof. by destruct l as [|[]]. Qed.

Lemma fexp_64 (e : Z) : fexp 53 1024 e = Z.max (e - 53) (-1074).
Proof. reflexivity. Qed.

(** One alignment of [binary_round_aux]: the value [num / den] in units of
    [2 ^ e], at most [K * 2 ^ T]. *)
Lemma shr_fexp_bound (m e : Z) (l : location) (num den K T : Z) :
  0 <= num -> 0 < den -> approximates (shr_record_of_loc m l) num den ->
  e <= T -> -1074 <= T -> 0 < K < 2 ^ 53 ->
  num <= K * 2 ^ (T - e) * den ->
  let e' := snd (shr_fexp 53 1024 m e l) in
  let mrs' := fst (shr_fexp 53 1024 m e l) in
  e <= e' <= T /\ 0 < 2 ^ (e' - e) * den /\
  approximates mrs' num (2 ^ (e' - e) * den) /\
  num <= K * 2 ^ (T - e') * (2 ^ (e' - e) * den).
Proof.
  intros Hn Hd Ha He HT HK Hb; intros e' mrs'. subst e' mrs'. unfold shr_fexp.
  set (n := fexp 53 1024 (Zdigits2 m + e) - e).
  destruct (shr_approximates (shr_record_of_loc m l) e n num den Hn Hd Ha) as [Ee Ha'].
  rewrite Ee. replace (e + Z.max 0 n - e) with (Z.max 0 n) by lia.
  assert (Hm : m = num / den) by (by rewrite <- (shr_m_of_loc m l); apply Ha).
  assert (Hp : 0 < 2 ^ (T - e)) by (apply Z.pow_pos_nonneg; lia).
  assert (Hle : e + Z.max 0 n <= T).
  { destruct (Z.max_spec 0 n) as [[Hlt ->]|[Hge ->]]; [|lia].
    unfold n. rewrite fexp_64.
    assert (Zdigits2 m <= 53 + (T - e)); [|lia].
    apply Zdigits2_le; [|lia]. rewrite Hm. split; [apply Z.div_pos; lia|].
    apply Z.div_lt_upper_bound; [done|].
    rewrite Z.pow_add_r by lia. nia. }
  assert (Hp2 : 0 < 2 ^ Z.max 0 n) by (apply Z.pow_pos_nonneg; lia).
  split; [lia|]. split; [nia|]. split; [done|].
  replace (T - e) with ((T - (e + Z.max 0 n)) + Z.max 0 n) in Hb by lia.
  rewrite Z.pow_add_r in Hb by lia. lia.
Qed.

Lemma round_nearest_even_bound (mrs : shr_record) (num den C : Z) :
  0 <= num -> 0 < den -> approximates mrs num den -> num <= C * den ->
  0 <= round_nearest_even (shr_m mrs) (loc_of_shr_record mrs) <= C.
Proof.
  intros Hn Hd [Hm Hx] Hb.
  assert (H0 : 0 <= shr_m mrs) by (rewrite Hm; apply Z.div_pos; lia).
  assert (HC : shr_m mrs <= C).
  { rewrite Hm. apply Z.div_le_upper_bound; [done|]. lia. }
  assert (Hexact : shr_m mrs = C ->
                   round_nearest_even (shr_m mrs) (loc_of_shr_record mrs) = shr_m mrs).
  { intros HmC. assert (num = C * den) as ->.
    { pose proof (Z.mul_div_le num den Hd). rewrite <- Hm, HmC in H. lia. }
    destruct Hx as [Hr Hs]; [apply Z.mod_mul; lia|].
    destruct mrs as [m r s]. simpl in Hr, Hs. by subst. }
  destruct (Z.eq_dec (shr_m mrs) C) as [E|E]; [rewrite (Hexact E); lia|].
  destruct mrs as [m r s]. cbn [shr_m] in *.
  destruct r, s; cbn [loc_of_shr_record round_nearest_even]; try lia.
  destruct (Z.even m); lia.
Qed.

(** The rounding of a value between 0 and [K * 2 ^ T]. *)
Lemma binary_round_aux_bound (mx ex : Z) (lx : location) (num den K T : Z) :
  0 <= num -> 0 < den -> approximates (shr_record_of_loc mx lx) num den ->
  ex <= T -> -1074 <= T <= 971 -> 0 < K < 2 ^ 53 ->
  num <= K * 2 ^ (T - ex) * den ->
  binary_round_aux 53 1024 false mx ex lx = S754_zero false \/
  exists m e,
    binary_round_aux 53 1024 false mx ex lx = S754_finite false m e /\
    ex <= e <= T /\ Zpos m <= K * 2 ^ (T - e).
Proof.
  intros Hn Hd Ha He HT HK Hb. unfold binary_round_aux.
  destruct (shr_fexp_bound mx ex lx num den K T Hn Hd Ha He (proj1 HT) HK Hb)
    as (He1 & Hd1 & Ha1 & Hb1).
  destruct (shr_fexp 53 1024 mx ex lx) as [mrs1 e1]. cbn [fst snd] in *.
  set (m1 := round_nearest_even (shr_m mrs1) (loc_of_shr_record mrs1)).
  assert (Hm1 : 0 <= m1 <= K * 2 ^ (T - e1))
    by (by apply (round_nearest_even_bound mrs1 num (2 ^ (e1 - ex) * den))).
  assert (Ha2 : approximates (shr_record_of_loc m1 loc_Exact) m1 1).
  { split; [by rewrite Z.div_1_r | done]. }
  destruct (shr_fexp_bound m1 e1 loc_Exact m1 1 K T (proj1 Hm1) eq_refl Ha2
              (proj2 He1) (proj1 HT) HK) as (He2 & Hd2 & [Ha3 _] & Hb2); [lia|].
  destruct (shr_fexp 53 1024 m1 e1 loc_Exact) as [mrs2 e2]. cbn [fst snd] in *.
  assert (Hm2 : 0 <= shr_m mrs2 <= K * 2 ^ (T - e2)).
  { rewrite Ha3. split; [apply Z.div_pos; lia|].
    apply Z.div_le_upper_bound; [done|]. lia. }
  destruct (shr_m mrs2) as [|m|m]; [by left| |lia].
  right. exists m, e2.
  replace (e2 <=? 1024 - 53) with true by (symmetry; apply Z.leb_le; lia).
  split; [done|]. split; lia.
Qed.


(** *** Integers below [2 ^ 53] are binary64 numbers *)

Lemma iter_xO_value (p q : positive) : Zpos (Pos.iter xO p q) = Zpos p * 2 ^ Zpos q.
Proof.
  induction q as [|q IH] using Pos.peano_ind.
  - cbn [Pos.iter]. lia.
  - rewrite Pos.iter_succ, Pos2Z.inj_xO, IH, Pos2Z.inj_succ, Z.pow_succ_r by lia. ring.
Qed.

Lemma iter_xO_digits (p q : positive) :
  digits2_pos (Pos.iter xO p q) = (digits2_pos p + q)%positive.
Proof.
  induction q as [|q IH] using Pos.peano_ind.
  - cbn [Pos.iter digits2_pos]. lia.
  - rewrite Pos.iter_succ. cbn [digits2_pos]. rewrite IH. lia.
Qed.

Lemma binary_round_aux_canonical (m : positive) (e : Z) :
  Zpos (digits2_pos m) = 53 -> -1074 <= e <= 971 ->
  binary_round_aux 53 1024 false (Zpos m) e loc_Exact = S754_finite false m e.
Proof.
  intros Hd He. unfold binary_round_aux, shr_fexp. cbn [Zdigits2].
  rewrite Hd, fexp_64. replace (Z.max (53 + e - 53) (-1074) - e) with 0 by lia.
  cbn [shr shr_record_of_loc shr_m loc_of_shr_record round_nearest_even Zdigits2].
  rewrite Hd, fexp_64. replace (Z.max (53 + e - 53) (-1074) - e) with 0 by lia.
  cbn [shr shr_m].
  replace (e <=? 1024 - 53) with true by (symmetry; apply Z.leb_le; lia). done.
Qed.

Lemma of_Z_exact (k : Z) :
  0 < k < 2 ^ 53 ->
  exists m e, F64.of_Z k = S754_finite false m e /\ -52 <= e <= 0 /\
              Zpos (digits2_pos m) = 53 /\ Zpos m = k * 2 ^ (- e).
Proof.
  intros [H0 Hk]. destruct k as [|p|p]; try lia.
  unfold F64.of_Z, binary_normalize, binary_round, F64.prec, F64.emax.
  destruct (digits2_bounds p) as [Hl Hu].
  assert (Hd : 1 <= Zpos (digits2_pos p) <= 53).
  { split; [lia|]. assert (2 ^ (Zpos (digits2_pos p) - 1) < 2 ^ 53) as Hlt by lia.
    apply Z.pow_lt_mono_r_iff in Hlt; lia. }
  rewrite fexp_64. unfold shl_align.
  replace (Z.max (Zpos (digits2_pos p) + 0 - 53) (-1074) - 0)
    with (Zpos (digits2_pos p) - 53) by lia.
  destruct (Zpos (digits2_pos p) - 53) as [|q|q] eqn:Eq; [|lia|].
  - exists p, 0. rewrite binary_round_aux_canonical by lia.
    split; [done|]. split; [lia|]. split; [lia|]. change (2 ^ (- 0)) with 1. lia.
  - exists (Pos.iter xO p q), (Z.max (Zpos (digits2_pos p) + 0 - 53) (-1074)).
    assert (Ee : Z.max (Zpos (digits2_pos p) + 0 - 53) (-1074) = Zneg q) by lia.
    rewrite Ee.
    assert (Hdig : Zpos (digits2_pos (Pos.iter xO p q)) = 53)
      by (rewrite iter_xO_digits; lia).
    rewrite binary_round_aux_canonical by (done || lia).
    split; [done|]. split; [lia|]. split; [done|].
    rewrite iter_xO_value. done.
Qed.

(** *** The quotient of two such integers *)

Lemma new_location_exact (nb : Z) : new_location nb 0 = loc_Exact.
Proof. unfold new_location. by destruct (Z.even nb). Qed.

Lemma SFdiv_core_binary_normal (mx my : positive) (ex ey : Z) :
  Zpos (digits2_pos mx) = 53 -> Zpos (digits2_pos my) = 53 ->
  -52 <= ex <= 0 -> -52 <= ey <= 0 ->
  SFdiv_core_binary 53 1024 (Zpos mx) ex (Zpos my) ey
  = ((Zpos mx * 2 ^ 53) / Zpos my, ex - ey - 53,
     new_location (Zpos my) ((Zpos mx * 2 ^ 53) mod Zpos my)).
Proof.
  intros Hx Hy Hex Hey. unfold SFdiv_core_binary. cbn [Zdigits2]. rewrite Hx, Hy, fexp_64.
  replace (Z.min (Z.max (53 + ex - (53 + ey) - 53) (-1074)) (ex - ey))
    with (ex - ey - 53) by lia.
  replace (ex - ey - (ex - ey - 53)) with 53 by lia.
  rewrite Z.shiftl_mul_pow2 by lia.
  unfold Z.div, Z.modulo.
  by destruct (Z.div_eucl (Zpos mx * 2 ^ 53) (Zpos my)) as [q r].
Qed.

Lemma div_at_most_one (k n : Z) (mx my : positive) (ex ey : Z) :
  0 < k <= n ->
  Zpos (digits2_pos mx) = 53 -> Zpos (digits2_pos my) = 53 ->
  -52 <= ex <= 0 -> -52 <= ey <= 0 ->
  Zpos mx = k * 2 ^ (- ex) -> Zpos my = n * 2 ^ (- ey) ->
  F64.div (S754_finite false mx ex) (S754_finite false my ey) = S754_zero false \/
  exists m e,
    F64.div (S754_finite false mx ex) (S754_finite false my ey) = S754_finite false m e /\
    e <= 0 /\ Zpos m <= 2 ^ (- e).
Proof.
  intros Hk Hx Hy Hex Hey Ex Ey.
  unfold F64.div, SFdiv, F64.prec, F64.emax.
  rewrite (SFdiv_core_binary_normal mx my ex ey Hx Hy Hex Hey). cbn [xorb].
  destruct (binary_round_aux_bound (Zpos mx * 2 ^ 53 / Zpos my) (ex - ey - 53)
              (new_location (Zpos my) ((Zpos mx * 2 ^ 53) mod Zpos my))
              (Zpos mx * 2 ^ 53) (Zpos my) 1 0)
    as [Hz|(m & e & Hf & He & Hm)]; try lia.
  - split; [by rewrite shr_m_of_loc|].
    intros ->. by rewrite new_location_exact.
  - rewrite Z.mul_1_l. replace (0 - (ex - ey - 53)) with ((53 + - ex) + ey) by lia.
    rewrite Ex, Ey.
    assert (0 < 2 ^ 53) by done.
    assert (0 < 2 ^ (- ex)) by (apply Z.pow_pos_nonneg; lia).
    assert (E2 : 2 ^ (53 + - ex + ey) * 2 ^ (- ey) = 2 ^ (- ex) * 2 ^ 53).
    { rewrite <- !Z.pow_add_r by lia. f_equal. lia. }
    replace (2 ^ (53 + - ex + ey) * (n * 2 ^ (- ey)))
      with (n * (2 ^ (53 + - ex + ey) * 2 ^ (- ey))) by ring.
    rewrite E2. nia.
  - by left.
  - right. exists m, e. split; [done|]. split; [lia|]. by rewrite Z.mul_1_l in Hm.
Qed.

(** *** Times 100, and the two decimals *)

Lemma of_Z_100 : F64.of_Z 100 = S754_finite false 7036874417766400 (-46).
Proof. vm_compute. reflexivity. Qed.

Lemma mul_100_at_most_100 (m : positive) (e : Z) :
  e <= 0 -> Zpos m <= 2 ^ (- e) ->
  F64.mul (S754_finite false m e) (F64.of_Z 100) = S754_zero false \/
  exists m' e',
    F64.mul (S754_finite false m e) (F64.of_Z 100) = S754_finite false m' e' /\
    e' <= 2 /\ Zpos m' <= 25 * 2 ^ (2 - e').
Proof.
  intros He Hm. rewrite of_Z_100. unfold F64.mul, SFmul, F64.prec, F64.emax. cbn [xorb].
  destruct (binary_round_aux_bound (Zpos (m * 7036874417766400)) (e + -46) loc_Exact
              (Zpos (m * 7036874417766400)) 1 25 2)
    as [Hz|(m' & e' & Hf & He' & Hm')]; try lia.
  - split; [by rewrite Z.div_1_r | done].
  - replace (2 - (e + -46)) with (48 + - e) by lia.
    rewrite Z.pow_add_r by lia. rewrite Pos2Z.inj_mul.
    change (2 ^ 48) with 281474976710656. lia.
  - by left.
  - right. exists m', e'. split; [done|]. split; lia.
Qed.

Lemma hundredths_at_most (m : positive) (e : Z) :
  e <= 2 -> Zpos m <= 25 * 2 ^ (2 - e) -> 0 <= F64.hundredths m e <= 10000.
Proof.
  intros He Hm. unfold F64.hundredths. destruct e as [|p|p].
  - change (2 ^ (2 - 0)) with 4 in Hm. lia.
  - assert (Hp : Zpos p = 1 \/ Zpos p = 2) by lia.
    destruct Hp as [Hp|Hp]; rewrite Hp in *.
    + change (2 ^ (2 - 1)) with 2 in Hm. change (2 ^ 1) with 2. lia.
    + change (2 ^ (2 - 2)) with 1 in Hm. change (2 ^ 2) with 4. lia.
  - replace (2 - Zneg p) with (2 + Zpos p) in Hm by lia.
    rewrite Z.pow_add_r in Hm by lia. change (2 ^ 2) with 4 in Hm.
    assert (Hb : 0 < 2 ^ Zpos p) by (apply Z.pow_pos_nonneg; lia).
    unfold F64.div_half_even.
    set (a := 100 * Zpos m) in *. set (b := 2 ^ Zpos p) in *.
    assert (Ha : 0 <= a <= 10000 * b) by lia.
    assert (Hq : 0 <= a / b <= 10000).
    { split; [apply Z.div_pos; lia|]. apply Z.div_le_upper_bound; lia. }
    pose proof (Z.mod_pos_bound a b Hb) as Hr.
    pose proof (Z.div_mod a b ltac:(lia)) as Hdm.
    destruct (Z.eq_dec (a / b) 10000) as [E|E].
    + assert (a mod b = 0) as -> by nia.
      rewrite E. replace (2 * 0 ?= b) with Lt by (symmetry; apply Z.compare_lt_iff; lia).
      lia.
    + destruct (2 * (a mod b) ?= b); [destruct (Z.even (a / b))| |]; lia.
Qed.

Lemma fixed2_two_decimals (h : Z) :
  0 <= h <= 10000 -> two_decimal_percent (F64.fixed2 h +:+ "%") = true.
Proof.
  intros Hh.
  assert (Hall : forallb (fun i => two_decimal_percent (F64.fixed2 (Z.of_nat i) +:+ "%"))
                   (seq 0 (Z.to_nat 10001)) = true) by (vm_compute; reflexivity).
  rewrite forallb_forall in Hall.
  specialize (Hall (Z.to_nat h)). rewrite Z2Nat.id in Hall by lia.
  apply Hall, in_seq. lia.
Qed.

Lemma percent_two_decimals (k n : Z) :
  0 <= k <= n -> 1 <= n < 2 ^ 53 ->
  exists h, 0 <= h <= 10000 /\ F64.percent k n = F64.fixed2 h +:+ "%".
Proof.
  intros Hk Hn. unfold F64.percent.
  destruct (of_Z_exact n) as (my & ey & -> & Hey & Hdy & Ey); [lia|].
  destruct (Z.eq_dec k 0) as [->|Hk0].
  { exists 0. split; [lia|]. rewrite of_Z_100. reflexivity. }
  destruct (of_Z_exact k) as (mx & ex & -> & Hex & Hdx & Ex); [lia|].
  destruct (div_at_most_one k n mx my ex ey) as [->|(m & e & -> & He & Hm)]; try done; try lia.
  { exists 0. split; [lia|]. rewrite of_Z_100. reflexivity. }
  destruct (mul_100_at_most_100 m e He Hm) as [->|(m' & e' & -> & He' & Hm')].
  { exists 0. split; [lia|]. reflexivity. }
  exists (F64.hundredths m' e'). split; [by apply hundredths_at_most|]. reflexivity.
Qed.

Lemma percent_none (n : Z) : 1 <= n < 2 ^ 53 -> F64.percent 0 n = "0.00%".
Proof.
  intros Hn. unfold F64.percent.
  destruct (of_Z_exact n) as (my & ey & -> & _); [lia|].
  rewrite of_Z_100. reflexivity.
Qed.

Lemma percent_all (n : Z) : 1 <= n < 2 ^ 53 -> F64.percent n n = "100.00%".
Proof.
  intros Hn. unfold F64.percent.
  destruct (of_Z_exact n) as (my & ey & -> & Hey & Hdy & Ey); [lia|].
  unfold F64.div, SFdiv, F64.prec, F64.emax.
  rewrite (SFdiv_core_binary_normal my my ey ey Hdy Hdy Hey Hey).
  rewrite Z.mul_comm, Z.div_mul, Z.mod_mul by lia.
  rewrite new_location_exact. replace (ey - ey - 53) with (-53) by lia.
  vm_compute. reflexivity.
Qed.

End Rounding.

(* ===================================================================== *)
(** * The null percentages of the summary sheet *)
(* ===================================================================== *)

Section NullPercentages.
Context `{Library}.
Local Open Scope nat_scope.

Lemma isnull_sum_le (c : Series) : Pd.isnull_sum c <= length (values c).
Proof. unfold Pd.isnull_sum. apply length_filter. Qed.

Lemma wf_df_lookup df (j : nat) (c : Series) :
  wf_df df -> df_columns df !! j = Some c -> length (values c) = df_len df.
Proof.
  intros Hwf Hj. unfold wf_df in Hwf. rewrite Forall_forall in Hwf.
  apply Hwf. by apply list_elem_of_lookup_2 in Hj.
Qed.

(** For a table with at least one row (and fewer than [2 ^ 53]), the cell
    in column E of the row of each column of the table holds the share of
    missing values as a percentage with two decimals, between 0.00% and
    100.00%; it reads 0.00% for a column without missing values and 100.00%
    for a column of missing values only. *)
Theorem null_percentage_two_decimals st df :
  data (self st) = Some df -> is_Some (workbook (self st)) ->
  wf_df df -> NoDup (map name (df_columns df)) ->
  (1 <= Z.of_nat (df_len df) < 2 ^ 53)%Z ->
  exists n ws st',
    create_summary_sheet st = (Ok n, st') /\ new_sheet_of st st' ws /\
    forall j c, df_columns df !! j = Some c ->
      exists text,
        value (Ws.cell_at ws (9 + j, 5)) = VStr text /\
        text = F64.percent (Z.of_nat (Pd.isnull_sum c)) (Z.of_nat (df_len df)) /\
        two_decimal_percent text = true /\
        (exists h, (0 <= h <= 10000)%Z /\ text = F64.fixed2 h +:+ "%") /\
        (Pd.isnull_sum c = 0 -> text = "0.00%") /\
        (Pd.isnull_sum c = df_len df -> text = "100.00%").
Proof.
  intros Edf [wb Ewb] Hwf Hnd Hlen.
  destruct (create_summary_sheet_run st df wb Edf Ewb Hnd) as (ws & st' & E & Ewb' & Hrows & _).
  exists (length (worksheets wb)), ws, st'. split; [done|]. split; [by exists wb|].
  intros j c Hj. destruct (Hrows j c Hj) as (_ & _ & _ & _ & Hcell).
  eexists. split; [exact Hcell|]. split; [done|].
  pose proof (isnull_sum_le c) as Hle. rewrite (wf_df_lookup df j c Hwf Hj) in Hle.
  destruct (percent_two_decimals (Z.of_nat (Pd.isnull_sum c)) (Z.of_nat (df_len df)))
    as (h & Hh & Eh); [lia | done |].
  split; [rewrite Eh; by apply fixed2_two_decimals|].
  split; [by exists h|]. split.
  - intros ->. by apply percent_none.
  - intros ->. by apply percent_all.
Qed.

(** For a table without rows the share is 0 / 0: the generator returns all
    the same, and the cell of every column reads nan%, which is no
    percentage with two decimals. *)
Theorem null_percentage_without_rows st df :
  data (self st) = Some df -> is_Some (workbook (self st)) ->
  wf_df df -> NoDup (map name (df_columns df)) ->
  df_len df = 0 ->
  exists n ws st',
    create_summary_sheet st = (Ok n, st') /\ new_sheet_of st st' ws /\
    (forall j c, df_columns df !! j = Some c ->
       value (Ws.cell_at ws (9 + j, 5)) = VStr "nan%") /\
    two_decimal_percent "nan%" = false.
Proof.
  intros Edf [wb Ewb] Hwf Hnd Hlen.
  destruct (create_summary_sheet_run st df wb Edf Ewb Hnd) as (ws & st' & E & Ewb' & Hrows & _).
  exists (length (worksheets wb)), ws, st'. split; [done|]. split; [by exists wb|].
  split; [|done].
  intros j c Hj. destruct (Hrows j c Hj) as (_ & _ & _ & _ & Hcell).
  pose proof (isnull_sum_le c) as Hle. rewrite (wf_df_lookup df j c Hwf Hj), Hlen in Hle.
  rewrite Hcell, Hlen. by replace (Pd.isnull_sum c) with 0 by lia.
Qed.

End NullPercentages.

Lemma table_nulls_wf : wf_df table_nulls.
Proof. repeat constructor. Qed.

Lemma table_nulls_labels : NoDup (map name (df_columns table_nulls)).
Proof. apply NoDup_ListNoDup. repeat constructor; simpl; intuition discriminate. Qed.

Lemma table_no_rows_wf : wf_df table_no_rows.
Proof. repeat constructor. Qed.

Lemma table_no_rows_labels : NoDup (map name (df_columns table_no_rows)).
Proof. apply NoDup_ListNoDup. repeat constructor; simpl; intuition discriminate. Qed.

(** The column with 5 of 5 values reads 0.00%, the one with 0 of 5 reads
    100.00%. *)
Lemma null_percentage_two_decimals_witness :
  exists ws,
    value (Ws.cell_at ws (9, 5)%nat) = VStr "0.00%" /\
    value (Ws.cell_at ws (10, 5)%nat) = VStr "100.00%".
Proof.
  destruct (@null_percentage_two_decimals (sample_library (fun _ => Ok table_nulls))
              (loaded table_nulls) table_nulls eq_refl (ex_intro _ _ eq_refl)
              table_nulls_wf table_nulls_labels ltac:(simpl; lia))
    as (n & ws & st' & _ & _ & Hcells).
  exists ws. split.
  - destruct (Hcells 0%nat _ eq_refl) as (text & Hv & _ & _ & _ & Hnone & _).
    cbn [Nat.add] in Hv. rewrite Hv, (Hnone eq_refl). reflexivity.
  - destruct (Hcells 1%nat _ eq_refl) as (text & Hv & _ & _ & _ & _ & Hall).
    cbn [Nat.add] in Hv. rewrite Hv, (Hall eq_refl). reflexivity.
Defined.

Lemma null_percentage_without_rows_witness :
  exists ws,
    value (Ws.cell_at ws (9, 5)%nat) = VStr "nan%" /\
    value (Ws.cell_at ws (10, 5)%nat) = VStr "nan%".
Proof.
  destruct (@null_percentage_without_rows (sample_library (fun _ => Ok table_no_rows))
              (loaded table_no_rows) table_no_rows eq_refl (ex_intro _ _ eq_refl)
              table_no_rows_wf table_no_rows_labels eq_refl)
    as (n & ws & st' & _ & _ & Hcells & _).
  exists ws. split.
  - exact (Hcells 0%nat _ eq_refl).
  - exact (Hcells 1%nat _ eq_refl).
Defined.

(* ===================================================================== *)
(** * More on the main data sheet *)
(* ===================================================================== *)

Section MainSheetMore.
Context `{Library}.
Local Open Scope nat_scope.



End MainSheetMore.



(* ===================================================================== *)
(** * What a run leaves of the environment *)
(* ===================================================================== *)

Section RunFrame.
Context `{Library}.

#[global] Instance only_output_written_preorder : PreOrder only_output_written.
Proof.
  split.
  - intros st. by repeat split.
  - intros a b c (Hp1 & Hf1 & Hs1 & Hd1 & Hc1) (Hp2 & Hf2 & Hs2 & Hd2 & Hc2).
    split; [by etrans|]. split; [|split; [by etrans | split; congruence]].
    intros q Hq. rewrite Hf2, Hf1; [done..|]. by destruct Hp1 as [_ <-].
Qed.

Lemma keeps_try_except {A} (R : State -> State -> Prop) `{!PreOrder R}
    (body : M State A) (handler : Exn -> M State A) :
  keeps R body -> (forall e, keeps R (handler e)) -> keeps R (try_except body handler).
Proof.
  intros Hb Hh st. unfold try_except. specialize (Hb st).
  destruct (body st) as [[a|e] st1]; [done|].
  etrans; [exact Hb | apply Hh].
Qed.

Lemma only_output_log (line : string) st : only_output_written st (with_world (log line) st).
Proof.
  split; [done|]. split; [done|]. split; [|done].
  simpl. by apply prefix_app_r.
Qed.

Lemma keeps_output_save_output : keeps only_output_written save_output.
Proof.
  intros st. unfold save_output. rewrite bind_gets. unfold print. rewrite bind_modify.
  unfold save, the_workbook, write_file, mbind, M_bind. cbn [self with_world world].
  destruct (workbook (self st)) as [wb|]; [|apply only_output_log].
  case_decide; [apply only_output_log|].
  cbn [snd]. split; [done|]. split; [|split; [|done]].
  - intros q Hq. cbn. by rewrite lookup_insert_ne.
  - cbn. by apply prefix_app_r.
Qed.

Lemma keeps_output_stage (stage : M State unit) :
  stage ∈ stages -> keeps only_output_written stage.
Proof.
  change stages with (take 7 stages ++ [save_output]).
  intros [Hin|Hin%list_elem_of_singleton]%elem_of_app.
  - apply keeps_stage_before_save; try exact Hin; try apply _.
    + apply only_output_log.
    + intros st. by repeat split.
    + intros df st. by repeat split.
    + intros wb st. by repeat split.
  - subst. apply keeps_output_save_output.
Qed.

Lemma convert_frame (st : State) : only_output_written st (snd (convert st)).
Proof.
  rewrite convert_as_stages.
  assert (K : keeps only_output_written
                (try_except (run_stages stages ;; report_success ;; mret true)
                   report_failure)).
  { apply keeps_try_except; [apply _ | |].
    - apply keeps_bind; [apply _ | | intros ?].
      + apply keeps_for_each_in; [apply _|]. apply keeps_output_stage.
      + apply keeps_bind; [apply _ | | intros ?; apply keeps_ret, _].
        apply keeps_stage_report_success; [apply _|]. apply only_output_log.
    - intros e st1. apply only_output_log. }
  specialize (K (snd (opening st))).
  etrans; [|exact K].
  rewrite opening_run. cbn [snd].
  etrans; [apply only_output_log|]. etrans; apply only_output_log.
Qed.

(** Whatever a run of [convert] does, it leaves the paths of the converter
    as they are, changes no file other than the output file, only adds to
    what was printed, and leaves the clock and the write permissions of the
    environment alone. *)
Theorem convert_writes_only_output (st : State) :
  csv_file_path (self (snd (convert st))) = csv_file_path (self st) /\
  output_file_path (self (snd (convert st))) = output_file_path (self st) /\
  (forall q, q <> output_file_path (self st) ->
     files (world (snd (convert st))) !! q = files (world st) !! q) /\
  stdout (world st) `prefix_of` stdout (world (snd (convert st))) /\
  denied (world (snd (convert st))) = denied (world st) /\
  clock (world (snd (convert st))) = clock (world st).
Proof.
  destruct (convert_frame st) as ([Hcsv Hout] & Hfiles & Hprinted & Hdenied & Hclock).
  split; [by symmetry|]. split; [by symmetry|].
  split; [exact Hfiles|]. split; [exact Hprinted|]. by split.
Qed.

End RunFrame.

(* ===================================================================== *)
(** * [main] *)
(* ===================================================================== *)

Section MainFacts.
Context `{Library}.

(** [convert] returns, whatever happens in its stages. *)
Lemma convert_returns (st : State) : exists (b : bool) st', convert st = (Ok b, st').
Proof.
  rewrite convert_as_stages. unfold try_except.
  destruct ((run_stages stages ;; report_success ;; mret true) (snd (opening st)))
    as [[b|e] st1]; [by eauto|].
  eexists _, _. apply report_failure_run.
Qed.

Lemma say_prefix (line : string) (w : World) :
  say line w = (Ok tt, log line w).
Proof. reflexivity. Qed.

(** [main] returns, whatever happens in the conversion.  It changes no file
    other than [done_enriched_comprehensive.xlsx], so that the input file is
    as it was; and when the input file is missing it prints its two lines
    and does nothing else. *)
Theorem main_leaves_input (w : World) :
  exists w',
    main w = (Ok tt, w') /\
    (forall q, q <> output_file -> files w' !! q = files w !! q) /\
    files w' !! input_file = files w !! input_file /\
    stdout w `prefix_of` stdout w' /\
    (files w !! input_file = None ->
     w' = log "Please make sure the file exists in the current directory."
            (log "Error: Input file 'done enriched.csv' not found!" w)).
Proof.
  assert (Hne : input_file <> output_file) by discriminate.
  unfold main, os_path_exists. rewrite bind_gets.
  destruct (files w !! input_file) as [bytes|] eqn:Ein.
  - rewrite bool_decide_eq_true_2 by done. cbn [negb].
    set (st := {| self := init input_file (Some output_file); world := w |}).
    destruct (convert_returns st) as (b & st' & Ec).
    pose proof (convert_frame st) as Hk. rewrite Ec in Hk.
    destruct Hk as (_ & Hf & Hs & _). cbn [snd] in Hf, Hs.
    change (output_file_path (self st)) with output_file in Hf.
    change (world st) with w in Hf, Hs.
    assert (Eo : on_converter (init input_file (Some output_file)) convert w
                 = (Ok (b, self st'), world st')).
    { unfold on_converter. fold st. by rewrite Ec. }
    rewrite (bind_Ok _ _ _ _ _ Eo).
    destruct b.
    + eexists. split; [reflexivity|]. cbn. split; [exact Hf|]. split; [by rewrite Hf|].
      split; [|done].
      etrans; [exact Hs|]. rewrite <- !(assoc_L (++)). by apply prefix_app_r.
    + eexists. split; [reflexivity|]. cbn. split; [exact Hf|]. split; [by rewrite Hf|].
      split; [|done]. etrans; [exact Hs|]. by apply prefix_app_r.
  - rewrite bool_decide_eq_false_2 by (by intros [? ?]). cbn [negb].
    eexists. split; [reflexivity|]. cbn. split; [done|]. split; [done|].
    split; [|done]. rewrite <- (assoc_L (++)). by apply prefix_app_r.
Qed.

End MainFacts.

(* ===================================================================== *)
(** * The labels of the loaded table *)
(* ===================================================================== *)

Section Labels.

#[local] Arguments String.append !_ _ : simpl nomatch.

Lemma rstrip_split (s : string) :
  exists b, s = PyStr.rstrip s +:+ b /\ all_space b = true.
Proof.
  induction s as [|c t (b & Et & Hb)]; [by exists ""|].
  cbn [PyStr.rstrip]. destruct (PyStr.rstrip t) as [|d u] eqn:Er.
  - simpl in Et. subst b. destruct (PyStr.isspace c) eqn:Ec.
    + exists (String c t). split; [done|]. simpl. by rewrite Ec.
    + by exists t.
  - exists b. split; [|done]. simpl. by rewrite Et at 1.
Qed.

Lemma rstrip_end (s : string) : ends_with_space (PyStr.rstrip s) = false.
Proof.
  induction s as [|c t IH]; [done|].
  cbn [PyStr.rstrip]. destruct (PyStr.rstrip t) as [|d u] eqn:Er.
  - destruct (PyStr.isspace c) eqn:Ec; [done|]. simpl. done.
  - exact IH.
Qed.

Lemma rstrip_id (s : string) : ends_with_space s = false -> PyStr.rstrip s = s.
Proof.
  induction s as [|c t IH]; [done|]. intros He.
  cbn [PyStr.rstrip]. destruct t as [|d u].
  - simpl in *. by rewrite He.
  - rewrite IH by exact He. done.
Qed.

Lemma lstrip_split (s : string) :
  exists a, s = a +:+ PyStr.lstrip s /\ all_space a = true.
Proof.
  induction s as [|c t (a & Et & Ha)]; [by exists ""|].
  cbn [PyStr.lstrip]. destruct (PyStr.isspace c) eqn:Ec.
  - exists (String c a). split; [simpl; by rewrite <- Et|]. simpl. by rewrite Ec.
  - by exists "".
Qed.

Lemma lstrip_start (s : string) : starts_with_space (PyStr.lstrip s) = false.
Proof.
  induction s as [|c t IH]; [done|].
  cbn [PyStr.lstrip]. destruct (PyStr.isspace c) eqn:Ec; [done|]. done.
Qed.

Lemma lstrip_id (s : string) : starts_with_space s = false -> PyStr.lstrip s = s.
Proof. destruct s as [|c t]; [done|]. simpl. by intros ->. Qed.

Lemma lstrip_end (s : string) :
  ends_with_space s = false -> ends_with_space (PyStr.lstrip s) = false.
Proof.
  induction s as [|c t IH]; [done|]. intros He.
  cbn [PyStr.lstrip]. destruct (PyStr.isspace c) eqn:Ec; [|done].
  apply IH. destruct t as [|d u]; [|exact He]. simpl in He. congruence.
Qed.

Lemma strip_trimmed (s : string) : trimmed_of s (PyStr.strip s).
Proof.
  unfold trimmed_of, PyStr.strip.
  destruct (rstrip_split s) as (b & Es & Hb).
  destruct (lstrip_split (PyStr.rstrip s)) as (a & Er & Ha).
  split; [|split].
  - exists a, b. split; [|done]. rewrite Es at 1. rewrite Er at 1.
    by rewrite append_assoc.
  - apply lstrip_start.
  - apply lstrip_end, rstrip_end.
Qed.

Lemma strip_idempotent (s : string) : PyStr.strip (PyStr.strip s) = PyStr.strip s.
Proof.
  destruct (strip_trimmed s) as (_ & Hs & He).
  unfold PyStr.strip at 1. by rewrite (rstrip_id _ He), (lstrip_id _ Hs).
Qed.

End Labels.

Section LoadedLabels.
Context `{Library}.

(** When the loader returns, the file was there and one of the encodings,
    tried in their order, parsed it; the table it returns and keeps is the
    parsed one with every label trimmed of the white space at its two ends
    and nothing else changed; trimming the labels once more changes
    nothing; the workbook of the converter is untouched. *)
Theorem loader_trims_labels st df st' :
  load_data st = (Ok df, st') ->
  exists bytes parsed,
    files (world st) !! csv_file_path (self st) = Some bytes /\
    try_encodings bytes utf_8 [utf_8_sig; latin_1] = Ok parsed /\
    data (self st') = Some df /\ workbook (self st') = workbook (self st) /\
    df_len df = df_len parsed /\
    map dtype (df_columns df) = map dtype (df_columns parsed) /\
    map values (df_columns df) = map values (df_columns parsed) /\
    Forall2 trimmed_of (map name (df_columns parsed)) (map name (df_columns df)) /\
    Pd.strip_columns df = df.
Proof.
  intros El.
  destruct (files (world st) !! csv_file_path (self st)) as [bytes|] eqn:Ef.
  - exists bytes. revert El. unfold load_data. rewrite bind_gets. unfold print.
    rewrite bind_modify. set (st1 := with_world _ st).
    pose proof (read_attempts_run st1 bytes Ef) as Er.
    destruct (try_encodings bytes utf_8 [utf_8_sig; latin_1]) as [parsed|e].
    + rewrite (bind_Ok _ _ _ _ _ Er). intros [= <- <-].
      exists parsed. split; [done|]. split; [done|]. split; [done|]. split; [done|].
      split; [done|]. cbn [Pd.strip_columns df_columns].
      rewrite !map_map. cbn [dtype values name]. split; [done|]. split; [done|].
      split.
      * induction (df_columns parsed) as [|c l IH]; constructor; [apply strip_trimmed | exact IH].
      * unfold Pd.strip_columns. cbn [df_columns df_len]. f_equal.
        rewrite map_map. apply map_ext. intros c. cbn [name dtype values].
        by rewrite strip_idempotent.
    + rewrite (bind_Raise _ _ _ _ _ Er). discriminate.
  - destruct (load_data_missing st Ef) as (e & s1 & E). rewrite E in El. discriminate El.
Qed.

End LoadedLabels.

(** The labels [" A "] and ["B  "] come out as ["A"] and ["B"]. *)
Lemma loader_trims_labels_witness :
  exists df,
    fst (load_data (H := sample_library (fun _ => Ok table_spaced)) fresh) = Ok df /\
    map name (df_columns df) = ["A"; "B"] /\ Pd.strip_columns df = df.
Proof.
  destruct (@loader_trims_labels (sample_library (fun _ => Ok table_spaced)) fresh
              (Pd.strip_columns table_spaced)
              (snd (load_data (H := sample_library (fun _ => Ok table_spaced)) fresh))
              eq_refl)
    as (bytes & parsed & _ & _ & _ & _ & _ & _ & _ & _ & Hid).
  exists (Pd.strip_columns table_spaced). split; [reflexivity|]. split; [reflexivity|].
  exact Hid.
Defined.

(* ===================================================================== *)
(** * Labels that are equal once trimmed *)
(* ===================================================================== *)

Section Collisions.
Context `{Library}.
Local Open Scope nat_scope.

#[global] Instance same_data_preorder : PreOrder same_data.
Proof. split; [by intros st | intros a b c; unfold same_data; congruence]. Qed.








End Collisions.

Section CollisionsInARun.
Context `{Library}.
Local Open Scope nat_scope.


Lemma create_workbook_run st :
  exists st', create_workbook st = (Ok empty_workbook, st') /\
              workbook (self st') = Some empty_workbook /\ data (self st') = data (self st).
Proof.
  unfold create_workbook, print. rewrite bind_modify. cbv zeta.
  unfold set_workbook. rewrite bind_modify.
  eexists. split; [reflexivity|]. split; reflexivity.
Qed.








End CollisionsInARun.



(* ===================================================================== *)
(** * Tables written line by line *)
(* ===================================================================== *)

Section TableRows.
Context {A : Type}.
Local Open Scope nat_scope.
Implicit Types (g : nat -> A -> Worksheet -> Worksheet) (l : list A) (ws : Worksheet).

Lemma write_rows_cons g k x l ws :
  write_rows g k (x :: l) ws = write_rows g (S k) l (g k x ws).
Proof. reflexivity. Qed.

(** What no line changes, the table does not change. *)
Lemma write_rows_keeps {B} (f : Worksheet -> B) g k l ws :
  (forall i x s, f (g i x s) = f s) -> f (write_rows g k l ws) = f ws.
Proof.
  intros Hg. revert k ws. induction l as [|x l IH]; intros k ws; [done|].
  rewrite write_rows_cons, IH. apply Hg.
Qed.

(** Lines that change their own row only leave the rows above the table. *)
Lemma write_rows_above g k l ws b :
  (forall i x s b, fst b <> i -> Ws.cell_at (g i x s) b = Ws.cell_at s b) ->
  fst b < k ->
  Ws.cell_at (write_rows g k l ws) b = Ws.cell_at ws b.
Proof.
  intros Hg. revert k ws. induction l as [|x l IH]; intros k ws Hb; [done|].
  rewrite write_rows_cons, IH by lia. apply Hg. lia.
Qed.

(** Each line of the table is as it was written. *)
Lemma write_rows_at (Row : nat -> A -> Worksheet -> Prop) g k l ws :
  (forall i x s b, fst b <> i -> Ws.cell_at (g i x s) b = Ws.cell_at s b) ->
  (forall i x s, Row i x (g i x s)) ->
  (forall i x s s', (forall c, Ws.cell_at s' (i, c) = Ws.cell_at s (i, c)) ->
                    Row i x s -> Row i x s') ->
  forall j x, l !! j = Some x -> Row (k + j) x (write_rows g k l ws).
Proof.
  intros Hg Hrow Hext. revert k ws. induction l as [|y l IH]; intros k ws j x Ej; [done|].
  rewrite write_rows_cons. destruct j as [|j]; simpl in Ej.
  - injection Ej as ->. rewrite Nat.add_0_r.
    apply (Hext _ _ (g k x ws)); [|apply Hrow].
    intros c. apply write_rows_above; [done | simpl; lia].
  - replace (k + S j) with (S k + j) by lia. by apply IH.
Qed.

Lemma for_each_write_rows (body : nat * A -> M Worksheet unit) g k l ws :
  (forall i x s, body (i, x) s = (Ok tt, g i x s)) ->
  for_each (enumerate k l) body ws = (Ok tt, write_rows g k l ws).
Proof.
  intros Hb. revert k ws. induction l as [|x l IH]; intros k ws; [done|].
  rewrite write_rows_cons. simpl. rewrite (bind_Ok _ _ _ _ _ (Hb k x ws)). apply IH.
Qed.

End TableRows.

(* ===================================================================== *)
(** * What an analysis sheet holds *)
(* ===================================================================== *)

Section AnalysisContent.
Context `{Library}.
Local Open Scope nat_scope.






End AnalysisContent.

Section AnalysisSheetsContent.
Context `{Library}.
Local Open Scope nat_scope.




End AnalysisSheetsContent.



(* ===================================================================== *)
(** * What the charts sheet holds *)
(* ===================================================================== *)

Section ChartsContent.
Context `{Library}.
Local Open Scope nat_scope.

Lemma collect_means_run df (cs : list Series) ws :
  (forall c, c ∈ cs -> Pd.getitem df (name c) = Ok c) ->
  collect_means df (map name cs) ws = (Ok (mean_rows cs), ws).
Proof.
  induction cs as [|c cs IH]; intros Hget; [done|].
  simpl. rewrite (Hget c) by constructor. rewrite bind_lift_Ok.
  rewrite (bind_Ok _ _ _ _ _ (IH ltac:(intros; apply Hget; by constructor))).
  reflexivity.
Qed.

Lemma length_mean_rows (cs : list Series) : length (mean_rows cs) <= length cs.
Proof.
  induction cs as [|c cs IH]; [done|]. simpl.
  destruct (Pd.notnull _); simpl; lia.
Qed.

Lemma cell_at_mean_row (i : nat) (row : string * spec_float) ws b :
  fst b <> i -> Ws.cell_at (mean_row i row ws) b = Ws.cell_at ws b.
Proof.
  intros Hb. unfold mean_row, Ws.set_value. rewrite !cell_at_update.
  repeat (case_decide; [subst b; simpl in Hb; lia|]). done.
Qed.

Lemma mean_row_values (i : nat) (row : string * spec_float) ws :
  value (Ws.cell_at (mean_row i row ws) (i, 1)) = VStr (fst row) /\
  value (Ws.cell_at (mean_row i row ws) (i, 2)) = VFloat (snd row).
Proof.
  unfold mean_row. rewrite !value_set_value.
  split; repeat (case_decide; [try discriminate | try done]); done.
Qed.

Lemma charts_body_sheet df ws0 :
  NoDup (map name (df_columns df)) -> charts ws0 = [] -> tables ws0 = [] ->
  exists ws, charts_body df ws0 = (Ok tt, ws) /\ charts_sheet_of df ws.
Proof.
  intros Hnd Hch Htb. set (rows := mean_rows (charted_columns df)).
  assert (Hlen : length rows <= 10).
  { unfold rows. etrans; [apply length_mean_rows|].
    unfold charted_columns. rewrite length_take. lia. }
  unfold charts_body. do 2 rewrite bind_modify.
  change (cell_ref "A" 1) with (1, 1).
  set (ws2 := Ws.set_font (1, 1) _ _).
  assert (Hv2 : value (Ws.cell_at ws2 (1, 1)) = VStr "Data Visualizations").
  { unfold ws2, Ws.set_font. rewrite value_restyle by done.
    by rewrite value_set_value, decide_True. }
  assert (Hc2 : charts ws2 = [] /\ tables ws2 = []).
  { unfold ws2, Ws.set_font, Ws.set_value. by rewrite !charts_update, !tables_update. }
  cbv zeta.
  assert (Ecols : take 10 (Pd.select_number df) = map name (charted_columns df)).
  { unfold Pd.select_number, charted_columns. by rewrite fmap_take. }
  destruct (0 <? length (Pd.select_number df)) eqn:Enum.
  - rewrite Ecols. rewrite (bind_Ok _ _ ws2 rows ws2).
    2:{ apply collect_means_run. intros c Hc%(subseteq_take 10).
        apply list_elem_of_filter in Hc as [_ Hc]. by apply getitem_unique. }
    destruct rows as [|row rows'] eqn:Erows.
    + exists ws2. split; [done|]. unfold charts_sheet_of. fold rows. rewrite Erows.
      split; [done|]. split; [simpl; lia|]. split; [intros _; apply Hc2|].
      split; [done | apply Hc2].
    + rewrite <- Erows in *. do 2 rewrite bind_modify.
      change (cell_ref "A" 3) with (3, 1). change (cell_ref "B" 3) with (3, 2).
      set (ws4 := Ws.set_value (3, 2) _ _).
      rewrite (bind_Ok _ _ ws4 tt (write_rows mean_row 4 rows ws4)).
      2:{ apply for_each_write_rows. by intros i [col val] s. }
      set (ws5 := write_rows mean_row 4 rows ws4).
      eexists. split; [reflexivity|].
      assert (Hv5 : forall b, fst b < 4 -> Ws.cell_at ws5 b = Ws.cell_at ws4 b).
      { intros b Hb. unfold ws5. apply write_rows_above; [|done].
        intros i x s b0. apply cell_at_mean_row. }
      unfold charts_sheet_of. fold rows.
      change (Ws.cell_at (Ws.add_chart (bar_chart (length rows)) ws5))
        with (Ws.cell_at ws5).
      rewrite !Hv5 by (simpl; lia).
      split; [|split; [done|split; [|split]]].
      * unfold ws4. rewrite !value_set_value.
        repeat (case_decide; [try discriminate | try done]).
      * intros E. by rewrite Erows in E.
      * intros _. unfold ws4. rewrite !value_set_value.
        repeat (case_decide; [try discriminate | try done]).
        split; [done|]. split; [done|]. split.
        -- intros k col val Ek.
           apply (write_rows_at
                    (fun i row s =>
                       value (Ws.cell_at s (i, 1)) = VStr (fst row) /\
                       value (Ws.cell_at s (i, 2)) = VFloat (snd row))
                    mean_row 4 rows ws4) with (j := k) (x := (col, val)); [| | |done].
           ++ intros i x s b0. apply cell_at_mean_row.
           ++ intros i x s. apply mean_row_values.
           ++ intros i x s s' Hs. by rewrite !Hs.
        -- cbn [charts Ws.add_chart]. unfold ws5.
           rewrite (write_rows_keeps charts).
           ++ unfold ws4, Ws.set_value. by rewrite !charts_update, (proj1 Hc2).
           ++ intros i x s. unfold mean_row, Ws.set_value. by rewrite !charts_update.
      * cbn [tables Ws.add_chart]. unfold ws5.
        rewrite (write_rows_keeps tables).
        -- unfold ws4, Ws.set_value. by rewrite !tables_update, (proj2 Hc2).
        -- intros i x s. unfold mean_row, Ws.set_value. by rewrite !tables_update.
  - exists ws2. split; [done|].
    assert (rows = []) as Erows.
    { unfold rows, charted_columns.
      apply Nat.ltb_ge in Enum. unfold Pd.select_number in Enum.
      rewrite length_map in Enum.
      destruct (filter _ (df_columns df)); [done | simpl in Enum; lia]. }
    unfold charts_sheet_of. fold rows. rewrite Erows.
    split; [done|]. split; [simpl; lia|]. split; [intros _; apply Hc2|].
    split; [done | apply Hc2].
Qed.

(** The charts sheet holds its title; when one of the first ten numeric
    columns has a mean, it holds the header Column, Average Value in row 3,
    one line for each such column from row 4 on, in the order of the table,
    and one bar chart over these lines; it holds at most ten lines, and no
    chart when there is no line. *)
Theorem charts_sheet_content st df :
  data (self st) = Some df -> is_Some (workbook (self st)) ->
  NoDup (map name (df_columns df)) ->
  exists n ws st',
    create_charts_sheet st = (Ok n, st') /\ new_sheet_of st st' ws /\
    charts_sheet_of df ws.
Proof.
  intros Edf [wb Ewb] Hnd.
  destruct (charts_body_sheet df
              (new_worksheet (avoid_duplicate_name (map title (worksheets wb))
                                "Data Visualizations"))
              Hnd eq_refl eq_refl) as (ws & E & Hsheet).
  exists (length (worksheets wb)), ws. eexists. split; [|split; [|exact Hsheet]].
  - unfold create_charts_sheet, print. rewrite bind_modify.
    apply (sheet_stage_run (with_world (log "Creating charts sheet...") st)
             wb df _ charts_body _ _ Ewb Edf E).
  - by exists wb.
Qed.

End ChartsContent.

Lemma table_numbers_labels : NoDup (map name (df_columns table_numbers)).
Proof. apply NoDup_ListNoDup. repeat constructor; simpl; intuition discriminate. Qed.

(** The columns a and c have a mean, b has none: two lines and a chart over
    rows 3 to 5. *)
Lemma charts_sheet_content_witness :
  exists ws,
    value (Ws.cell_at ws (4, 1)%nat) = VStr "a" /\
    value (Ws.cell_at ws (5, 1)%nat) = VStr "c" /\
    charts ws = [bar_chart 2].
Proof.
  destruct (@charts_sheet_content (sample_library (fun _ => Ok table_numbers))
              (loaded table_numbers) table_numbers eq_refl (ex_intro _ _ eq_refl)
              table_numbers_labels)
    as (n & ws & st' & _ & _ & (_ & _ & _ & Hrows & _)).
  exists ws.
  destruct Hrows as (_ & _ & Hlines & Hchart); [discriminate|].
  destruct (Hlines 0%nat "a" _ eq_refl) as [Ha _].
  destruct (Hlines 1%nat "c" _ eq_refl) as [Hc _].
  split; [exact Ha|]. split; [exact Hc|]. exact Hchart.
Defined.

(* ===================================================================== *)
(** * Two runs on the same input *)
(* ===================================================================== *)

Section Agreement.
Context {S : Type} (R : S -> S -> Prop).

Lemma agrees_ret {A} (a : A) : agrees R (mret a).
Proof. by intros s1 s2 HR. Qed.

Lemma agrees_lift {A} (r : result A) : agrees R (lift r).
Proof. intros s1 s2 HR. by destruct r. Qed.

Lemma agrees_modify (f : S -> S) :
  (forall s1 s2, R s1 s2 -> R (f s1) (f s2)) -> agrees R (modify f).
Proof. intros Hf s1 s2 HR. split; [done|]. by apply Hf. Qed.

Lemma agrees_gets {A} (f : S -> A) :
  (forall s1 s2, R s1 s2 -> f s1 = f s2) -> agrees R (gets f).
Proof. intros Hf s1 s2 HR. split; [|done]. simpl. f_equal. by apply Hf. Qed.

Lemma agrees_bind {A B} (m : M S A) (f : A -> M S B) :
  agrees R m -> (forall a, agrees R (f a)) -> agrees R (m ≫= f).
Proof.
  intros Hm Hf s1 s2 HR. destruct (Hm s1 s2 HR) as [Hr HR']. unfold mbind, M_bind.
  destruct (m s1) as [[a1|e1] t1], (m s2) as [[a2|e2] t2]; simpl in Hr, HR';
    try discriminate Hr.
  - injection Hr as ->. by apply Hf.
  - by injection Hr as ->.
Qed.

Lemma agrees_for_each {A} (l : list A) (body : A -> M S unit) :
  (forall x, x ∈ l -> agrees R (body x)) -> agrees R (for_each l body).
Proof.
  induction l as [|x l IH]; intros Hb; simpl.
  - apply agrees_ret.
  - apply agrees_bind; [apply Hb; constructor|].
    intros ?. apply IH. intros y Hy. apply Hb. by constructor.
Qed.

End Agreement.

Section SheetAgreement.
Context `{Library}.
Context (D : Addr -> Prop).
Local Open Scope nat_scope.

Lemma agrees_update (g : Cell -> Cell) (a : Addr) :
  value_respecting g -> agrees (same_values_but D) (modify (Ws.update g a)).
Proof.
  intros Hg. apply agrees_modify. intros s1 s2 (Ht & Htb & Hch & Hv).
  unfold same_values_but. rewrite !title_update, !tables_update, !charts_update.
  do 3 (split; [done|]). intros b Hb. rewrite !value_update.
  case_decide; [subst b; by apply Hg, Hv | by apply Hv].
Qed.

Lemma agrees_set_value (a : Addr) (v : Value) :
  agrees (same_values_but D) (modify (Ws.set_value a v)).
Proof. apply agrees_update. by intros c1 c2 _. Qed.

Lemma agrees_set_font (a : Addr) (f : Font) :
  agrees (same_values_but D) (modify (Ws.set_font a f)).
Proof. apply agrees_update. by intros c1 c2 E. Qed.

Lemma agrees_style_header (a : Addr) : agrees (same_values_but D) (style_header a).
Proof.
  unfold style_header.
  repeat (apply agrees_bind; [apply agrees_update; by intros c1 c2 E | intros ?]).
  apply agrees_update. by intros c1 c2 E.
Qed.

Lemma agrees_column_info df (i : nat) (col : string) :
  agrees (same_values_but D) (column_info df i col).
Proof.
  unfold column_info.
  apply agrees_bind; [apply agrees_set_value | intros ?].
  apply agrees_bind; [apply agrees_lift | intros c].
  repeat (apply agrees_bind; [apply agrees_set_value | intros ?]).
  apply agrees_set_value.
Qed.

Lemma agrees_numeric_block df (cols : list string) :
  agrees (same_values_but D) (numeric_block df cols).
Proof.
  unfold numeric_block.
  apply agrees_bind; [apply agrees_set_value | intros ?].
  apply agrees_bind; [apply agrees_set_font | intros ?].
  apply agrees_bind; [|intros ?].
  - apply agrees_for_each. intros [i header] _.
    apply agrees_bind; [apply agrees_set_value | intros ?]. apply agrees_style_header.
  - apply agrees_for_each. intros [i stat] _.
    apply agrees_bind; [apply agrees_set_value | intros ?].
    apply agrees_for_each. intros [j col] _.
    apply agrees_bind; [apply agrees_lift | intros c]. apply agrees_set_value.
Qed.

(** The width loop returns and leaves the cells as they read. *)
Lemma adjust_widths_cells (cap : nat) ws :
  fst (adjust_widths cap ws) = Ok tt /\
  title (snd (adjust_widths cap ws)) = title ws /\
  tables (snd (adjust_widths cap ws)) = tables ws /\
  charts (snd (adjust_widths cap ws)) = charts ws /\
  forall b, Ws.cell_at (snd (adjust_widths cap ws)) b = Ws.cell_at ws b.
Proof.
  destruct (decide (_current_row ws = 0)) as [E|E].
  - unfold adjust_widths. rewrite bind_get. unfold Ws.columns. rewrite E. done.
  - destruct (adjust_widths_spec cap ws E) as (ws1 & -> & Hc & _ & Ht & Htb & Hch & _).
    done.
Qed.

Lemma agrees_adjust_widths (cap : nat) : agrees (same_values_but D) (adjust_widths cap).
Proof.
  intros s1 s2 (Ht & Htb & Hch & Hv).
  destruct (adjust_widths_cells cap s1) as (-> & Ht1 & Htb1 & Hch1 & Hc1).
  destruct (adjust_widths_cells cap s2) as (-> & Ht2 & Htb2 & Hch2 & Hc2).
  split; [done|]. unfold same_values_but. rewrite Ht1, Ht2, Htb1, Htb2, Hch1, Hch2.
  do 3 (split; [done|]). intros b Hb. rewrite Hc1, Hc2. by apply Hv.
Qed.

End SheetAgreement.

Section SummaryAgreement.
Context `{Library}.
Local Open Scope nat_scope.

(** With another time stamp the summary sheet is the same but for the value
    of B5, and its statements return or raise alike. *)
Lemma summary_body_agree df (stamp1 stamp2 : string) ws :
  fst (summary_body df stamp1 ws) = fst (summary_body df stamp2 ws) /\
  same_values_but (fun b => b = stamp_cell)
    (snd (summary_body df stamp1 ws)) (snd (summary_body df stamp2 ws)).
Proof.
  unfold summary_body. do 2 rewrite (bind_modify (Ws.set_value (cell_ref "B" 5) _)).
  match goal with
  | |- fst (?m ?x1) = fst (?m ?x2) /\ _ =>
      assert (K : agrees (same_values_but (fun addr => addr = stamp_cell)) m)
  end.
  { do 7 (apply agrees_bind; [first [apply agrees_set_value | apply agrees_set_font]
                             | intros ?]).
    apply agrees_bind; [|intros ?].
    { apply agrees_for_each. intros ? _. apply agrees_style_header. }
    apply agrees_bind; [|intros ?].
    { apply agrees_for_each. intros [? ?] _. apply agrees_column_info. }
    apply agrees_bind; [|intros ?; apply agrees_adjust_widths].
    destruct (0 <? _); [apply agrees_numeric_block | apply agrees_ret]. }
  apply K. unfold same_values_but, Ws.set_value.
  rewrite !title_update, !tables_update, !charts_update.
  do 3 (split; [done|]). intros b Hb. rewrite !value_update.
  case_decide; [|done]. subst b. by destruct Hb.
Qed.

End SummaryAgreement.

Section SameInput.
Context `{Library}.
Local Open Scope nat_scope.

Lemma agrees_input_print (line : string) : agrees same_input (print line).
Proof. apply agrees_modify. by intros s1 s2 [E1 E2]. Qed.

Lemma agrees_input_the_workbook : agrees same_input the_workbook.
Proof.
  intros s1 s2 HR. pose proof HR as [E1 E2]. unfold the_workbook. rewrite E1.
  destruct (workbook (self s2)); (split; [reflexivity | exact HR]).
Qed.

Lemma agrees_input_the_data : agrees same_input the_data.
Proof.
  intros s1 s2 HR. pose proof HR as [E1 E2]. unfold the_data. rewrite E1.
  destruct (data (self s2)); (split; [reflexivity | exact HR]).
Qed.

Lemma agrees_input_set_workbook wb : agrees same_input (set_workbook wb).
Proof.
  apply agrees_modify. intros s1 s2 [E1 E2]. split; simpl; [by rewrite E1 | done].
Qed.

Lemma agrees_input_set_data df : agrees same_input (set_data df).
Proof.
  apply agrees_modify. intros s1 s2 [E1 E2]. split; simpl; [by rewrite E1 | done].
Qed.

Lemma agrees_input_create_sheet (t : string) : agrees same_input (create_sheet t).
Proof.
  unfold create_sheet.
  apply agrees_bind; [apply agrees_input_the_workbook | intros wb].
  apply agrees_bind; [apply agrees_input_set_workbook | intros ?]. apply agrees_ret.
Qed.

Lemma agrees_input_on_sheet {A} (i : nat) (m : M Worksheet A) :
  agrees same_input (on_sheet i m).
Proof.
  unfold on_sheet.
  apply agrees_bind; [apply agrees_input_the_workbook | intros wb].
  destruct (worksheets wb !! i) as [ws|].
  - destruct (m ws) as [r ws'].
    apply agrees_bind; [apply agrees_input_set_workbook | intros ?]. apply agrees_lift.
  - intros s1 s2 HR. by split.
Qed.

Lemma agrees_input_pd_read_csv (enc : Encoding) : agrees same_input (pd_read_csv enc).
Proof.
  intros s1 s2 HR. pose proof HR as [E1 E2]. unfold pd_read_csv. rewrite E2, E1.
  destruct (files (world s2) !! csv_file_path (self s2)); (split; [reflexivity | exact HR]).
Qed.

Lemma agrees_input_except {A} (body handler : M State A) :
  agrees same_input body -> agrees same_input handler ->
  agrees same_input (except_decode_error body handler).
Proof.
  intros Hb Hh s1 s2 HR. destruct (Hb s1 s2 HR) as [Hr HR']. unfold except_decode_error.
  destruct (body s1) as [[a1|e1] t1], (body s2) as [[a2|e2] t2]; simpl in Hr, HR';
    try discriminate Hr; [done|].
  injection Hr as ->. destruct (exn_class e2); try done. by apply Hh.
Qed.

Lemma agrees_input_load_data : agrees same_input load_data.
Proof.
  unfold load_data.
  apply agrees_bind; [apply agrees_gets; by intros s1 s2 [-> _] | intros path].
  apply agrees_bind; [apply agrees_input_print | intros ?].
  apply agrees_bind; [|intros df].
  { repeat apply agrees_input_except; apply agrees_input_pd_read_csv. }
  apply agrees_bind; [apply agrees_input_set_data | intros ?].
  apply agrees_bind; [apply agrees_input_print | intros ?].
  apply agrees_bind; [apply agrees_input_set_data | intros ?]. apply agrees_ret.
Qed.

Lemma agrees_input_create_workbook : agrees same_input create_workbook.
Proof.
  unfold create_workbook.
  apply agrees_bind; [apply agrees_input_print | intros ?].
  apply agrees_bind; [apply agrees_input_set_workbook | intros ?]. apply agrees_ret.
Qed.

Lemma agrees_input_create_main_data_sheet : agrees same_input create_main_data_sheet.
Proof.
  unfold create_main_data_sheet.
  apply agrees_bind; [apply agrees_input_print | intros ?].
  apply agrees_bind; [apply agrees_input_create_sheet | intros ws].
  apply agrees_bind; [apply agrees_input_the_data | intros df].
  apply agrees_bind; [apply agrees_input_on_sheet | intros ?]. apply agrees_ret.
Qed.

End SameInput.

Section Alike.
Context `{Library}.
Local Open Scope nat_scope.

Lemma same_values_but_refl (D : Addr -> Prop) ws : same_values_but D ws ws.
Proof. by repeat split. Qed.

Lemma workbooks_alike_refl (k : nat) w : workbooks_alike k w w.
Proof.
  do 5 (split; [done|]). intros i ws1 ws2 E1 E2. rewrite E1 in E2. injection E2 as <-.
  apply same_values_but_refl.
Qed.

Lemma alike_titles (k : nat) w1 w2 :
  workbooks_alike k w1 w2 -> map title (worksheets w1) = map title (worksheets w2).
Proof.
  intros (_ & _ & _ & _ & Hlen & Hs). apply list_eq. intros i.
  rewrite !list_lookup_fmap.
  destruct (worksheets w1 !! i) as [ws1|] eqn:E1, (worksheets w2 !! i) as [ws2|] eqn:E2;
    simpl; [|exfalso..|done].
  - f_equal. by destruct (Hs i ws1 ws2 E1 E2) as [-> _].
  - apply lookup_lt_Some in E1. apply lookup_ge_None in E2. lia.
  - apply lookup_lt_Some in E2. apply lookup_ge_None in E1. lia.
Qed.

Lemma workbooks_alike_snoc (k : nat) w1 w2 ws1 ws2 :
  workbooks_alike k w1 w2 ->
  same_values_but (fun b => length (worksheets w1) = k /\ b = stamp_cell) ws1 ws2 ->
  workbooks_alike k (with_sheets (worksheets w1 ++ [ws1]) w1)
                    (with_sheets (worksheets w2 ++ [ws2]) w2).
Proof.
  intros (Ha & Ht & Hsu & Hc & Hlen & Hs) Hnew. unfold workbooks_alike. simpl.
  do 4 (split; [done|]). split; [by rewrite !length_app, Hlen|].
  intros i s1 s2 E1 E2.
  destruct (decide (i < length (worksheets w1))) as [Hi|Hi].
  - rewrite lookup_app_l in E1 by done. rewrite lookup_app_l in E2 by lia. by apply Hs.
  - rewrite lookup_app_r in E1 by lia. rewrite lookup_app_r in E2 by lia.
    rewrite <- Hlen in E2.
    destruct (i - length (worksheets w1)) as [|j] eqn:Ej; simpl in E1, E2; [|done].
    injection E1 as <-. injection E2 as <-.
    destruct Hnew as (H1 & H2 & H3 & H4). do 3 (split; [done|]).
    intros b Hb. apply H4. intros [Hk ->]. apply Hb. split; [lia | done].
Qed.

(** A stage that adds a sheet and fills it from the table. *)
Lemma sheet_stage_alike {A} (k : nat) (line t : string) (body : DataFrame -> M Worksheet A) :
  agrees (alike k)
    (print line ;; ws ← create_sheet t; df ← the_data; on_sheet ws (body df) ;; mret ws).
Proof.
  intros s1 s2 (Hp & Ho & df & w1 & w2 & Ed1 & Ed2 & Ew1 & Ew2 & Hw).
  unfold print. rewrite !bind_modify.
  destruct (body df (new_worksheet (avoid_duplicate_name (map title (worksheets w1)) t)))
    as [r ws'] eqn:Eb.
  rewrite (sheet_stage_run (with_world (log line) s1) w1 df t body r ws' Ew1 Ed1 Eb).
  rewrite (alike_titles k w1 w2 Hw) in Eb.
  rewrite (sheet_stage_run (with_world (log line) s2) w2 df t body r ws' Ew2 Ed2 Eb).
  split; [cbn [fst]; by rewrite (proj1 (proj2 (proj2 (proj2 (proj2 Hw)))))|].
  cbn [snd]. split; [done|]. split; [done|].
  eexists df, _, _. do 4 (split; [done|]).
  apply workbooks_alike_snoc; [done | apply same_values_but_refl].
Qed.

Lemma new_sheet_alike {A} (k : nat) (t : string) (body : M Worksheet A) :
  agrees (alike k) (ws ← create_sheet t; on_sheet ws body).
Proof.
  intros s1 s2 (Hp & Ho & df & w1 & w2 & Ed1 & Ed2 & Ew1 & Ew2 & Hw).
  destruct (body (new_worksheet (avoid_duplicate_name (map title (worksheets w1)) t)))
    as [r ws'] eqn:Eb.
  rewrite (new_sheet_run s1 w1 t body r ws' Ew1 Eb).
  rewrite (alike_titles k w1 w2 Hw) in Eb.
  rewrite (new_sheet_run s2 w2 t body r ws' Ew2 Eb).
  split; [done|]. split; [done|]. split; [done|].
  eexists df, _, _. do 4 (split; [done|]).
  apply workbooks_alike_snoc; [done | apply same_values_but_refl].
Qed.

Lemma agrees_alike_print (k : nat) (line : string) : agrees (alike k) (print line).
Proof. apply agrees_modify. by intros s1 s2 HR. Qed.

Lemma agrees_alike_the_data (k : nat) : agrees (alike k) the_data.
Proof.
  intros s1 s2 HR. pose proof HR as (_ & _ & df & w1 & w2 & Ed1 & Ed2 & _).
  by rewrite (the_data_run s1 df Ed1), (the_data_run s2 df Ed2).
Qed.

Lemma agrees_alike_create_charts_sheet (k : nat) : agrees (alike k) create_charts_sheet.
Proof. apply sheet_stage_alike. Qed.

Lemma agrees_alike_create_filtered_sheets (k : nat) :
  agrees (alike k) create_filtered_sheets.
Proof.
  unfold create_filtered_sheets.
  apply agrees_bind; [apply agrees_alike_print | intros ?].
  apply agrees_bind; [apply agrees_alike_the_data | intros df].
  apply agrees_for_each. intros col _. unfold analyse_column.
  apply agrees_bind; [apply agrees_lift | intros c].
  destruct (few_categories c); [|apply agrees_ret].
  destruct (several_counts c); [|apply agrees_ret].
  apply new_sheet_alike.
Qed.

Lemma agrees_alike_finalize_workbook (k : nat) : agrees (alike k) finalize_workbook.
Proof.
  intros s1 s2 (Hp & Ho & df & w1 & w2 & Ed1 & Ed2 & Ew1 & Ew2 & Hw).
  unfold finalize_workbook, print. rewrite !bind_modify.
  rewrite (bind_Ok _ _ _ _ _ (the_workbook_run (with_world _ s1) w1 Ew1)).
  rewrite (bind_Ok _ _ _ _ _ (the_workbook_run (with_world _ s2) w2 Ew2)).
  rewrite !bind_gets.
  split; [done|]. split; [done|]. split; [done|].
  eexists df, _, _. do 2 (split; [done|]). do 2 (split; [reflexivity|]).
  destruct Hw as (Ha & Ht & Hsu & Hc & Hlen & Hs).
  unfold workbooks_alike. cbn [active properties worksheets prop_title prop_subject
                               prop_creator].
  rewrite Hlen, Ha. done.
Qed.

End Alike.

Section TwoRuns.
Context `{Library}.
Local Open Scope nat_scope.

Lemma void_run {A} (m : M State A) st :
  (m ;; mret tt) st
  = (match fst (m st) with Ok _ => Ok tt | Raise e => Raise e end, snd (m st)).
Proof. unfold mbind, M_bind. by destruct (m st) as [[a|e] s]. Qed.

Lemma void_snd {A} (m : M State A) st (r : result unit) s :
  (m ;; mret tt) st = (r, s) -> s = snd (m st).
Proof. rewrite void_run. by intros [= _ <-]. Qed.

Lemma void_Ok_inv {A} (m : M State A) st s :
  (m ;; mret tt) st = (Ok tt, s) -> exists a, m st = (Ok a, s).
Proof.
  rewrite void_run. destruct (m st) as [[a|e] s']; simpl; [|discriminate].
  intros [= <-]. by exists a.
Qed.

(** One step of two runs of the stages side by side. *)
Lemma run_stages_step (Q : Converter -> Converter -> Prop) (stage : M State unit) rest
    st1 st2 :
  fst (stage st1) = fst (stage st2) ->
  Q (self (snd (stage st1))) (self (snd (stage st2))) ->
  (forall s1 s2, stage st1 = (Ok tt, s1) -> stage st2 = (Ok tt, s2) ->
     fst (run_stages rest s1) = fst (run_stages rest s2) /\
     Q (self (snd (run_stages rest s1))) (self (snd (run_stages rest s2)))) ->
  fst (run_stages (stage :: rest) st1) = fst (run_stages (stage :: rest) st2) /\
  Q (self (snd (run_stages (stage :: rest) st1)))
    (self (snd (run_stages (stage :: rest) st2))).
Proof.
  intros Hr HQ Hrest. unfold run_stages in *. simpl. unfold mbind, M_bind.
  destruct (stage st1) as [[[]|e1] s1], (stage st2) as [[[]|e2] s2]; simpl in Hr, HQ;
    try discriminate Hr.
  - by apply Hrest.
  - injection Hr as ->. done.
Qed.

Lemma same_input_rerun_alike st1 st2 :
  same_input st1 st2 -> rerun_alike (self st1) (self st2).
Proof.
  intros [E _]. rewrite E. unfold rerun_alike. do 3 (split; [done|]).
  destruct (workbook (self st2)); [apply workbooks_alike_refl | done].
Qed.

Lemma alike_rerun_alike st1 st2 : alike 1 st1 st2 -> rerun_alike (self st1) (self st2).
Proof.
  intros (Hp & Ho & df & w1 & w2 & Ed1 & Ed2 & Ew1 & Ew2 & Hw).
  unfold rerun_alike. rewrite Ed1, Ed2, Ew1, Ew2. done.
Qed.

(** The summary sheet stage, as a function of the table, the workbook and
    the time read. *)
Lemma create_summary_sheet_explicit st df wb :
  data (self st) = Some df -> workbook (self st) = Some wb ->
  let t := avoid_duplicate_name (map title (worksheets wb)) "Data Summary" in
  let ws_h := snd (summary_head df (new_worksheet t)) in
  let stamp := strftime_datetime (clock (world st) (ticks (world st))) in
  fst (create_summary_sheet st)
  = match fst (summary_body df stamp ws_h) with
    | Ok _ => Ok (length (worksheets wb))
    | Raise e => Raise e
    end /\
  self (snd (create_summary_sheet st))
  = put_workbook (with_sheets (worksheets wb ++ [snd (summary_body df stamp ws_h)]) wb)
      (self st) /\
  world (snd (create_summary_sheet st))
  = tick (log "Creating summary sheet..." (world st)).
Proof.
  intros Edf Ewb t ws_h stamp.
  destruct (summary_head_run df (new_worksheet t) eq_refl) as (ws_h' & Eh & _).
  assert (ws_h = ws_h') as Ews by (unfold ws_h; by rewrite Eh).
  rewrite <- Ews in Eh. clear Ews ws_h'.
  destruct (summary_body df stamp ws_h) as [r ws] eqn:Eb.
  unfold create_summary_sheet, print. rewrite bind_modify.
  set (st1 := with_world (log "Creating summary sheet...") st).
  rewrite (bind_Ok _ _ _ _ _ (create_sheet_run st1 wb "Data Summary" Ewb)).
  fold t. set (st2 := with_self _ st1).
  rewrite (bind_Ok _ _ _ _ _ (the_data_run st2 df Edf)).
  assert (worksheets (with_sheets (worksheets wb ++ [new_worksheet t]) wb)
          !! length (worksheets wb) = Some (new_worksheet t)) as Ei1.
  { simpl. by rewrite lookup_app_r, Nat.sub_diag. }
  pose proof (on_sheet_run st2 _ _ _ _ _ _ eq_refl Ei1 Eh) as Eo.
  simpl in Eo. rewrite insert_app_r_alt, Nat.sub_diag in Eo by done. simpl in Eo.
  rewrite (bind_Ok _ _ _ _ _ Eo). clear Eo.
  set (st3 := with_self _ st2).
  assert (now st3 = (Ok (clock (world st) (ticks (world st))), with_world tick st3))
    as Enow by done.
  rewrite (bind_Ok _ _ _ _ _ Enow).
  assert (worksheets (with_sheets (worksheets wb ++ [ws_h])
                        (with_sheets (worksheets wb ++ [new_worksheet t]) wb))
          !! length (worksheets wb) = Some ws_h) as Ei2.
  { simpl. by rewrite lookup_app_r, Nat.sub_diag. }
  pose proof (on_sheet_run (with_world tick st3) _ _ _ _ _ _ eq_refl Ei2 Eb) as Eo.
  simpl in Eo. rewrite insert_app_r_alt, Nat.sub_diag in Eo by done. simpl in Eo.
  fold stamp. destruct r as [[]|e].
  - rewrite (bind_Ok _ _ _ _ _ Eo). done.
  - rewrite (bind_Raise _ _ _ _ _ Eo). done.
Qed.

(** Two summary sheets made from the same converter at different times. *)
Lemma create_summary_sheet_alike st1 st2 df wb :
  self st1 = self st2 -> data (self st1) = Some df -> workbook (self st1) = Some wb ->
  fst (create_summary_sheet st1) = fst (create_summary_sheet st2) /\
  alike (length (worksheets wb)) (snd (create_summary_sheet st1))
        (snd (create_summary_sheet st2)).
Proof.
  intros Es Edf Ewb.
  destruct (create_summary_sheet_explicit st1 df wb Edf Ewb) as (Hr1 & Hs1 & _).
  destruct (create_summary_sheet_explicit st2 df wb) as (Hr2 & Hs2 & _);
    [by rewrite <- Es | by rewrite <- Es |].
  cbv zeta in *.
  set (ws_h := snd (summary_head df (new_worksheet
                 (avoid_duplicate_name (map title (worksheets wb)) "Data Summary")))) in *.
  destruct (summary_body_agree df
              (strftime_datetime (clock (world st1) (ticks (world st1))))
              (strftime_datetime (clock (world st2) (ticks (world st2)))) ws_h)
    as [Hr Hv].
  split; [by rewrite Hr1, Hr2, Hr|].
  unfold alike. rewrite Hs1, Hs2, <- Es. cbn [csv_file_path output_file_path put_workbook
                                               data workbook].
  split; [done|]. split; [done|].
  eexists df, _, _. do 4 (split; [done|]).
  apply workbooks_alike_snoc; [apply workbooks_alike_refl|].
  destruct Hv as (H1 & H2 & H3 & H4). do 3 (split; [done|]).
  intros b Hb. apply H4. intros ->. by apply Hb.
Qed.

End TwoRuns.

Section TwoRunsOfTheStages.
Context `{Library}.
Local Open Scope nat_scope.

(** When the main data sheet stage returns, the converter holds its table
    and the workbook with one more sheet. *)
Lemma create_main_data_sheet_shape st wb (n : nat) st' :
  workbook (self st) = Some wb ->
  create_main_data_sheet st = (Ok n, st') ->
  exists df ws,
    data (self st') = Some df /\
    workbook (self st') = Some (with_sheets (worksheets wb ++ [ws]) wb).
Proof.
  intros Ewb. unfold create_main_data_sheet, print. rewrite bind_modify.
  set (st1 := with_world _ st).
  destruct (data (self st)) as [df|] eqn:Edf.
  - destruct (main_data_body df
                (new_worksheet (avoid_duplicate_name (map title (worksheets wb))
                                  "Complete Data"))) as [r ws] eqn:Eb.
    rewrite (sheet_stage_run st1 wb df _ main_data_body r ws Ewb Edf Eb).
    intros [= _ <-]. by exists df, ws.
  - rewrite (bind_Ok _ _ _ _ _ (create_sheet_run st1 wb "Complete Data" Ewb)).
    unfold the_data at 1. unfold mbind at 1, M_bind at 1. cbn [self with_self data put_workbook].
    unfold st1. cbn [self with_world]. rewrite Edf. discriminate.
Qed.

Lemma last_stages_agree st1 st2 :
  alike 1 st1 st2 ->
  fst (run_stages [create_charts_sheet ;; mret tt; create_filtered_sheets;
                   finalize_workbook] st1)
  = fst (run_stages [create_charts_sheet ;; mret tt; create_filtered_sheets;
                     finalize_workbook] st2) /\
  alike 1 (snd (run_stages [create_charts_sheet ;; mret tt; create_filtered_sheets;
                            finalize_workbook] st1))
          (snd (run_stages [create_charts_sheet ;; mret tt; create_filtered_sheets;
                            finalize_workbook] st2)).
Proof.
  apply agrees_for_each. intros stage Hin.
  repeat (apply elem_of_cons in Hin as [->|Hin]).
  - apply agrees_bind; [apply agrees_alike_create_charts_sheet | intros ?; apply agrees_ret].
  - apply agrees_alike_create_filtered_sheets.
  - apply agrees_alike_finalize_workbook.
  - by apply elem_of_nil in Hin.
Qed.

(** Two runs of the stages before the save on the same converter and the
    same input file return or raise alike, and leave like converters. *)
Lemma seven_stages_agree st1 st2 :
  same_input st1 st2 ->
  fst (run_stages (take 7 stages) st1) = fst (run_stages (take 7 stages) st2) /\
  rerun_alike (self (snd (run_stages (take 7 stages) st1)))
              (self (snd (run_stages (take 7 stages) st2))).
Proof.
  intros HR0.
  change (take 7 stages)
    with [load_data ;; mret tt; create_workbook ;; mret tt;
          create_main_data_sheet ;; mret tt; create_summary_sheet ;; mret tt;
          create_charts_sheet ;; mret tt; create_filtered_sheets; finalize_workbook].
  destruct (agrees_input_load_data st1 st2 HR0) as [Hr1 HR1].
  apply run_stages_step.
  { rewrite !void_run. cbn [fst]. by rewrite Hr1. }
  { rewrite !void_run. cbn [snd]. by apply same_input_rerun_alike. }
  intros s1 s2 E1 E2.
  assert (HRa : same_input s1 s2).
  { apply void_snd in E1 as ->. apply void_snd in E2 as ->. exact HR1. }
  clear E1 E2 Hr1 HR1.
  destruct (agrees_input_create_workbook s1 s2 HRa) as [Hr2 HR2].
  apply run_stages_step.
  { rewrite !void_run. cbn [fst]. by rewrite Hr2. }
  { rewrite !void_run. cbn [snd]. by apply same_input_rerun_alike. }
  intros t1 t2 E1 E2.
  assert (HRb : same_input t1 t2).
  { rewrite (void_snd _ _ _ _ E1), (void_snd _ _ _ _ E2). exact HR2. }
  assert (Ewb : workbook (self t1) = Some empty_workbook).
  { destruct (create_workbook_run s1) as (t1' & Ec & Ew & _).
    rewrite (void_snd _ _ _ _ E1), Ec. exact Ew. }
  clear E1 E2 Hr2 HR2.
  destruct (agrees_input_create_main_data_sheet t1 t2 HRb) as [Hr3 HR3].
  apply run_stages_step.
  { rewrite !void_run. cbn [fst]. by rewrite Hr3. }
  { rewrite !void_run. cbn [snd]. by apply same_input_rerun_alike. }
  intros u1 u2 E1 E2.
  assert (HRc : same_input u1 u2).
  { rewrite (void_snd _ _ _ _ E1), (void_snd _ _ _ _ E2). exact HR3. }
  apply void_Ok_inv in E1 as [n E1].
  destruct (create_main_data_sheet_shape t1 empty_workbook n u1 Ewb E1)
    as (df & ws & Edf & Ewb3).
  clear E1 E2 Hr3 HR3.
  destruct (create_summary_sheet_alike u1 u2 df _ (proj1 HRc) Edf Ewb3) as [Hr4 HR4].
  change (length (worksheets (with_sheets (worksheets empty_workbook ++ [ws])
                                empty_workbook))) with 1 in HR4.
  apply run_stages_step.
  { rewrite !void_run. cbn [fst]. by rewrite Hr4. }
  { rewrite !void_run. cbn [snd]. by apply alike_rerun_alike. }
  intros v1 v2 E1 E2.
  assert (HRd : alike 1 v1 v2).
  { rewrite (void_snd _ _ _ _ E1), (void_snd _ _ _ _ E2). exact HR4. }
  destruct (last_stages_agree v1 v2 HRd) as [Hr5 HR5].
  split; [exact Hr5 | by apply alike_rerun_alike].
Qed.

End TwoRunsOfTheStages.

Section TwoRunsOfConvert.
Context `{Library}.
Local Open Scope nat_scope.

#[global] Instance same_self_preorder : PreOrder same_self.
Proof. split; [by intros st | intros a b c; unfold same_self; congruence]. Qed.

Lemma save_output_self st : self (snd (save_output st)) = self st.
Proof.
  unfold save_output. rewrite bind_gets. unfold print. rewrite bind_modify.
  unfold save, the_workbook, write_file, mbind, M_bind. cbn [self with_world world].
  destruct (workbook (self st)) as [wb|]; [|done].
  by case_decide.
Qed.

Lemma report_success_self st : self (snd (report_success st)) = self st.
Proof.
  symmetry. apply (keeps_stage_report_success same_self); first [apply _ | by intros].
Qed.

(** The save and the report leave the converter as the stages before the
    save left it. *)
Lemma convert_self st :
  self (snd (convert st)) = self (snd (run_stages (take 7 stages) (snd (opening st)))).
Proof.
  rewrite convert_as_stages. unfold try_except.
  unfold mbind at 1, M_bind at 1. rewrite run_all_stages.
  unfold mbind at 1, M_bind at 1.
  destruct (run_stages (take 7 stages) (snd (opening st))) as [[[]|e] s7]; [|done].
  pose proof (save_output_self s7) as Hs.
  destruct (save_output s7) as [[[]|e] s8]; cbn [snd] in *; [|done].
  pose proof (report_success_self s8) as Hr.
  unfold mbind, M_bind.
  destruct (report_success s8) as [[[]|e] s9]; cbn [snd] in *.
  - change (self s9 = self s7). congruence.
  - change (self s9 = self s7). congruence.
Qed.

(** Two runs of [convert] on the same converter and the same input file, at
    different times and in different environments otherwise, leave the same
    table and workbooks with the same sheets in the same order and the same
    value in every cell, but for the time stamp in B5 of the second sheet;
    the active sheet and the title, subject and creator of the workbooks
    are the same (the description carries the date). *)
Theorem reruns_differ_in_time_stamp_only st1 st2 :
  same_input st1 st2 ->
  rerun_alike (self (snd (convert st1))) (self (snd (convert st2))).
Proof.
  intros HR. rewrite !convert_self.
  apply seven_stages_agree. rewrite !opening_run. cbn [snd]. exact HR.
Qed.

End TwoRunsOfConvert.

(** The same file converted on two days: the sheets have the same titles,
    and B5 of the summary sheet tells the two times. *)
Lemma reruns_differ_in_time_stamp_only_witness :
  rerun_alike
    (self (snd (convert (H := sample_library (fun _ => Ok table_AB)) fresh)))
    (self (snd (convert (H := sample_library (fun _ => Ok table_AB)) fresh_later))) /\
  stamp_of (self (snd (convert (H := sample_library (fun _ => Ok table_AB)) fresh)))
  = Some (VStr "2025-08-03 09:05:00") /\
  stamp_of (self (snd (convert (H := sample_library (fun _ => Ok table_AB)) fresh_later)))
  = Some (VStr "2025-08-04 17:30:59").
Proof.
  split; [|split].
  - apply (reruns_differ_in_time_stamp_only (H := sample_library (fun _ => Ok table_AB))).
    split; reflexivity.
  - vm_compute. reflexivity.
  - vm_compute. reflexivity.
Defined.
